(** * Canvas course builder: change detection, link resolution, reconciliation

    A shallow embedding of [canvas_course_builder.py]: the text normaliser
    ([markdown_to_html_basic], [normalize_html]), the change detector
    ([ContentComparator]), the request payloads built by [CanvasAPI], the
    internal link resolver ([LinkResolver]) and the multi-phase
    [CourseBuilder.build].

    Conventions of the embedding.
    - A Python [str] is a [string]; a character is a code point below 256.
    - A value decoded from a JSON response is a [pyval].
    - Code that can raise returns a [result]; the builder runs in a state
      and exception monad whose state records every call made to the API.
    - Functions of the Python standard library whose behaviour is not part
      of this repository ([html.unescape], [HTMLParser.feed], [repr] of
      floats and containers, the local time zone) are Section variables. *)

From Stdlib Require Import ZArith QArith Qcanon Ascii String List Bool Lia.
From Stdlib Require Import DecimalString.
From stdpp Require Import base option list gmap strings.

#[local] Set Warnings "-register-all".

Local Open Scope string_scope.
Local Open Scope list_scope.

(** ** Characters and strings *)

Definition code (c : ascii) : nat := nat_of_ascii c.

(** [str.isspace] on one code point below 256; [\s] of [re] on [str]
    patterns is the same class. *)
Definition is_space (c : ascii) : bool :=
  let n := code c in
  (Nat.leb 9 n && Nat.leb n 13) || (Nat.leb 28 n && Nat.leb n 32)
  || Nat.eqb n 133 || Nat.eqb n 160.

Definition lower_char (c : ascii) : ascii :=
  let n := code c in
  if (Nat.leb 65 n && Nat.leb n 90)
     || (Nat.leb 192 n && Nat.leb n 222 && negb (Nat.eqb n 215))
  then ascii_of_nat (n + 32) else c.

Fixpoint lower (s : string) : string :=
  match s with
  | EmptyString => EmptyString
  | String c s' => String (lower_char c) (lower s')
  end.

Fixpoint lstrip (s : string) : string :=
  match s with
  | String c s' => if is_space c then lstrip s' else s
  | EmptyString => EmptyString
  end.

(** Drops trailing white space: a character is kept when something
    non-blank follows it or it is itself non-blank. *)
Fixpoint rstrip (s : string) : string :=
  match s with
  | EmptyString => EmptyString
  | String c s' =>
      match rstrip s' with
      | EmptyString => if is_space c then EmptyString else String c EmptyString
      | t => String c t
      end
  end.

Definition strip (s : string) : string := rstrip (lstrip s).

Definition nonempty (s : string) : bool :=
  match s with EmptyString => false | _ => true end.

(** A decimal digit. *)
Definition is_digit (c : ascii) : bool :=
  Nat.leb 48 (code c) && Nat.leb (code c) 57.

(** The number written with the next [n] digits, after [acc], and the
    text after them. *)
Fixpoint read_digits (n acc : nat) (s : string) : option (nat * string) :=
  match n with
  | O => Some (acc, s)
  | S n' =>
      match s with
      | String c s' =>
          if is_digit c then read_digits n' (10 * acc + (code c - 48)) s' else None
      | EmptyString => None
      end
  end.

(** A number of [n] digits and the character [c] after it. *)
Definition read_field (n : nat) (c : ascii) (s : string) : option (nat * string) :=
  match read_digits n 0 s with
  | Some (k, String a s') => if Ascii.eqb a c then Some (k, s') else None
  | _ => None
  end.

Fixpoint join (sep : string) (l : list string) : string :=
  match l with
  | [] => ""
  | [x] => x
  | x :: l' => x +:+ sep +:+ join sep l'
  end.

Fixpoint is_prefix (p s : string) : bool :=
  match p, s with
  | EmptyString, _ => true
  | String a p', String b s' => if Ascii.eqb a b then is_prefix p' s' else false
  | String _ _, EmptyString => false
  end.

(** [needle in s] *)
Fixpoint contains (needle s : string) : bool :=
  is_prefix needle s ||
  match s with
  | EmptyString => false
  | String _ s' => contains needle s'
  end.

(** [s.split(sep)[-1]] for a one-character separator: the text after the
    last separator, the whole string when there is none. *)
Fixpoint last_segment (sep : ascii) (s : string) : string :=
  match s with
  | EmptyString => EmptyString
  | String c s' =>
      if Ascii.eqb c sep
      then last_segment sep s'
      else if contains (String sep EmptyString) s' then last_segment sep s'
      else s
  end.

Definition string_of_nat (n : nat) : string :=
  NilEmpty.string_of_uint (Nat.to_uint n).

Definition string_of_Z (z : Z) : string :=
  match z with
  | Z0 => "0"
  | Zpos p => string_of_nat (Pos.to_nat p)
  | Zneg p => "-" +:+ string_of_nat (Pos.to_nat p)
  end.

(** ** Regular expressions

    The fragment of [re] that the patterns of the source use, with the
    backtracking, leftmost, greedy semantics of [re]. A position is the
    text still to read together with the character before it, which is all
    that [^] under [re.MULTILINE] and a one-character look-behind need. *)

Inductive regex : Type :=
| Lit (l : string)                 (* a literal text *)
| Plus (p : ascii -> bool)         (* [c+] for a character class, greedy *)
| Cat (r1 r2 : regex)
| Alt (r1 r2 : regex)              (* [r1|r2], left first *)
| Group (n : nat) (r : regex)      (* capturing group number n *)
| Bol                              (* [^] under MULTILINE *)
| Eol                              (* [$] under MULTILINE *)
| NotBehind (c : ascii)            (* [(?<!c)] *)
| NotAhead (c : ascii).            (* [(?!c)] *)

Definition captures := list (nat * string).

Fixpoint group (n : nat) (caps : captures) : string :=
  match caps with
  | [] => ""
  | (m, s) :: caps' => if Nat.eqb m n then s else group n caps'
  end.

Definition rx_result : Type := captures * string.
Definition rx_cont : Type := option ascii -> string -> captures -> option rx_result.

Fixpoint lit_prefix (l : string) (prev : option ascii) (s : string)
  : option (option ascii * string) :=
  match l with
  | EmptyString => Some (prev, s)
  | String a l' =>
      match s with
      | String b s' => if Ascii.eqb a b then lit_prefix l' (Some b) s' else None
      | EmptyString => None
      end
  end.

(** Zero or more characters of the class, longest first, giving one back
    at a time while the continuation fails. *)
Fixpoint star (p : ascii -> bool) (prev : option ascii) (s : string)
  (k : option ascii -> string -> option rx_result) : option rx_result :=
  match s with
  | String c s' =>
      if p c
      then match star p (Some c) s' k with
           | Some r => Some r
           | None => k prev s
           end
      else k prev s
  | EmptyString => k prev s
  end.

Definition newline : ascii := ascii_of_nat 10.

Definition at_bol (prev : option ascii) : bool :=
  match prev with
  | None => true
  | Some c => Ascii.eqb c newline
  end.

Definition at_eol (s : string) : bool :=
  match s with
  | EmptyString => true
  | String c _ => Ascii.eqb c newline
  end.

(** The text read between position [s] and the later position [s']. *)
Definition consumed (s s' : string) : string :=
  substring 0 (String.length s - String.length s') s.

Arguments consumed : simpl never.

Fixpoint rx (r : regex) (prev : option ascii) (s : string) (caps : captures)
  (k : rx_cont) : option rx_result :=
  match r with
  | Lit l =>
      match lit_prefix l prev s with
      | Some (prev', s') => k prev' s' caps
      | None => None
      end
  | Plus p =>
      match s with
      | String c s' =>
          if p c then star p (Some c) s' (fun prev' s'' => k prev' s'' caps)
          else None
      | EmptyString => None
      end
  | Cat r1 r2 => rx r1 prev s caps (fun prev' s' caps' => rx r2 prev' s' caps' k)
  | Alt r1 r2 =>
      match rx r1 prev s caps k with
      | Some res => Some res
      | None => rx r2 prev s caps k
      end
  | Group n r' =>
      rx r' prev s caps
        (fun prev' s' caps' => k prev' s' ((n, consumed s s') :: caps'))
  | Bol => if at_bol prev then k prev s caps else None
  | Eol => if at_eol s then k prev s caps else None
  | NotBehind c =>
      match prev with
      | Some b => if Ascii.eqb b c then None else k prev s caps
      | None => k prev s caps
      end
  | NotAhead c =>
      match s with
      | String b _ => if Ascii.eqb b c then None else k prev s caps
      | EmptyString => k prev s caps
      end
  end.

(** [pattern.match] at one position: the groups and the text that is left. *)
Definition rx_match (r : regex) (prev : option ascii) (s : string)
  : option rx_result :=
  rx r prev s [] (fun _ s' caps => Some (caps, s')).

(** [pattern.search]: is there a match at some position? *)
Fixpoint rx_search (r : regex) (prev : option ascii) (s : string) : bool :=
  match rx_match r prev s with
  | Some _ => true
  | None =>
      match s with
      | EmptyString => false
      | String c s' => rx_search r (Some c) s'
      end
  end.

(** The left-to-right scan behind [pattern.sub] and [pattern.finditer]:
    the leftmost non-overlapping matches and the characters between them.
    [skip] counts the characters of the current match that are still to be
    passed over. An empty match is reported and the next character copied,
    as [re] does. *)
Inductive piece : Type :=
| Copied (c : ascii)
| Matched (caps : captures).

Fixpoint rx_scan (r : regex) (prev : option ascii) (s : string) (skip : nat)
  : list piece :=
  match s with
  | EmptyString =>
      match skip with
      | O => match rx_match r prev s with
             | Some (caps, _) => [Matched caps]
             | None => []
             end
      | S _ => []
      end
  | String c s' =>
      match skip with
      | S n => rx_scan r (Some c) s' n
      | O =>
          match rx_match r prev s with
          | Some (caps, rest) =>
              Matched caps ::
              match String.length s - String.length rest with
              | O => Copied c :: rx_scan r (Some c) s' 0
              | S n => rx_scan r (Some c) s' n
              end
          | None => Copied c :: rx_scan r (Some c) s' 0
          end
      end
  end.

Definition piece_text (repl : captures -> string) (p : piece) : string :=
  match p with
  | Copied c => String c EmptyString
  | Matched caps => repl caps
  end.

Fixpoint concat_strings (l : list string) : string :=
  match l with
  | [] => EmptyString
  | x :: l' => x +:+ concat_strings l'
  end.

(** [pattern.sub(repl, s)] *)
Definition rx_sub (r : regex) (repl : captures -> string) (s : string) : string :=
  concat_strings (map (piece_text repl) (rx_scan r None s 0)).

(** Character classes of the patterns. *)
Definition any_but (c : ascii) (x : ascii) : bool := negb (Ascii.eqb x c).
Definition dot (x : ascii) : bool := any_but newline x.

(** ** [markdown_to_html_basic] *)

Definition wrap (open_ close_ : string) (caps : captures) : string :=
  open_ +:+ group 1 caps +:+ close_.

(** At the start of a line: the marker, white space, the rest of the line
    (group 1, at least one character), the end of the line. *)
Definition heading_re (hashes : string) : regex :=
  Cat Bol (Cat (Lit hashes) (Cat (Plus is_space) (Cat (Group 1 (Plus dot)) Eol))).

(** An opening bracket, the link text (group 1, no closing bracket), a
    closing bracket and an opening parenthesis, the target (group 2, no
    closing parenthesis), a closing parenthesis. *)
Definition md_link_re : regex :=
  Cat (Lit "[") (Cat (Group 1 (Plus (any_but "]"%char)))
    (Cat (Lit "](") (Cat (Group 2 (Plus (any_but ")"%char))) (Lit ")")))).

(** Two stars, one or more characters other than a star (group 1), two
    stars. *)
Definition bold_re : regex :=
  Cat (Lit "**") (Cat (Group 1 (Plus (any_but "*"%char))) (Lit "**")).

(** One star, one or more characters other than a star (group 1), one
    star. *)
Definition italic_star_re : regex :=
  Cat (Lit "*") (Cat (Group 1 (Plus (any_but "*"%char))) (Lit "*")).

(** An underscore not preceded by a star, one or more characters other
    than an underscore (group 1), an underscore not followed by a star. *)
Definition italic_underscore_re : regex :=
  Cat (NotBehind "*"%char) (Cat (Lit "_")
    (Cat (Group 1 (Plus (any_but "_"%char))) (Cat (Lit "_") (NotAhead "*"%char)))).

Definition dquote : string := String (ascii_of_nat 34) EmptyString.

Definition markdown_to_html_basic (text : string) : string :=
  let text := rx_sub (heading_re "####") (wrap "<h4>" "</h4>") text in
  let text := rx_sub (heading_re "###") (wrap "<h3>" "</h3>") text in
  let text := rx_sub (heading_re "##") (wrap "<h2>" "</h2>") text in
  let text := rx_sub (heading_re "#") (wrap "<h1>" "</h1>") text in
  let text := rx_sub (heading_re "-") (wrap "<li>" "</li>") text in
  let text := rx_sub (heading_re "*") (wrap "<li>" "</li>") text in
  let text :=
    rx_sub md_link_re
      (fun caps => "<a href=" +:+ dquote +:+ group 2 caps +:+ dquote +:+ ">"
                   +:+ group 1 caps +:+ "</a>") text in
  let text := rx_sub bold_re (wrap "<strong>" "</strong>") text in
  let text := rx_sub italic_star_re (wrap "<em>" "</em>") text in
  let text := rx_sub italic_underscore_re (wrap "<em>" "</em>") text in
  text.

(** ** Exceptions *)

Inductive exn : Type :=
| AttributeError | TypeError | KeyError | ValueError | HTTPError | ParseError
| YAMLError.

Inductive result (A : Type) : Type :=
| Ok (a : A)
| Raise (e : exn).

Arguments Ok {A} a.
Arguments Raise {A} e.

Definition rbind {A B : Type} (m : result A) (f : A -> result B) : result B :=
  match m with
  | Ok a => f a
  | Raise e => Raise e
  end.

(** [try: m  except Exception: h] *)
Definition try_except {A : Type} (m : result A) (h : exn -> result A) : result A :=
  match m with
  | Ok a => Ok a
  | Raise e => h e
  end.

Declare Scope result_scope.
Delimit Scope result_scope with result.
Notation "x <- m ;; f" := (rbind m (fun x => f))
  (at level 100, m at next level, right associativity) : result_scope.

(** ** Values decoded from JSON *)

Inductive pyval : Type :=
| VNone
| VBool (b : bool)
| VInt (z : Z)
| VFloat (q : Qc)
| VStr (s : string)
| VList (l : list pyval)
| VDict (d : list (string * pyval)).

(** Python truth value. *)
Definition truthy (v : pyval) : bool :=
  match v with
  | VNone => false
  | VBool b => b
  | VInt z => negb (Z.eqb z 0)
  | VFloat q => negb (Qeq_bool q 0)
  | VStr s => nonempty s
  | VList l => match l with [] => false | _ => true end
  | VDict d => match d with [] => false | _ => true end
  end.

Definition dict : Type := list (string * pyval).

(** [d.get(key)]: [None] in Python is [VNone] here, a missing key is the
    outer [None]. *)
Fixpoint dict_lookup (key : string) (d : dict) : option pyval :=
  match d with
  | [] => None
  | (k, v) :: d' => if String.eqb k key then Some v else dict_lookup key d'
  end.

(** [d.get(key, default)] *)
Definition dict_get (key : string) (default : pyval) (d : dict) : pyval :=
  match dict_lookup key d with
  | Some v => v
  | None => default
  end.

(** [d[key] = v] *)
Fixpoint dict_set (key : string) (v : pyval) (d : dict) : dict :=
  match d with
  | [] => [(key, v)]
  | (k, w) :: d' =>
      if String.eqb k key then (k, v) :: d' else (k, w) :: dict_set key v d'
  end.

(** [v.get(key, default)] for a value that should be a dictionary. *)
Definition val_get (key : string) (default : pyval) (v : pyval) : result pyval :=
  match v with
  | VDict d => Ok (dict_get key default d)
  | _ => Raise AttributeError
  end.

(** [local == v] for a local [str]. *)
Definition str_eq_val (s : string) (v : pyval) : bool :=
  match v with
  | VStr t => String.eqb s t
  | _ => false
  end.

(** [local == v] for a local [float]; a finite float is a rational, and
    Python compares numbers of different types by value. *)
Definition num_eq_val (x : Qc) (v : pyval) : bool :=
  match v with
  | VBool b => Qc_eq_bool x (if b then 1%Qc else 0%Qc)
  | VInt z => Qc_eq_bool x (Q2Qc (inject_Z z))
  | VFloat q => Qc_eq_bool x q
  | _ => false
  end.

(** [local == v] for a local [bool], which Python compares as 0 or 1. *)
Definition bool_eq_val (b : bool) (v : pyval) : bool :=
  num_eq_val (if b then 1%Qc else 0%Qc) v.

(** [set(v)]: the elements of a list (which must be hashable), the
    characters of a string, the keys of a dictionary. *)
Definition hashable (v : pyval) : bool :=
  match v with
  | VList _ | VDict _ => false
  | _ => true
  end.

Fixpoint chars (s : string) : list pyval :=
  match s with
  | EmptyString => []
  | String c s' => VStr (String c EmptyString) :: chars s'
  end.

Definition py_set (v : pyval) : result (list pyval) :=
  match v with
  | VList l => if forallb hashable l then Ok l else Raise TypeError
  | VStr s => Ok (chars s)
  | VDict d => Ok (map (fun kv => VStr (fst kv)) d)
  | _ => Raise TypeError
  end.

(** Equality of a set of local strings and a set of values. *)
Definition str_set_eq (locals : list string) (remote : list pyval) : bool :=
  forallb (fun s => existsb (str_eq_val s) remote) locals
  && forallb (fun v => existsb (fun s => str_eq_val s v) locals) remote.

(** ** Data model *)

Inductive GradeDisplay : Type := COMPLETE_INCOMPLETE | POINTS | NOT_GRADED.

Definition to_canvas (g : GradeDisplay) : string :=
  match g with
  | COMPLETE_INCOMPLETE => "pass_fail"
  | POINTS => "points"
  | NOT_GRADED => "not_graded"
  end.

Inductive SubmissionType : Type :=
| ONLINE_TEXT | ONLINE_UPLOAD | ONLINE_URL | MEDIA_RECORDING | NONE | ON_PAPER.

Definition value (st : SubmissionType) : string :=
  match st with
  | ONLINE_TEXT => "online_text_entry"
  | ONLINE_UPLOAD => "online_upload"
  | ONLINE_URL => "online_url"
  | MEDIA_RECORDING => "media_recording"
  | NONE => "none"
  | ON_PAPER => "on_paper"
  end.

Record ChangeDetectionResult : Type := {
  has_changes : bool;
  changed_fields : list string;
  reason : option string;
}.

(** The tail of every comparison: [has_changes=bool(changed)]. *)
Definition detection (changed : list string) : ChangeDetectionResult :=
  {| has_changes := match changed with [] => false | _ => true end;
     changed_fields := changed;
     reason := match changed with
               | [] => None
               | _ => Some ("Changed: " +:+ join ", " changed)
               end |}.

(** A [datetime] as [strptime] builds it (whole seconds); [tzinfo] is the
    offset from UTC in minutes, [None] for a naive value. *)
Record datetime : Type := {
  year : nat; month : nat; day : nat;
  hour : nat; minute : nat; second : nat;
  tzinfo : option Z;
}.

Definition pad2 (n : nat) : string :=
  if Nat.ltb n 10 then "0" +:+ string_of_nat n else string_of_nat n.

Definition pad4 (n : nat) : string :=
  if Nat.ltb n 10 then "000" +:+ string_of_nat n
  else if Nat.ltb n 100 then "00" +:+ string_of_nat n
  else if Nat.ltb n 1000 then "0" +:+ string_of_nat n
  else string_of_nat n.

Definition utc_offset (z : Z) : string :=
  let m := Z.to_nat (Z.abs z) in
  (if Z.ltb z 0 then "-" else "+") +:+ pad2 (m / 60) +:+ ":" +:+ pad2 (m mod 60).

Definition isoformat (d : datetime) : string :=
  pad4 (year d) +:+ "-" +:+ pad2 (month d) +:+ "-" +:+ pad2 (day d) +:+ "T"
  +:+ pad2 (hour d) +:+ ":" +:+ pad2 (minute d) +:+ ":" +:+ pad2 (second d)
  +:+ match tzinfo d with
      | Some z => utc_offset z
      | None => ""
      end.

(** An identity read from a [canvas_..._id] marker: an integer when the
    text parses as one, the text otherwise. *)
Inductive ident : Type :=
| IdInt (z : Z)
| IdStr (s : string).

Definition val_of_ident (i : ident) : pyval :=
  match i with
  | IdInt z => VInt z
  | IdStr s => VStr s
  end.

#[global] Instance ident_eq_dec : EqDecision ident.
Proof. solve_decision. Defined.

#[global] Instance ident_countable : Countable ident :=
  inj_countable'
    (fun i => match i with IdInt z => inl z | IdStr s => inr s end)
    (fun x => match x with inl z => IdInt z | inr s => IdStr s end)
    (fun i => match i with IdInt _ => eq_refl | IdStr _ => eq_refl end).

(** The test [if item.canvas_..._id:] on an optional identity. *)
Definition has_id (o : option ident) : bool :=
  match o with
  | Some i => truthy (val_of_ident i)
  | None => false
  end.

Module TextHeader.
Record t : Type := mk {
  title : string;
  canvas_module_item_id : option ident;
}.
End TextHeader.

Module Page.
Record t : Type := mk {
  title : string;
  content : string;
  canvas_id : pyval;
  canvas_url : pyval;
  canvas_page_id : option ident;
  canvas_module_item_id : option ident;
}.
End Page.

Module ExternalLink.
Record t : Type := mk {
  title : string;
  url : string;
  canvas_module_item_id : option ident;
}.
End ExternalLink.

Module File.
Record t : Type := mk {
  title : string;
  filename : string;
  canvas_file_id : pyval;
  canvas_url : pyval;
  canvas_module_item_id : option ident;
}.
End File.

Module Assignment.
Record t : Type := mk {
  title : string;
  description : string;
  points : Qc;
  due_at : option datetime;
  grade_display : GradeDisplay;
  submission_types : list SubmissionType;
  canvas_id : pyval;
  canvas_url : pyval;
  canvas_assignment_id : option ident;
  canvas_module_item_id : option ident;
}.
End Assignment.

Module Discussion.
Record t : Type := mk {
  title : string;
  message : string;
  require_initial_post : bool;
  threaded : bool;
  graded : bool;
  points : Qc;
  due_at : option datetime;
  grade_display : GradeDisplay;
  canvas_id : pyval;
  canvas_url : pyval;
  canvas_discussion_id : option ident;
  canvas_module_item_id : option ident;
}.
End Discussion.

Inductive item : Type :=
| ITextHeader (h : TextHeader.t)
| IPage (p : Page.t)
| IExternalLink (l : ExternalLink.t)
| IFile (f : File.t)
| IAssignment (a : Assignment.t)
| IDiscussion (d : Discussion.t).

Module Module_.
Record t : Type := mk {
  title : string;
  items : list item;
  canvas_id : pyval;
  canvas_module_id : option ident;
}.
End Module_.

(** ** Patterns of the normaliser and of the link resolver *)

(** A tag: an opening angle bracket, one or more characters other than a
    closing angle bracket, a closing angle bracket. *)
Definition tag_re : regex :=
  Cat (Lit "<") (Cat (Plus (any_but ">"%char)) (Lit ">")).

Definition spaces_re : regex := Plus is_space.

(** The four link types, then a colon and a title with no closing bracket,
    between double square brackets. *)
Definition LINK_PATTERN : regex :=
  Cat (Lit "[[")
    (Cat (Group 1 (Alt (Lit "Page") (Alt (Lit "Assignment")
                    (Alt (Lit "Discussion") (Lit "File")))))
       (Cat (Lit ":") (Cat (Group 2 (Plus (any_but "]"%char))) (Lit "]]")))).

(** ** Requests

    Every method of the client hands a verb, a path under the course and
    the form data to [_request]. *)

Inductive http_method : Type := GET | POST | PUT.

Record request : Type := {
  verb : http_method;
  path : string;
  data : dict;
}.

Definition is_read (rq : request) : bool :=
  match verb rq with
  | GET => true
  | _ => false
  end.

Definition is_write (rq : request) : bool := negb (is_read rq).

(** ** [MarkdownParser]: the values of the metadata *)

(** [s.split(sep)] for a one-character separator. *)
Fixpoint split_on (sep : ascii) (s : string) : list string :=
  match s with
  | EmptyString => [EmptyString]
  | String c s' =>
      if Ascii.eqb c sep then EmptyString :: split_on sep s'
      else match split_on sep s' with
           | x :: l => String c x :: l
           | [] => [String c EmptyString]
           end
  end.

(** [mapping.get(key)] on a dictionary written out in the source, whose
    keys are all different. *)
Fixpoint assoc {A : Type} (key : string) (mapping : list (string * A)) : option A :=
  match mapping with
  | [] => None
  | (k, v) :: rest => if String.eqb k key then Some v else assoc key rest
  end.

Definition _parse_bool (v : string) : bool :=
  existsb (String.eqb (strip (lower v))) ["true"; "yes"; "1"; "on"].

Definition grade_display_mapping : list (string * GradeDisplay) :=
  [("complete_incomplete", COMPLETE_INCOMPLETE);
   ("pass_fail", COMPLETE_INCOMPLETE);
   ("points", POINTS);
   ("not_graded", NOT_GRADED)].

(** The argument is [metadata.get('grade_display')]: a text or [None]. *)
Definition _parse_grade_display (v : option string) : GradeDisplay :=
  match v with
  | Some s =>
      if nonempty s then
        match assoc (strip (lower s)) grade_display_mapping with
        | Some g => g
        | None => COMPLETE_INCOMPLETE
        end
      else COMPLETE_INCOMPLETE
  | None => COMPLETE_INCOMPLETE
  end.

Definition submission_types_mapping : list (string * SubmissionType) :=
  [("online_text_entry", ONLINE_TEXT);
   ("online_text", ONLINE_TEXT);
   ("text", ONLINE_TEXT);
   ("online_upload", ONLINE_UPLOAD);
   ("upload", ONLINE_UPLOAD);
   ("file", ONLINE_UPLOAD);
   ("online_url", ONLINE_URL);
   ("url", ONLINE_URL);
   ("media_recording", MEDIA_RECORDING);
   ("media", MEDIA_RECORDING);
   ("none", NONE);
   ("on_paper", ON_PAPER);
   ("paper", ON_PAPER)].

(** The type that one part of the list names, if any. *)
Definition submission_type_of (part : string) : option SubmissionType :=
  assoc (lower (strip part)) submission_types_mapping.

Definition _parse_submission_types (v : option string) : list SubmissionType :=
  match v with
  | Some s =>
      if nonempty s then
        match omap submission_type_of (split_on ","%char s) with
        | [] => [ONLINE_TEXT]
        | types => types
        end
      else [ONLINE_TEXT]
  | None => [ONLINE_TEXT]
  end.

(** ** [extract_frontmatter]: the lines *)

Definition newline_text : string := String newline EmptyString.

(** [line.strip() == '---'] *)
Definition is_delimiter (line : string) : bool := String.eqb (strip line) "---".

(** The search for the closing delimiter among the lines after the first:
    the lines before it and the lines after it. *)
Fixpoint closing_delimiter (lines : list string)
  : option (list string * list string) :=
  match lines with
  | [] => None
  | line :: rest =>
      if is_delimiter line then Some ([], rest)
      else match closing_delimiter rest with
           | Some (before, after) => Some (line :: before, after)
           | None => None
           end
  end.

(** ** Keychain entries and addresses *)

(** [s.rstrip(c)] for one character. *)
Fixpoint rstrip_char (c : ascii) (s : string) : string :=
  match s with
  | EmptyString => EmptyString
  | String a s' =>
      match rstrip_char c s' with
      | EmptyString => if Ascii.eqb a c then EmptyString else String a EmptyString
      | t => String a t
      end
  end.

Definition get_keychain_username (canvas_url course_id : string) : string :=
  rstrip_char "/" canvas_url +:+ ":" +:+ course_id.

(** [CanvasAPI._url] of a client made for [base_url] and [course_id]; the
    constructor removes the trailing slashes of [base_url]. *)
Definition _url (base_url course_id path : string) : string :=
  rstrip_char "/" base_url +:+ "/api/v1/courses/" +:+ course_id +:+ "/" +:+ path.

(** ** Stand-ins for the standard library and the remote service

    Small executable models, used to run the embedding on examples. *)

(** [html.unescape] for five common entities, and its failure on a long
    decimal reference: it reads the digits of [&#...;] with [int], which
    refuses a text of more than 4300 digits with a [ValueError] (the limit
    [sys.int_max_str_digits] of Python 3.11). *)
Fixpoint digit_run (s : string) : nat :=
  match s with
  | String c s' => if is_digit c then S (digit_run s') else 0
  | EmptyString => 0
  end.

(** The text holds [&#] and more than [limit] digits after it. *)
Fixpoint long_reference (limit : nat) (s : string) : bool :=
  match s with
  | String c s' =>
      (Ascii.eqb c "&"
       && match s' with
          | String d t => Ascii.eqb d "#" && Nat.ltb limit (digit_run t)
          | EmptyString => false
          end)
      || long_reference limit s'
  | EmptyString => false
  end.

Definition entity_re : regex :=
  Group 1 (Alt (Lit "&amp;") (Alt (Lit "&lt;") (Alt (Lit "&gt;")
            (Alt (Lit "&quot;") (Lit "&#39;"))))).

Definition entity_text (caps : captures) : string :=
  let e := group 1 caps in
  if String.eqb e "&amp;" then "&"
  else if String.eqb e "&lt;" then "<"
  else if String.eqb e "&gt;" then ">"
  else if String.eqb e "&quot;" then dquote
  else "'".

Definition unescape_basic (s : string) : result string :=
  if long_reference 4300 s then Raise ValueError
  else Ok (rx_sub entity_re entity_text s).

(** A text of [n] copies of a character. *)
Fixpoint copies (n : nat) (c : ascii) : string :=
  match n with
  | O => EmptyString
  | S n' => String c (copies n' c)
  end.

(** A decimal character reference of 4301 digits. *)
Definition long_reference_text : string := "&#" +:+ copies 4301 "9" +:+ ";".

(** A tokenizer for tag soup: the texts between tags. *)
Fixpoint texts_between (ps : list piece) (current : string) : list string :=
  match ps with
  | [] => if nonempty current then [current] else []
  | Copied c :: ps' => texts_between ps' (current +:+ String c EmptyString)
  | Matched _ :: ps' =>
      if nonempty current then current :: texts_between ps' EmptyString
      else texts_between ps' EmptyString
  end.

Definition feed_tags (s : string) : result (list string) :=
  Ok (texts_between (rx_scan tag_re None s 0) EmptyString).

(** A parser that gives up on every input. *)
Definition feed_fails (s : string) : result (list string) := Raise ParseError.

Definition repr_unknown (v : pyval) : string := "?".

(** A course whose only module holds one text header; both carry remote
    identities. *)
Definition intro_header : item :=
  ITextHeader (TextHeader.mk "Intro" (Some (IdInt 2))).

Definition week_one : Module_.t :=
  Module_.mk "Week 1" [intro_header] VNone (Some (IdInt 1)).

(** A service that holds exactly that module and that header, accepts
    every write and fails every other read. *)
Definition week_one_service (history : list request) (rq : request) : result pyval :=
  match verb rq with
  | GET =>
      if String.eqb (path rq) "modules/1"
      then Ok (VDict [("id", VInt 1); ("name", VStr "Week 1")])
      else if String.eqb (path rq) "modules/1/items/2"
      then Ok (VDict [("id", VInt 2); ("title", VStr "Intro")])
      else Raise HTTPError
  | _ => Ok (VDict [])
  end.

(** A course whose module holds a header and a page whose body names the
    page itself; all carry remote identities. *)
Definition notes_page : Page.t :=
  Page.mk "Notes" "See [[Page:Notes]] again." VNone VNone (Some (IdStr "notes"))
    (Some (IdInt 32)).

Definition week_three : Module_.t :=
  Module_.mk "Week 3"
    [ITextHeader (TextHeader.mk "Intro" (Some (IdInt 31))); IPage notes_page]
    VNone (Some (IdInt 3)).

(** A service that holds that module, that header and that page with the
    local values, accepts every write and fails every other read. *)
Definition week_three_service (history : list request) (rq : request) : result pyval :=
  match verb rq with
  | GET =>
      if String.eqb (path rq) "modules/3"
      then Ok (VDict [("id", VInt 3); ("name", VStr "Week 3")])
      else if String.eqb (path rq) "modules/3/items/31"
      then Ok (VDict [("id", VInt 31); ("title", VStr "Intro")])
      else if String.eqb (path rq) "pages/notes"
      then Ok (VDict [("url", VStr "notes"); ("title", VStr "Notes");
                      ("body", VStr "<p>See [[Page:Notes]] again.</p>");
                      ("html_url",
                       VStr "https://canvas.example/courses/7/pages/notes")])
      else Raise HTTPError
  | _ => Ok (VDict [])
  end.

(** A service on which every request fails. *)
Definition failing_service (history : list request) (rq : request) : result pyval :=
  Raise HTTPError.

Definition whole (z : Z) : Qc := Q2Qc (inject_Z z).

(** A page, an assignment and a graded discussion that carry identities. *)
Definition policies_page : Page.t :=
  Page.mk "Policies" "Be kind." VNone VNone (Some (IdInt 11)) (Some (IdInt 21)).

Definition essay : Assignment.t :=
  Assignment.mk "Essay" "Write." (whole 10) None POINTS [ONLINE_UPLOAD] VNone VNone
    (Some (IdInt 12)) (Some (IdInt 22)).

Definition jan_15 : datetime :=
  {| year := 2026; month := 1; day := 15; hour := 23; minute := 59; second := 0;
     tzinfo := None |}.

Definition forum : Discussion.t :=
  Discussion.mk "Forum" "Discuss." false true true (whole 5) (Some jan_15) POINTS
    VNone VNone (Some (IdInt 13)) (Some (IdInt 23)).

(** Snapshots of the service for them. *)
Definition essay_snapshot : dict :=
  [("name", VStr "Essay"); ("description", VStr "<p>Write.</p>");
   ("points_possible", VInt 10); ("due_at", VStr "2026-01-16T04:59:00Z");
   ("grading_type", VStr "points");
   ("submission_types", VList [VStr "online_upload"])].

Definition forum_snapshot : dict :=
  [("title", VStr "Forum"); ("message", VStr "<p>Discuss.</p>");
   ("require_initial_post", VBool false); ("discussion_type", VStr "threaded");
   ("assignment", VNone)].

(** A graded forum whose message is a long character reference, and a
    snapshot whose message is a number. *)
Definition forum_with_long_reference : Discussion.t :=
  Discussion.mk "Forum" long_reference_text false true true (whole 5) (Some jan_15)
    POINTS VNone VNone (Some (IdInt 13)) (Some (IdInt 23)).

Definition numeric_snapshot : dict := [("title", VStr "Forum"); ("message", VInt 5)].

Definition ungraded_forum : Discussion.t :=
  Discussion.mk "Forum" "Discuss." false true false (whole 5) (Some jan_15) POINTS
    VNone VNone (Some (IdInt 13)) (Some (IdInt 23)).


(** A reader of frontmatter for flat blocks: every line is a key, a colon
    and a blank, and a value; anything else is an error. *)
Fixpoint key_value (key line : string) : option (string * pyval) :=
  match line with
  | String ":" (String " " v) => Some (key, VStr v)
  | String c line' => key_value (key +:+ String c EmptyString) line'
  | EmptyString => None
  end.

Fixpoint key_values (lines : list string) : option dict :=
  match lines with
  | [] => Some []
  | line :: rest =>
      match key_value "" line, key_values rest with
      | Some kv, Some d => Some (kv :: d)
      | _, _ => None
      end
  end.

Definition yaml_flat (s : string) : result pyval :=
  match key_values (split_on newline s) with
  | Some d => Ok (VDict d)
  | None => Raise YAMLError
  end.

(** The same reader with the dates of YAML: a value written as a date
    whose month is not one of the twelve is a [ValueError], which the
    constructor of the date raises. *)
Definition bad_date (v : pyval) : bool :=
  match v with
  | VStr text =>
      match read_field 4 "-" text with
      | Some (_, rest) =>
          match read_field 2 "-" rest with
          | Some (month, rest') =>
              match read_digits 2 0 rest' with
              | Some (_, EmptyString) => Nat.eqb month 0 || Nat.ltb 12 month
              | _ => false
              end
          | None => false
          end
      | None => false
      end
  | _ => false
  end.

Definition yaml_flat_dates (s : string) : result pyval :=
  match key_values (split_on newline s) with
  | Some d => if existsb (fun kv => bad_date (snd kv)) d then Raise ValueError
              else Ok (VDict d)
  | None => Raise YAMLError
  end.

(** An assignment with a due date, and its snapshot with the date in
    UTC. *)
Definition report : Assignment.t :=
  Assignment.mk "Report" "Write." (whole 10) (Some jan_15) POINTS [ONLINE_UPLOAD]
    VNone VNone (Some (IdInt 14)) (Some (IdInt 24)).

Definition report_snapshot : dict :=
  [("name", VStr "Report"); ("description", VStr "<p>Write.</p>");
   ("points_possible", VInt 10); ("due_at", VStr "2026-01-16T04:59:00Z");
   ("grading_type", VStr "points");
   ("submission_types", VList [VStr "online_upload"])].

(** A module without identity. *)
Definition week_two : Module_.t := Module_.mk "Week 2" [] VNone None.

(** Snapshots of the module [week_one] and of the page [policies_page]:
    one with another name, one with the same values. *)
Definition renamed_snapshot : pyval := VDict [("id", VInt 1); ("name", VStr "Week one")].

Definition policies_snapshot : dict :=
  [("title", VStr "Policies"); ("body", VStr "<p>Be kind.</p>");
   ("html_url", VStr "https://canvas.example/courses/7/pages/policies")].

(** Readers of whole numbers written with digits only, and a reader of
    dates that reads none. *)
Fixpoint digits_value (s : string) (acc : N) : option N :=
  match s with
  | EmptyString => Some acc
  | String c s' =>
      if Nat.leb 48 (code c) && Nat.leb (code c) 57
      then digits_value s' (10 * acc + N.of_nat (code c - 48))
      else None
  end.

Definition int_of_digits (s : string) : option Z :=
  if nonempty s then option_map Z.of_N (digits_value s 0) else None.

Definition float_of_digits (s : string) : option Qc :=
  option_map whole (int_of_digits s).

Definition no_dates (text format : string) : option datetime := None.

(** A course file: a module with an identity and a page, and a heading
    line in the body of that page, which opens a second module with a link
    and an assignment. *)
Definition course_text : string :=
  join newline_text
    ["# Week 1"; "<!-- canvas_module_id: 7 -->"; "## [page] Notes";
     "<!-- canvas_page_id: notes -->"; "Read this."; "# Inside";
     "## [link] Site"; "url: https://example.org"; "## [assignment] Essay";
     "points: 10"; "submission_types: upload"; "---"; "Write."].

(** A course file whose assignment has points that are no number. *)
Definition course_text_with_bad_points : string :=
  join newline_text ["# Week 1"; "## [assignment] Essay"; "points: many"].


Section Builder.

Local Open Scope result_scope.

(** Behaviour of the Python standard library and of the environment that
    the source relies on. *)

(** [html.unescape]: the text, or the exception it raises (a [ValueError]
    on a decimal character reference that [int] refuses). *)
Variable html_unescape : string -> result string.

(** [HTMLParser.feed]: the texts handed to [handle_data], in order, or the
    exception that the parser raises. *)
Variable html_feed : string -> result (list string).

(** [repr] of a float, a list or a dictionary. *)
Variable py_repr : pyval -> string.

(** Offset of the local time zone from UTC, in minutes. *)
Variable local_tz : Z.

(** ** [HTMLTextExtractor] and [normalize_html] *)

Definition handle_data (text_parts : list string) (data : string) : list string :=
  let text := strip data in
  if nonempty text then text_parts ++ [text] else text_parts.

Definition get_text (text_parts : list string) : string := join " " text_parts.

(** [extractor.feed(normalized); extractor.get_text()] on a new extractor *)
Definition extract_text (normalized : string) : result string :=
  events <- html_feed normalized ;;
  Ok (get_text (fold_left handle_data events [])).

Definition normalize_html (content : string) : result string :=
  if negb (nonempty content) then Ok ""
  else
    normalized <- html_unescape (strip content) ;;
    let normalized := markdown_to_html_basic normalized in
    text <- try_except (extract_text normalized)
              (fun _ => Ok (rx_sub tag_re (fun _ => " ") normalized)) ;;
    let text := rx_sub spaces_re (fun _ => " ") text in
    Ok (lower (strip text)).

(** [normalize_html] on a field of a remote snapshot: a false value gives
    the empty text, a value that is no string has no [strip]. *)
Definition normalize_html_val (v : pyval) : result string :=
  if negb (truthy v) then Ok ""
  else match v with
       | VStr s => normalize_html s
       | _ => Raise AttributeError
       end.

(** ** [ContentComparator] *)

Definition flag (differs : bool) (name : string) : list string :=
  if differs then [name] else [].

Definition compare_module (local : Module_.t) (canvas_data : pyval)
  : result ChangeDetectionResult :=
  canvas_name <- val_get "name" (VStr "") canvas_data ;;
  Ok (detection (flag (negb (str_eq_val (Module_.title local) canvas_name)) "title")).

Definition compare_text_header (local : TextHeader.t) (canvas_data : pyval)
  : result ChangeDetectionResult :=
  canvas_title <- val_get "title" (VStr "") canvas_data ;;
  Ok (detection (flag (negb (str_eq_val (TextHeader.title local) canvas_title)) "title")).

Definition compare_external_link (local : ExternalLink.t) (canvas_data : pyval)
  : result ChangeDetectionResult :=
  canvas_title <- val_get "title" (VStr "") canvas_data ;;
  canvas_url <- val_get "external_url" (VStr "") canvas_data ;;
  Ok (detection
        (flag (negb (str_eq_val (ExternalLink.title local) canvas_title)) "title"
         ++ flag (negb (str_eq_val (ExternalLink.url local) canvas_url)) "url")).

Definition compare_page (local : Page.t) (canvas_data : pyval)
  : result ChangeDetectionResult :=
  canvas_title <- val_get "title" (VStr "") canvas_data ;;
  canvas_body <- val_get "body" (VStr "") canvas_data ;;
  local_normalized <- normalize_html (Page.content local) ;;
  canvas_normalized <- normalize_html_val canvas_body ;;
  Ok (detection
        (flag (negb (str_eq_val (Page.title local) canvas_title)) "title"
         ++ flag (negb (String.eqb local_normalized canvas_normalized)) "content")).

(** The due-date test shared by assignments and graded discussions:
    [local_due_iso != canvas_due_iso], where the local side is the ISO text
    of the date or [None] and the remote side is the value received, or
    [None] when that value is false. *)
Definition due_differs (local_due : option datetime) (canvas_due : pyval) : bool :=
  let local_due_iso := option_map isoformat local_due in
  let canvas_due_iso := if truthy canvas_due then Some canvas_due else None in
  match local_due_iso, canvas_due_iso with
  | None, None => false
  | Some s, Some v => negb (str_eq_val s v)
  | _, _ => true
  end.

Definition compare_assignment (local : Assignment.t) (canvas_data : pyval)
  : result ChangeDetectionResult :=
  canvas_name <- val_get "name" (VStr "") canvas_data ;;
  canvas_desc <- val_get "description" (VStr "") canvas_data ;;
  local_normalized <- normalize_html (Assignment.description local) ;;
  canvas_normalized <- normalize_html_val canvas_desc ;;
  canvas_points <- val_get "points_possible" (VInt 0) canvas_data ;;
  canvas_due <- val_get "due_at" VNone canvas_data ;;
  canvas_grading <- val_get "grading_type" (VStr "pass_fail") canvas_data ;;
  canvas_sub_types_val <- val_get "submission_types" (VList []) canvas_data ;;
  canvas_sub_types <- py_set canvas_sub_types_val ;;
  let local_sub_types := map value (Assignment.submission_types local) in
  Ok (detection
        (flag (negb (str_eq_val (Assignment.title local) canvas_name)) "title"
         ++ flag (negb (String.eqb local_normalized canvas_normalized)) "description"
         ++ flag (negb (num_eq_val (Assignment.points local) canvas_points)) "points"
         ++ flag (due_differs (Assignment.due_at local) canvas_due) "due_date"
         ++ flag (negb (str_eq_val (to_canvas (Assignment.grade_display local))
                          canvas_grading)) "grading_type"
         ++ flag (negb (str_set_eq local_sub_types canvas_sub_types))
              "submission_types")).

(** The grading part of [compare_discussion]. *)
Definition compare_discussion_grading (local : Discussion.t)
  (canvas_assignment : pyval) : result (list string) :=
  if Discussion.graded local then
    if negb (truthy canvas_assignment) then Ok ["graded_status"]
    else
      canvas_points <- val_get "points_possible" (VInt 0) canvas_assignment ;;
      canvas_due <- val_get "due_at" VNone canvas_assignment ;;
      canvas_grading <- val_get "grading_type" (VStr "pass_fail") canvas_assignment ;;
      Ok (flag (negb (num_eq_val (Discussion.points local) canvas_points)) "points"
          ++ flag (due_differs (Discussion.due_at local) canvas_due) "due_date"
          ++ flag (negb (str_eq_val (to_canvas (Discussion.grade_display local))
                           canvas_grading)) "grading_type")
  else if truthy canvas_assignment then Ok ["graded_status"]
  else Ok [].

Definition compare_discussion (local : Discussion.t) (canvas_data : pyval)
  : result ChangeDetectionResult :=
  canvas_title <- val_get "title" (VStr "") canvas_data ;;
  canvas_msg <- val_get "message" (VStr "") canvas_data ;;
  local_normalized <- normalize_html (Discussion.message local) ;;
  canvas_normalized <- normalize_html_val canvas_msg ;;
  canvas_req_post <- val_get "require_initial_post" (VBool false) canvas_data ;;
  canvas_type <- val_get "discussion_type" (VStr "threaded") canvas_data ;;
  let local_type := if Discussion.threaded local then "threaded" else "side_comment" in
  canvas_assignment <- val_get "assignment" VNone canvas_data ;;
  grading <- compare_discussion_grading local canvas_assignment ;;
  Ok (detection
        (flag (negb (str_eq_val (Discussion.title local) canvas_title)) "title"
         ++ flag (negb (String.eqb local_normalized canvas_normalized)) "message"
         ++ flag (negb (bool_eq_val (Discussion.require_initial_post local)
                          canvas_req_post)) "require_initial_post"
         ++ flag (negb (str_eq_val local_type canvas_type)) "discussion_type"
         ++ grading)).

(** ** [LinkResolver] *)

(** The dictionaries hold the registered objects. An object is registered
    after the builder has last written to it, so each dictionary holds the
    object as [resolve] reads it. *)
Record LinkResolver : Type := {
  base_url : string;
  course_id : string;
  pages : gmap string Page.t;
  assignments : gmap string Assignment.t;
  discussions : gmap string Discussion.t;
  files : gmap string dict;
}.

Definition new_resolver (base course : string) : LinkResolver :=
  {| base_url := base; course_id := course;
     pages := ∅; assignments := ∅; discussions := ∅; files := ∅ |}.

Definition register_page (r : LinkResolver) (page : Page.t) : LinkResolver :=
  {| base_url := base_url r; course_id := course_id r;
     pages := <[lower (Page.title page) := page]> (pages r);
     assignments := assignments r; discussions := discussions r;
     files := files r |}.

Definition register_assignment (r : LinkResolver) (a : Assignment.t) : LinkResolver :=
  {| base_url := base_url r; course_id := course_id r;
     pages := pages r;
     assignments := <[lower (Assignment.title a) := a]> (assignments r);
     discussions := discussions r; files := files r |}.

Definition register_discussion (r : LinkResolver) (d : Discussion.t) : LinkResolver :=
  {| base_url := base_url r; course_id := course_id r;
     pages := pages r; assignments := assignments r;
     discussions := <[lower (Discussion.title d) := d]> (discussions r);
     files := files r |}.

Definition register_file (r : LinkResolver) (filename : string) (file_data : dict)
  : LinkResolver :=
  {| base_url := base_url r; course_id := course_id r;
     pages := pages r; assignments := assignments r;
     discussions := discussions r;
     files := <[lower filename := file_data]> (files r) |}.

(** [str(v)], as an f-string formats a value. *)
Definition py_str (v : pyval) : string :=
  match v with
  | VNone => "None"
  | VBool true => "True"
  | VBool false => "False"
  | VInt z => string_of_Z z
  | VStr s => s
  | _ => py_repr v
  end.

Definition anchor (href text : string) : string :=
  "<a href=" +:+ dquote +:+ href +:+ dquote +:+ ">" +:+ text +:+ "</a>".

(** The link that [replace_link] returns when the target is registered and
    has a URL; [None] when it falls through to the warning. *)
Definition resolved_link (r : LinkResolver) (link_type title : string)
  : option string :=
  let title_lower := lower title in
  if String.eqb link_type "Page" then
    match pages r !! title_lower with
    | Some page =>
        if truthy (Page.canvas_url page)
        then Some (anchor (py_str (Page.canvas_url page)) title) else None
    | None => None
    end
  else if String.eqb link_type "Assignment" then
    match assignments r !! title_lower with
    | Some a =>
        if truthy (Assignment.canvas_url a)
        then Some (anchor (py_str (Assignment.canvas_url a)) title) else None
    | None => None
    end
  else if String.eqb link_type "Discussion" then
    match discussions r !! title_lower with
    | Some d =>
        if truthy (Discussion.canvas_url d)
        then Some (anchor (py_str (Discussion.canvas_url d)) title) else None
    | None => None
    end
  else if String.eqb link_type "File" then
    match files r !! title_lower with
    | Some file_data =>
        if truthy (VDict file_data) && truthy (dict_get "url" VNone file_data)
        then
          let display_name := dict_get "display_name" (VStr title) file_data in
          let file_id := dict_get "id" VNone file_data in
          let preview_url :=
            base_url r +:+ "/courses/" +:+ course_id r +:+ "/files/"
            +:+ py_str file_id in
          Some ("<a href=" +:+ dquote +:+ preview_url +:+ dquote
                +:+ " class=" +:+ dquote +:+ "instructure_file_link" +:+ dquote
                +:+ ">" +:+ py_str display_name +:+ "</a>")
        else None
    | None => None
    end
  else None.

(** [replace_link]: the text that takes the place of one match, and the
    warning printed when the link is not found. *)
Definition replace_link (r : LinkResolver) (caps : captures) : string * list string :=
  let link_type := group 1 caps in
  let title := strip (group 2 caps) in
  match resolved_link r link_type title with
  | Some link => (link, [])
  | None =>
      (title,
       ["  Warning: Could not resolve link [[" +:+ link_type +:+ ":" +:+ title +:+ "]]"])
  end.

(** [LinkResolver.resolve]: the new content. *)
Definition resolve (r : LinkResolver) (content : string) : string :=
  rx_sub LINK_PATTERN (fun caps => fst (replace_link r caps)) content.

(** The warnings that [resolve] prints, in order. *)
Definition resolve_warnings (r : LinkResolver) (content : string) : list string :=
  flat_map (fun p => match p with
                     | Matched caps => snd (replace_link r caps)
                     | Copied _ => []
                     end)
    (rx_scan LINK_PATTERN None content 0).

Definition has_internal_links (content : string) : bool :=
  rx_search LINK_PATTERN None content.

(** ** [CanvasAPI] *)

Definition bool_text (b : bool) : string := if b then "true" else "false".

Definition position_data (position : nat) : dict :=
  match position with
  | O => []
  | _ => [("module[position]", VInt (Z.of_nat position))]
  end.

Definition create_module (name : string) (position : nat) : request :=
  {| verb := POST; path := "modules";
     data := ("module[name]", VStr name) :: position_data position |}.

Definition update_module (module_id : pyval) (name : string) (position : nat)
  : request :=
  {| verb := PUT; path := "modules/" +:+ py_str module_id;
     data := ("module[name]", VStr name) :: position_data position |}.

Definition get_module (module_id : pyval) : request :=
  {| verb := GET; path := "modules/" +:+ py_str module_id; data := [] |}.

Definition get_module_item (module_id item_id : pyval) : request :=
  {| verb := GET;
     path := "modules/" +:+ py_str module_id +:+ "/items/" +:+ py_str item_id;
     data := [] |}.

(** The keyword arguments that are not [None], as [module_item[key]]. *)
Fixpoint module_item_data (kwargs : list (string * pyval)) (data : dict) : dict :=
  match kwargs with
  | [] => data
  | (key, VNone) :: kwargs' => module_item_data kwargs' data
  | (key, v) :: kwargs' =>
      module_item_data kwargs' (dict_set ("module_item[" +:+ key +:+ "]") v data)
  end.

Definition create_module_item (module_id : pyval) (item_type : string)
  (kwargs : list (string * pyval)) : request :=
  {| verb := POST; path := "modules/" +:+ py_str module_id +:+ "/items";
     data := module_item_data kwargs [("module_item[type]", VStr item_type)] |}.

Definition update_module_item (module_id item_id : pyval)
  (kwargs : list (string * pyval)) : request :=
  {| verb := PUT;
     path := "modules/" +:+ py_str module_id +:+ "/items/" +:+ py_str item_id;
     data := module_item_data kwargs [] |}.

(** [get_files] follows the pages of the listing; the listing is one read
    here, answered with all the files. *)
Definition get_files : request :=
  {| verb := GET; path := "files"; data := [] |}.

Definition create_page (title body : string) : request :=
  {| verb := POST; path := "pages";
     data := [("wiki_page[title]", VStr title); ("wiki_page[body]", VStr body);
              ("wiki_page[published]", VStr (bool_text true))] |}.

Definition update_page (page_url : pyval) (body : string) (title : option string)
  : request :=
  {| verb := PUT; path := "pages/" +:+ py_str page_url;
     data := ("wiki_page[body]", VStr body) ::
             match title with
             | Some t => if nonempty t then [("wiki_page[title]", VStr t)] else []
             | None => []
             end |}.

Definition get_page (page_url : pyval) : request :=
  {| verb := GET; path := "pages/" +:+ py_str page_url; data := [] |}.

(** The [due_at] entry of an assignment: a naive date is given the local
    time zone. *)
Definition due_at_data (due_at : option datetime) : dict :=
  match due_at with
  | Some d =>
      match tzinfo d with
      | None =>
          let due_at_with_tz :=
            {| year := year d; month := month d; day := day d; hour := hour d;
               minute := minute d; second := second d; tzinfo := Some local_tz |} in
          [("assignment[due_at]", VStr (isoformat due_at_with_tz))]
      | Some _ => [("assignment[due_at]", VStr (isoformat d))]
      end
  | None => []
  end.

(** [data[f"assignment[submission_types][{i}]"] = st] for the enumeration
    from [i]. *)
Fixpoint submission_types_data (i : nat) (submission_types : list string)
  (data : dict) : dict :=
  match submission_types with
  | [] => data
  | st :: rest =>
      submission_types_data (S i) rest
        (dict_set ("assignment[submission_types][" +:+ string_of_nat i +:+ "]")
           (VStr st) data)
  end.

Definition create_assignment_data (name description : string) (points_possible : Qc)
  (due_at : option datetime) (grading_type : string)
  (submission_types : list string) : dict :=
  let data :=
    [("assignment[name]", VStr name);
     ("assignment[description]", VStr description);
     ("assignment[points_possible]", VFloat points_possible);
     ("assignment[grading_type]", VStr grading_type);
     ("assignment[published]", VStr (bool_text true))]
    ++ due_at_data due_at in
  match submission_types with
  | [] => dict_set "assignment[submission_types][]" (VStr "online_text_entry") data
  | _ =>
      if bool_decide (submission_types = ["none"])
      then dict_set "assignment[submission_types][]" (VStr "none") data
      else submission_types_data 0 submission_types data
  end.

Definition create_assignment (name description : string) (points_possible : Qc)
  (due_at : option datetime) (grading_type : string)
  (submission_types : list string) : request :=
  {| verb := POST; path := "assignments";
     data := create_assignment_data name description points_possible due_at
               grading_type submission_types |}.

(** [submission_types] is a parameter of the method and takes no part in
    the data. *)
Definition update_assignment_full_data (name description : string)
  (points_possible : Qc) (due_at : option datetime) (grading_type : string)
  (submission_types : list string) : dict :=
  [("assignment[name]", VStr name);
   ("assignment[description]", VStr description);
   ("assignment[points_possible]", VFloat points_possible);
   ("assignment[grading_type]", VStr grading_type)]
  ++ due_at_data due_at.

Definition update_assignment_full (assignment_id : pyval) (name description : string)
  (points_possible : Qc) (due_at : option datetime) (grading_type : string)
  (submission_types : list string) : request :=
  {| verb := PUT; path := "assignments/" +:+ py_str assignment_id;
     data := update_assignment_full_data name description points_possible due_at
               grading_type submission_types |}.

Definition update_assignment (assignment_id : pyval) (description : string)
  : request :=
  {| verb := PUT; path := "assignments/" +:+ py_str assignment_id;
     data := [("assignment[description]", VStr description)] |}.

Definition get_assignment (assignment_id : pyval) : request :=
  {| verb := GET; path := "assignments/" +:+ py_str assignment_id; data := [] |}.

Definition discussion_grading_data (graded : bool) (points_possible : Qc)
  (due_at : option datetime) (grading_type : string) : dict :=
  if graded then
    [("assignment[points_possible]", VFloat points_possible);
     ("assignment[grading_type]", VStr grading_type)]
    ++ match due_at with
       | Some d => [("assignment[due_at]", VStr (isoformat d))]
       | None => []
       end
  else [].

Definition create_discussion (title message : string) (require_initial_post : bool)
  (discussion_type : string) (graded : bool) (points_possible : Qc)
  (due_at : option datetime) (grading_type : string) : request :=
  {| verb := POST; path := "discussion_topics";
     data := [("title", VStr title); ("message", VStr message);
              ("require_initial_post", VStr (bool_text require_initial_post));
              ("discussion_type", VStr discussion_type);
              ("published", VStr (bool_text true))]
             ++ discussion_grading_data graded points_possible due_at grading_type |}.

Definition update_discussion_full (topic_id : pyval) (title message : string)
  (require_initial_post : bool) (discussion_type : string) (graded : bool)
  (points_possible : Qc) (due_at : option datetime) (grading_type : string)
  : request :=
  {| verb := PUT; path := "discussion_topics/" +:+ py_str topic_id;
     data := [("title", VStr title); ("message", VStr message);
              ("require_initial_post", VStr (bool_text require_initial_post));
              ("discussion_type", VStr discussion_type)]
             ++ discussion_grading_data graded points_possible due_at grading_type |}.

Definition update_discussion (topic_id : pyval) (message : string) : request :=
  {| verb := PUT; path := "discussion_topics/" +:+ py_str topic_id;
     data := [("message", VStr message)] |}.

Definition get_discussion (topic_id : pyval) : request :=
  {| verb := GET; path := "discussion_topics/" +:+ py_str topic_id; data := [] |}.

(** [get_file_by_name] with a cache: the exact display name first, then
    the name without regard to case; no request is made. *)
Fixpoint find_exact (filename : string) (files_cache : list pyval)
  : result (option pyval) :=
  match files_cache with
  | [] => Ok None
  | f :: rest =>
      name <- val_get "display_name" VNone f ;;
      if str_eq_val filename name then Ok (Some f) else find_exact filename rest
  end.

Fixpoint find_lower (filename_lower : string) (files_cache : list pyval)
  : result (option pyval) :=
  match files_cache with
  | [] => Ok None
  | f :: rest =>
      name <- val_get "display_name" (VStr "") f ;;
      match name with
      | VStr n =>
          if String.eqb (lower n) filename_lower then Ok (Some f)
          else find_lower filename_lower rest
      | _ => Raise AttributeError
      end
  end.

Definition get_file_by_name (filename : string) (files_cache : list pyval)
  : result (option pyval) :=
  exact <- find_exact filename files_cache ;;
  match exact with
  | Some f => Ok (Some f)
  | None => find_lower (lower filename) files_cache
  end.

(** ** [CourseBuilder]: state and effects

    The builder is created with a client, as [main] does. Its methods run
    in a monad that threads the builder and may raise; the state outlives
    an exception, so the requests sent before it stay on record. *)

(** The remote service: its answer to a request, given the requests it
    has received before. [Raise] is a failed request. *)
Variable canvas : list request -> request -> result pyval.

(** [api.base_url] and [api.course_id] *)
Variable api_base_url : string.
Variable api_course_id : string.

(** The place of an object of the tree: module and item, from 0. *)
Definition loc : Type := nat * nat.

Record caches : Type := {
  cache_modules : gmap ident pyval;
  cache_pages : gmap ident pyval;
  cache_assignments : gmap ident pyval;
  cache_discussions : gmap ident pyval;
  cache_module_items : gmap ident pyval;
}.

Record builder : Type := {
  resolver : LinkResolver;
  items_needing_link_resolution : list loc;
  files_cache : list pyval;
  canvas_data_cache : caches;
  tree : list Module_.t;     (* the objects that [build] was given *)
  sent : list request;       (* the requests made so far, oldest first *)
}.

Definition new_builder : builder :=
  {| resolver := new_resolver api_base_url api_course_id;
     items_needing_link_resolution := [];
     files_cache := [];
     canvas_data_cache :=
       {| cache_modules := ∅; cache_pages := ∅; cache_assignments := ∅;
          cache_discussions := ∅; cache_module_items := ∅ |};
     tree := [];
     sent := [] |}.

Definition with_resolver (f : LinkResolver -> LinkResolver) (b : builder) : builder :=
  {| resolver := f (resolver b);
     items_needing_link_resolution := items_needing_link_resolution b;
     files_cache := files_cache b; canvas_data_cache := canvas_data_cache b;
     tree := tree b; sent := sent b |}.

Definition with_pending (f : list loc -> list loc) (b : builder) : builder :=
  {| resolver := resolver b;
     items_needing_link_resolution := f (items_needing_link_resolution b);
     files_cache := files_cache b; canvas_data_cache := canvas_data_cache b;
     tree := tree b; sent := sent b |}.

Definition with_files_cache (l : list pyval) (b : builder) : builder :=
  {| resolver := resolver b;
     items_needing_link_resolution := items_needing_link_resolution b;
     files_cache := l; canvas_data_cache := canvas_data_cache b;
     tree := tree b; sent := sent b |}.

Definition with_cache (f : caches -> caches) (b : builder) : builder :=
  {| resolver := resolver b;
     items_needing_link_resolution := items_needing_link_resolution b;
     files_cache := files_cache b; canvas_data_cache := f (canvas_data_cache b);
     tree := tree b; sent := sent b |}.

Definition with_tree (f : list Module_.t -> list Module_.t) (b : builder) : builder :=
  {| resolver := resolver b;
     items_needing_link_resolution := items_needing_link_resolution b;
     files_cache := files_cache b; canvas_data_cache := canvas_data_cache b;
     tree := f (tree b); sent := sent b |}.

Definition with_sent (f : list request -> list request) (b : builder) : builder :=
  {| resolver := resolver b;
     items_needing_link_resolution := items_needing_link_resolution b;
     files_cache := files_cache b; canvas_data_cache := canvas_data_cache b;
     tree := tree b; sent := f (sent b) |}.

Definition M (A : Type) : Type := builder -> result A * builder.

Definition ret {A : Type} (a : A) : M A := fun b => (Ok a, b).

Definition bind {A B : Type} (m : M A) (f : A -> M B) : M B :=
  fun b =>
    match m b with
    | (Ok a, b') => f a b'
    | (Raise e, b') => (Raise e, b')
    end.

Definition lift {A : Type} (r : result A) : M A := fun b => (r, b).

Definition gets {A : Type} (f : builder -> A) : M A := fun b => (Ok (f b), b).

Definition modify (f : builder -> builder) : M unit := fun b => (Ok tt, f b).

(** [try: m  except Exception as e: h e] *)
Definition try_ {A : Type} (m : M A) (h : exn -> M A) : M A :=
  fun b =>
    match m b with
    | (Ok a, b') => (Ok a, b')
    | (Raise e, b') => h e b'
    end.

(** [CanvasAPI._request]: the request goes out, then the answer or the
    exception [raise_for_status] raises comes back. *)
Definition _request (rq : request) : M pyval :=
  fun b => (canvas (sent b) rq, with_sent (fun l => l ++ [rq]) b).

Declare Scope build_scope.
Delimit Scope build_scope with build.
Notation "x <- m ;; f" := (bind m (fun x => f))
  (at level 100, m at next level, right associativity) : build_scope.
Notation "m ;; f" := (bind m (fun _ => f))
  (at level 100, f at level 200, right associativity) : build_scope.
Local Open Scope build_scope.

Fixpoint for_each {A : Type} (l : list A) (f : A -> M unit) : M unit :=
  match l with
  | [] => ret tt
  | x :: l' => f x ;; for_each l' f
  end.

(** [enumerate(l, start)] *)
Fixpoint enumerate {A : Type} (start : nat) (l : list A) : list (nat * A) :=
  match l with
  | [] => []
  | x :: l' => (start, x) :: enumerate (S start) l'
  end.

(** [v[key]] on a decoded answer *)
Definition val_index (key : string) (v : pyval) : result pyval :=
  match v with
  | VDict d =>
      match dict_lookup key d with
      | Some x => Ok x
      | None => Raise KeyError
      end
  | _ => Raise TypeError
  end.

(** [all_files.extend(v)]: the elements that iterating over [v] yields. *)
Definition py_iter (v : pyval) : result (list pyval) :=
  match v with
  | VList l => Ok l
  | VStr s => Ok (chars s)
  | VDict d => Ok (map (fun kv => VStr (fst kv)) d)
  | _ => Raise TypeError
  end.

(** [s.split('/')[-1]] on a value that should be a string *)
Definition url_slug (v : pyval) : result pyval :=
  match v with
  | VStr s => Ok (VStr (last_segment "/" s))
  | _ => Raise AttributeError
  end.

(** Writing to the objects of the tree. *)
Definition update_item (l : loc) (f : item -> item) : M unit :=
  modify (with_tree (alter (fun m =>
    Module_.mk (Module_.title m) (alter f (snd l) (Module_.items m))
      (Module_.canvas_id m) (Module_.canvas_module_id m)) (fst l))).

Definition set_module_canvas_id (i : nat) (v : pyval) : M unit :=
  modify (with_tree (alter (fun m =>
    Module_.mk (Module_.title m) (Module_.items m) v (Module_.canvas_module_id m)) i)).

(** Reading an object of the tree through a reference kept earlier. *)
Definition read_item (l : loc) : M item :=
  fun b =>
    match tree b !! fst l with
    | Some m =>
        match Module_.items m !! snd l with
        | Some it => (Ok it, b)
        | None => (Raise KeyError, b)
        end
    | None => (Raise KeyError, b)
    end.

(** ** [CourseBuilder]: Phase 0 *)

Definition is_file (it : item) : bool :=
  match it with
  | IFile _ => true
  | _ => false
  end.

(** The [content], [description] or [message] of an item, the empty text
    for an item that has none. *)
Definition item_text (it : item) : string :=
  match it with
  | IPage p => Page.content p
  | IAssignment a => Assignment.description a
  | IDiscussion d => Discussion.message d
  | _ => ""
  end.

(** [getattr(item, 'canvas_module_item_id', None)] *)
Definition item_module_item_id (it : item) : option ident :=
  match it with
  | ITextHeader h => TextHeader.canvas_module_item_id h
  | IPage p => Page.canvas_module_item_id p
  | IExternalLink l => ExternalLink.canvas_module_item_id l
  | IFile f => File.canvas_module_item_id f
  | IAssignment a => Assignment.canvas_module_item_id a
  | IDiscussion d => Discussion.canvas_module_item_id d
  end.

(** The [canvas_page_id], [canvas_assignment_id] or [canvas_discussion_id]
    of an item. *)
Definition item_content_id (it : item) : option ident :=
  match it with
  | IPage p => Page.canvas_page_id p
  | IAssignment a => Assignment.canvas_assignment_id a
  | IDiscussion d => Discussion.canvas_discussion_id d
  | _ => None
  end.

Definition has_existing (modules : list Module_.t) : bool :=
  existsb (fun m =>
    has_id (Module_.canvas_module_id m)
    || existsb (fun it => has_id (item_module_item_id it) || has_id (item_content_id it))
         (Module_.items m)) modules.

Definition fetch_files : M unit :=
  listing <- _request get_files ;;
  all_files <- lift (py_iter listing) ;;
  modify (with_files_cache all_files) ;;
  for_each all_files (fun f =>
    name <- lift (val_get "display_name" (VStr "") f) ;;
    match name, f with
    | VStr filename, VDict file_data =>
        modify (with_resolver (fun r => register_file r filename file_data))
    | _, _ => lift (Raise AttributeError)
    end).

(** One [try] block of [_fetch_existing_data]: the read, then the entry in
    the cache; a failure is counted and the run goes on. *)
Definition fetch_into (rq : request) (store : pyval -> caches -> caches) : M unit :=
  try_ (canvas_data <- _request rq ;; modify (with_cache (store canvas_data)))
    (fun _ => ret tt).

Definition store_module (id : ident) (v : pyval) (c : caches) : caches :=
  {| cache_modules := <[id := v]> (cache_modules c);
     cache_pages := cache_pages c; cache_assignments := cache_assignments c;
     cache_discussions := cache_discussions c;
     cache_module_items := cache_module_items c |}.

Definition store_page (id : ident) (v : pyval) (c : caches) : caches :=
  {| cache_modules := cache_modules c;
     cache_pages := <[id := v]> (cache_pages c);
     cache_assignments := cache_assignments c;
     cache_discussions := cache_discussions c;
     cache_module_items := cache_module_items c |}.

Definition store_assignment (id : ident) (v : pyval) (c : caches) : caches :=
  {| cache_modules := cache_modules c; cache_pages := cache_pages c;
     cache_assignments := <[id := v]> (cache_assignments c);
     cache_discussions := cache_discussions c;
     cache_module_items := cache_module_items c |}.

Definition store_discussion (id : ident) (v : pyval) (c : caches) : caches :=
  {| cache_modules := cache_modules c; cache_pages := cache_pages c;
     cache_assignments := cache_assignments c;
     cache_discussions := <[id := v]> (cache_discussions c);
     cache_module_items := cache_module_items c |}.

Definition store_module_item (id : ident) (v : pyval) (c : caches) : caches :=
  {| cache_modules := cache_modules c; cache_pages := cache_pages c;
     cache_assignments := cache_assignments c;
     cache_discussions := cache_discussions c;
     cache_module_items := <[id := v]> (cache_module_items c) |}.

(** An identity that passes the test [if ..._id:]. *)
Definition live_id (o : option ident) : option ident :=
  if has_id o then o else None.

Definition fetch_item (module : Module_.t) (it : item) : M unit :=
  match it with
  | IPage p =>
      match live_id (Page.canvas_page_id p) with
      | Some id => fetch_into (get_page (val_of_ident id)) (store_page id)
      | None => ret tt
      end
  | IAssignment a =>
      match live_id (Assignment.canvas_assignment_id a) with
      | Some id => fetch_into (get_assignment (val_of_ident id)) (store_assignment id)
      | None => ret tt
      end
  | IDiscussion d =>
      match live_id (Discussion.canvas_discussion_id d) with
      | Some id => fetch_into (get_discussion (val_of_ident id)) (store_discussion id)
      | None => ret tt
      end
  | ITextHeader _ | IExternalLink _ =>
      match live_id (item_module_item_id it), live_id (Module_.canvas_module_id module) with
      | Some item_id, Some module_id =>
          fetch_into (get_module_item (val_of_ident module_id) (val_of_ident item_id))
            (store_module_item item_id)
      | _, _ => ret tt
      end
  | IFile _ => ret tt
  end.

Definition _fetch_existing_data (modules : list Module_.t) : M unit :=
  for_each modules (fun module =>
    match live_id (Module_.canvas_module_id module) with
    | Some id => fetch_into (get_module (val_of_ident id)) (store_module id)
    | None => ret tt
    end ;;
    for_each (Module_.items module) (fetch_item module)).

Definition prefetch (modules : list Module_.t) : M unit :=
  let has_files := existsb (fun m => existsb is_file (Module_.items m)) modules in
  let has_file_links :=
    existsb (fun m => existsb (fun it => contains "[[File:" (item_text it))
                        (Module_.items m)) modules in
  (if has_files || has_file_links then fetch_files else ret tt) ;;
  (if has_existing modules then _fetch_existing_data modules else ret tt).

(** ** [CourseBuilder]: Phase 1 *)

(** The cached snapshot that passes the test [if canvas_data:]. *)
Definition comparison_data (cache : gmap ident pyval) (id : ident) : option pyval :=
  match cache !! id with
  | Some canvas_data => if truthy canvas_data then Some canvas_data else None
  | None => None
  end.

(** The module part of one round of the Phase 1 loop; [i] is the position
    of the module, from 1. *)
Definition sync_module (i : nat) (module : Module_.t) : M unit :=
  match live_id (Module_.canvas_module_id module) with
  | Some id =>
      cache <- gets (fun b => cache_modules (canvas_data_cache b)) ;;
      match comparison_data cache id with
      | Some canvas_data =>
          comparison <- lift (compare_module module canvas_data) ;;
          (if has_changes comparison
           then _request (update_module (val_of_ident id) (Module_.title module) i) ;;
                ret tt
           else ret tt) ;;
          set_module_canvas_id (i - 1) (val_of_ident id)
      | None =>
          _request (update_module (val_of_ident id) (Module_.title module) i) ;;
          set_module_canvas_id (i - 1) (val_of_ident id)
      end
  | None =>
      result <- _request (create_module (Module_.title module) i) ;;
      new_id <- lift (val_index "id" result) ;;
      set_module_canvas_id (i - 1) new_id
  end.

(** The decision shared by pages, assignments and discussions, which the
    source spells out three times: with an identity and comparison data,
    update when the comparison reports a change and skip otherwise; with an
    identity and no comparison data, update; with no identity, create. The
    result is the new [canvas_id] and [canvas_url] of the object. *)
Definition create_or_update (id : option ident) (cache : caches -> gmap ident pyval)
  (compare : pyval -> result ChangeDetectionResult)
  (update : pyval -> request) (create : request)
  (id_key kind : string) : M (pyval * pyval) :=
  match live_id id with
  | Some id =>
      let default_url :=
        VStr (api_base_url +:+ "/courses/" +:+ api_course_id +:+ "/" +:+ kind
              +:+ "/" +:+ py_str (val_of_ident id)) in
      cached <- gets (fun b => cache (canvas_data_cache b)) ;;
      match comparison_data cached id with
      | Some canvas_data =>
          comparison <- lift (compare canvas_data) ;;
          if has_changes comparison
          then result <- _request (update (val_of_ident id)) ;;
               canvas_url <- lift (val_get "html_url" default_url result) ;;
               ret (val_of_ident id, canvas_url)
          else canvas_url <- lift (val_get "html_url" default_url canvas_data) ;;
               ret (val_of_ident id, canvas_url)
      | None =>
          result <- _request (update (val_of_ident id)) ;;
          canvas_url <- lift (val_get "html_url" default_url result) ;;
          ret (val_of_ident id, canvas_url)
      end
  | None =>
      result <- _request create ;;
      canvas_id <- lift (val_index id_key result) ;;
      canvas_url <- lift (val_index "html_url" result) ;;
      ret (canvas_id, canvas_url)
  end.

Definition note_links (l : loc) (content : string) : M unit :=
  if has_internal_links content
  then modify (with_pending (fun pending => pending ++ [l]))
  else ret tt.

Definition discussion_type (d : Discussion.t) : string :=
  if Discussion.threaded d then "threaded" else "side_comment".

(** The arguments that the discussion calls share: the grading fields
    count only for a graded discussion. *)
Definition discussion_points (d : Discussion.t) : Qc :=
  if Discussion.graded d then Discussion.points d else 0%Qc.

Definition discussion_due (d : Discussion.t) : option datetime :=
  if Discussion.graded d then Discussion.due_at d else None.

Definition discussion_grading (d : Discussion.t) : string :=
  if Discussion.graded d then to_canvas (Discussion.grade_display d) else "pass_fail".

(** [_create_or_update_item] for the object at [l], whose value before
    the call is [it]. The two attributes of the object are written
    together. *)
Definition _create_or_update_item (l : loc) (it : item) : M unit :=
  match it with
  | ITextHeader _ => ret tt
  | IPage p =>
      let content := Page.content p in
      note_links l content ;;
      ids <-
        create_or_update (Page.canvas_page_id p) cache_pages (compare_page p)
          (fun id => update_page id content (Some (Page.title p)))
          (create_page (Page.title p) content) "page_id" "pages" ;;
      let '(canvas_id, canvas_url) := ids in
      let p' := Page.mk (Page.title p) (Page.content p) canvas_id canvas_url
                  (Page.canvas_page_id p) (Page.canvas_module_item_id p) in
      update_item l (fun _ => IPage p') ;;
      modify (with_resolver (fun r => register_page r p'))
  | IExternalLink _ => ret tt
  | IFile f =>
      cache <- gets files_cache ;;
      file_data <- lift (get_file_by_name (File.filename f) cache) ;;
      match file_data with
      | Some fd =>
          if truthy fd then
            file_id <- lift (val_get "id" VNone fd) ;;
            file_url <- lift (val_get "url" VNone fd) ;;
            update_item l (fun _ =>
              IFile (File.mk (File.title f) (File.filename f) file_id file_url
                       (File.canvas_module_item_id f)))
          else ret tt
      | None => ret tt
      end
  | IAssignment a =>
      let content := Assignment.description a in
      note_links l content ;;
      let submission_types := map value (Assignment.submission_types a) in
      ids <-
        create_or_update (Assignment.canvas_assignment_id a) cache_assignments
          (compare_assignment a)
          (fun id => update_assignment_full id (Assignment.title a) content
                       (Assignment.points a) (Assignment.due_at a)
                       (to_canvas (Assignment.grade_display a)) submission_types)
          (create_assignment (Assignment.title a) content (Assignment.points a)
             (Assignment.due_at a) (to_canvas (Assignment.grade_display a))
             submission_types)
          "id" "assignments" ;;
      let '(canvas_id, canvas_url) := ids in
      let a' := Assignment.mk (Assignment.title a) (Assignment.description a)
                  (Assignment.points a) (Assignment.due_at a)
                  (Assignment.grade_display a) (Assignment.submission_types a)
                  canvas_id canvas_url (Assignment.canvas_assignment_id a)
                  (Assignment.canvas_module_item_id a) in
      update_item l (fun _ => IAssignment a') ;;
      modify (with_resolver (fun r => register_assignment r a'))
  | IDiscussion d =>
      let content := Discussion.message d in
      note_links l content ;;
      ids <-
        create_or_update (Discussion.canvas_discussion_id d) cache_discussions
          (compare_discussion d)
          (fun id => update_discussion_full id (Discussion.title d) content
                       (Discussion.require_initial_post d) (discussion_type d)
                       (Discussion.graded d) (discussion_points d)
                       (discussion_due d) (discussion_grading d))
          (create_discussion (Discussion.title d) content
             (Discussion.require_initial_post d) (discussion_type d)
             (Discussion.graded d) (discussion_points d) (discussion_due d)
             (discussion_grading d))
          "id" "discussion_topics" ;;
      let '(canvas_id, canvas_url) := ids in
      let d' := Discussion.mk (Discussion.title d) (Discussion.message d)
                  (Discussion.require_initial_post d) (Discussion.threaded d)
                  (Discussion.graded d) (Discussion.points d) (Discussion.due_at d)
                  (Discussion.grade_display d) canvas_id canvas_url
                  (Discussion.canvas_discussion_id d)
                  (Discussion.canvas_module_item_id d) in
      update_item l (fun _ => IDiscussion d') ;;
      modify (with_resolver (fun r => register_discussion r d'))
  end.

(** The first pass of [build] over the modules it was given. *)
Definition content_sync (modules : list Module_.t) : M unit :=
  for_each (enumerate 1 modules) (fun '(i, module) =>
    sync_module i module ;;
    for_each (enumerate 0 (Module_.items module)) (fun '(j, it) =>
      _create_or_update_item (i - 1, j) it)).

(** ** [CourseBuilder]: Phase 2 *)

(** One round of the loop of [_resolve_links], for the object kept at
    [l]. *)
Definition resolve_item_links (l : loc) : M unit :=
  it <- read_item l ;;
  r <- gets resolver ;;
  match it with
  | IPage p =>
      let new_content := resolve r (Page.content p) in
      slug <- lift (url_slug (Page.canvas_url p)) ;;
      _request (update_page slug new_content None) ;;
      ret tt
  | IAssignment a =>
      let new_content := resolve r (Assignment.description a) in
      _request (update_assignment (Assignment.canvas_id a) new_content) ;;
      ret tt
  | IDiscussion d =>
      let new_content := resolve r (Discussion.message d) in
      _request (update_discussion (Discussion.canvas_id d) new_content) ;;
      ret tt
  | _ => ret tt
  end.

Definition _resolve_links : M unit :=
  pending <- gets items_needing_link_resolution ;;
  for_each pending resolve_item_links.

(** ** [CourseBuilder]: Phase 3 *)

Definition place (module : Module_.t) (existing_item_id : option ident)
  (item_type : string) (update_kwargs create_kwargs : list (string * pyval))
  : M unit :=
  match live_id existing_item_id with
  | Some item_id =>
      _request (update_module_item (Module_.canvas_id module) (val_of_ident item_id)
                  update_kwargs) ;;
      ret tt
  | None =>
      _request (create_module_item (Module_.canvas_id module) item_type create_kwargs) ;;
      ret tt
  end.

Definition _add_to_module (module : Module_.t) (it : item) (position : nat) : M unit :=
  let existing_item_id := item_module_item_id it in
  let pos := ("position", VInt (Z.of_nat position)) in
  match it with
  | ITextHeader h =>
      place module existing_item_id "SubHeader"
        [("title", VStr (TextHeader.title h)); pos]
        [("title", VStr (TextHeader.title h)); pos]
  | IPage p =>
      match live_id existing_item_id with
      | Some _ => place module existing_item_id "Page" [pos] []
      | None =>
          page_url <- (if truthy (Page.canvas_url p)
                       then lift (url_slug (Page.canvas_url p))
                       else ret (Page.canvas_id p)) ;;
          place module existing_item_id "Page" [pos]
            [("content_id", Page.canvas_id p); ("page_url", page_url); pos]
      end
  | IExternalLink l =>
      place module existing_item_id "ExternalUrl"
        [("title", VStr (ExternalLink.title l));
         ("external_url", VStr (ExternalLink.url l)); pos]
        [("title", VStr (ExternalLink.title l));
         ("external_url", VStr (ExternalLink.url l));
         ("new_tab", VBool true); pos]
  | IFile f =>
      if negb (truthy (File.canvas_file_id f)) then ret tt
      else
        place module existing_item_id "File"
          [("title", VStr (File.title f)); pos]
          [("content_id", File.canvas_file_id f); ("title", VStr (File.title f)); pos]
  | IAssignment a =>
      place module existing_item_id "Assignment" [pos]
        [("content_id", Assignment.canvas_id a); pos]
  | IDiscussion d =>
      place module existing_item_id "Discussion" [pos]
        [("content_id", Discussion.canvas_id d); pos]
  end.

(** The third pass of [build], over the objects as Phase 1 left them. *)
Definition placement : M unit :=
  modules <- gets tree ;;
  for_each modules (fun module =>
    for_each (enumerate 1 (Module_.items module)) (fun '(position, it) =>
      _add_to_module module it position)).

(** ** [CourseBuilder]: the preview of a dry run *)

(** The decision the preview prints for an object with an optional
    identity. *)
Definition preview_mode (id : option ident) (cache : gmap ident pyval)
  (compare : pyval -> result ChangeDetectionResult)
  (update_prefix update_suffix skip no_data create : string) : result string :=
  (match live_id id with
   | Some id =>
       match comparison_data cache id with
       | Some canvas_data =>
           comparison <- compare canvas_data ;;
           if has_changes comparison
           then Ok (update_prefix +:+ join ", " (changed_fields comparison)
                    +:+ update_suffix)
           else Ok skip
       | None => Ok no_data
       end
   | None => Ok create
   end)%result.

Definition item_preview (b : builder) (it : item) : result string :=
  let c := canvas_data_cache b in
  let mode id cache compare :=
    preview_mode id cache compare "update: " "" "skip (no changes)"
      "update - no comparison data" "create" in
  (match it with
   | ITextHeader h =>
       m <- mode (TextHeader.canvas_module_item_id h) (cache_module_items c)
              (compare_text_header h) ;;
       Ok ("[header] " +:+ TextHeader.title h +:+ " (" +:+ m +:+ ")")
   | IPage p =>
       m <- mode (Page.canvas_page_id p) (cache_pages c) (compare_page p) ;;
       Ok ("[page] " +:+ Page.title p +:+ " (" +:+ m +:+ ")")
   | IExternalLink l =>
       m <- mode (ExternalLink.canvas_module_item_id l) (cache_module_items c)
              (compare_external_link l) ;;
       Ok ("[link] " +:+ ExternalLink.title l +:+ " (" +:+ m +:+ ")")
   | IFile f =>
       file_data <- match files_cache b with
                    | [] => Ok None
                    | cache => get_file_by_name (File.filename f) cache
                    end ;;
       match file_data with
       | Some fd =>
           if truthy fd
           then Ok ("[file] " +:+ File.title f +:+ " (found: " +:+ File.filename f +:+ ")")
           else Ok ("[file] " +:+ File.title f +:+ " (NOT FOUND: " +:+ File.filename f +:+ ")")
       | None => Ok ("[file] " +:+ File.title f +:+ " (NOT FOUND: " +:+ File.filename f +:+ ")")
       end
   | IAssignment a =>
       m <- mode (Assignment.canvas_assignment_id a) (cache_assignments c)
              (compare_assignment a) ;;
       Ok ("[assignment] " +:+ Assignment.title a +:+ " (" +:+ m +:+ ")")
   | IDiscussion d =>
       m <- mode (Discussion.canvas_discussion_id d) (cache_discussions c)
              (compare_discussion d) ;;
       Ok ("[discussion] " +:+ Discussion.title d +:+ " (" +:+ m +:+ ")")
   end)%result.

Fixpoint preview_items (b : builder) (items : list item) : result (list string) :=
  (match items with
   | [] => Ok []
   | it :: rest =>
       line <- item_preview b it ;;
       lines <- preview_items b rest ;;
       Ok (line :: lines)
   end)%result.

Fixpoint preview_modules (b : builder) (i : nat) (modules : list Module_.t)
  : result (list string) :=
  (match modules with
   | [] => Ok []
   | module :: rest =>
       m <- preview_mode (Module_.canvas_module_id module)
              (cache_modules (canvas_data_cache b)) (compare_module module)
              "UPDATE (changed: " ")" "SKIP (no changes)"
              "UPDATE (no comparison data)" "CREATE" ;;
       lines <- preview_items b (Module_.items module) ;;
       more <- preview_modules b (S i) rest ;;
       Ok (("[Module " +:+ string_of_nat i +:+ "] " +:+ Module_.title module
            +:+ " (" +:+ m +:+ ")") :: lines ++ more)
   end)%result.

(** [_preview]: the lines of the report; it sends nothing. *)
Definition _preview (modules : list Module_.t) : M (list string) :=
  fun b => (preview_modules b 1 modules, b).

(** ** [CourseBuilder.build] *)

(** Phases 0 and 1 of a run that is no dry run. *)
Definition build_content (modules : list Module_.t) : M unit :=
  modify (with_tree (fun _ => modules)) ;;
  prefetch modules ;;
  content_sync modules.

(** The result is the report of a dry run, and nothing otherwise. *)
Definition build (modules : list Module_.t) (dry_run : bool) : M (list string) :=
  if dry_run then
    modify (with_tree (fun _ => modules)) ;;
    prefetch modules ;;
    _preview modules
  else
    build_content modules ;;
    _resolve_links ;;
    placement ;;
    ret [].

(** The requests of a run of a new builder, and its result. *)
Definition run {A : Type} (m : M A) : result A * list request :=
  let '(r, b) := m new_builder in (r, sent b).

Definition requests_of {A : Type} (m : M A) : list request := snd (run m).

Definition writes (l : list request) : list request := filter (fun rq => is_write rq = true) l.

(** ** [extract_frontmatter] *)

(** [yaml.safe_load]: the value read, or the exception it raises: a
    [YAMLError] on a text that is no YAML, and others, such as the
    [ValueError] of a date whose month does not exist. *)
Variable yaml_safe_load : string -> result pyval.

(** [yaml.safe_load(frontmatter_text) or {}], and [{}] after a
    [YAMLError], the one exception that is caught. *)
Definition frontmatter_metadata (frontmatter_text : string) : result pyval :=
  match yaml_safe_load frontmatter_text with
  | Ok v => Ok (if truthy v then v else VDict [])
  | Raise YAMLError => Ok (VDict [])
  | Raise e => Raise e
  end.

Definition extract_frontmatter (content : string) : result (pyval * string) :=
  match split_on newline content with
  | first :: rest =>
      if is_delimiter first then
        match closing_delimiter rest with
        | Some (frontmatter, remaining) =>
            rbind (frontmatter_metadata (join newline_text frontmatter))
              (fun metadata => Ok (metadata, join newline_text remaining))
        | None => Ok (VDict [], content)
        end
      else Ok (VDict [], content)
  | [] => Ok (VDict [], content)
  end.

(** ** [MarkdownParser] *)

(** [int(text)] and [float(text)] on a text, and [datetime.strptime(text,
    format)]: the value, or [None] when they raise [ValueError]. *)
Variable py_int : string -> option Z.
Variable py_float : string -> option Qc.
Variable strptime : string -> string -> option datetime.

(** The class [\w] of [re] on a code point below 256: the letters, the
    digits and the other numeric characters, and the underscore. *)
Definition is_word (c : ascii) : bool :=
  let n := code c in
  (Nat.leb 48 n && Nat.leb n 57) || (Nat.leb 65 n && Nat.leb n 90) || Nat.eqb n 95
  || (Nat.leb 97 n && Nat.leb n 122) || Nat.eqb n 170
  || (Nat.leb 178 n && Nat.leb n 179) || Nat.eqb n 181
  || (Nat.leb 185 n && Nat.leb n 186) || (Nat.leb 188 n && Nat.leb n 190)
  || (Nat.leb 192 n && Nat.leb n 214) || (Nat.leb 216 n && Nat.leb n 246)
  || Nat.leb 248 n.

Definition non_space (c : ascii) : bool := negb (is_space c).

(** The four patterns. They are applied with [match] to one line, which
    holds no line break, so that the end of the text and the end of the
    line are the same place. *)

(** A hash and a blank, then the title (group 1, at least one
    character). *)
Definition MODULE_PATTERN : regex :=
  Cat Bol (Cat (Lit "# ") (Cat (Group 1 (Plus dot)) Eol)).

(** Two hashes, a blank and an opening square bracket, the type (group 1,
    word characters), a closing square bracket and a blank, the title
    (group 2, at least one character). *)
Definition ITEM_PATTERN : regex :=
  Cat Bol (Cat (Lit "## [") (Cat (Group 1 (Plus is_word))
    (Cat (Lit "] ") (Cat (Group 2 (Plus dot)) Eol)))).

(** The key (group 1, word characters), a colon, white space if any, the
    value (group 2, at least one character). The white space is taken as
    long as possible and given back one character at a time. *)
Definition METADATA_PATTERN : regex :=
  Cat Bol (Cat (Group 1 (Plus is_word)) (Cat (Lit ":")
    (Alt (Cat (Plus is_space) (Cat (Group 2 (Plus dot)) Eol))
         (Cat (Group 2 (Plus dot)) Eol)))).

(** The opening of a comment and [canvas_], the kind of identity (group 1,
    word characters), a colon and a blank, the identity (group 2, no white
    space), a blank and the closing of the comment. *)
Definition CANVAS_ID_PATTERN : regex :=
  Cat Bol (Cat (Lit "<!-- canvas_") (Cat (Group 1 (Plus is_word))
    (Cat (Lit ": ") (Cat (Group 2 (Plus non_space)) (Cat (Lit " -->") Eol))))).

Definition CONTENT_SEPARATOR : string := "---".

(** [pattern.match(line)] as a truth value. *)
Definition matches (r : regex) (line : string) : bool :=
  match rx_match r None line with
  | Some _ => true
  | None => false
  end.

(** The local variables of [_parse_item]. *)
Record item_state : Type := {
  metadata : gmap string string;
  canvas_ids : gmap string ident;
  content_lines : list string;
  in_content : bool;
}.

Definition new_item_state : item_state :=
  {| metadata := ∅; canvas_ids := ∅; content_lines := []; in_content := false |}.

(** The identity of a marker: an integer if [int] reads one, the text
    otherwise. *)
Definition read_id (text : string) : ident :=
  match py_int text with
  | Some z => IdInt z
  | None => IdStr text
  end.

(** The loop of [_parse_item] from the lines that are left: the state at
    the end and the lines from the next header on. *)
Fixpoint _parse_item_lines (lines : list string) (st : item_state)
  : item_state * list string :=
  match lines with
  | [] => (st, [])
  | raw :: rest =>
      let line := rstrip raw in
      if matches MODULE_PATTERN line || matches ITEM_PATTERN line then (st, lines)
      else if String.eqb line CONTENT_SEPARATOR then
        _parse_item_lines rest
          {| metadata := metadata st; canvas_ids := canvas_ids st;
             content_lines := content_lines st; in_content := true |}
      else
        match rx_match CANVAS_ID_PATTERN None line with
        | Some (caps, _) =>
            _parse_item_lines rest
              {| metadata := metadata st;
                 canvas_ids := <[group 1 caps := read_id (group 2 caps)]> (canvas_ids st);
                 content_lines := content_lines st; in_content := in_content st |}
        | None =>
            if in_content st then
              _parse_item_lines rest
                {| metadata := metadata st; canvas_ids := canvas_ids st;
                   content_lines := content_lines st ++ [line];
                   in_content := in_content st |}
            else
              match rx_match METADATA_PATTERN None line with
              | Some (caps, _) =>
                  _parse_item_lines rest
                    {| metadata := <[lower (group 1 caps) := strip (group 2 caps)]>
                                     (metadata st);
                       canvas_ids := canvas_ids st;
                       content_lines := content_lines st;
                       in_content := in_content st |}
              | None =>
                  if nonempty line && negb (is_prefix "<!--" line) then
                    _parse_item_lines rest
                      {| metadata := metadata st; canvas_ids := canvas_ids st;
                         content_lines := content_lines st ++ [line];
                         in_content := in_content st |}
                  else _parse_item_lines rest st
              end
        end
  end.

Definition date_formats : list string :=
  ["%Y-%m-%d %I:%M%p"; "%Y-%m-%d %I:%M %p"; "%Y-%m-%d %H:%M"; "%Y-%m-%d";
   "%b %d, %Y %I:%M%p"; "%b %d, %Y %I:%M %p"; "%b %d, %Y"].

(** A date read by a format without time is given the time 23:59. *)
Definition end_of_day (fmt : string) (dt : datetime) : datetime :=
  if Nat.eqb (hour dt) 0 && Nat.eqb (minute dt) 0
     && negb (contains "%H" fmt) && negb (contains "%I" fmt)
  then {| year := year dt; month := month dt; day := day dt; hour := 23;
          minute := 59; second := second dt; tzinfo := tzinfo dt |}
  else dt.

Fixpoint try_formats (date_str : string) (formats : list string) : option datetime :=
  match formats with
  | [] => None
  | fmt :: rest =>
      match strptime date_str fmt with
      | Some dt => Some (end_of_day fmt dt)
      | None => try_formats date_str rest
      end
  end.

Definition _parse_date (date_str : option string) : option datetime :=
  match date_str with
  | Some s => if nonempty s then try_formats (strip s) date_formats else None
  | None => None
  end.

(** [float(metadata.get('points', 0))] *)
Definition points_of (st : item_state) : option Qc :=
  match metadata st !! "points" with
  | Some text => py_float text
  | None => Some 0%Qc
  end.

(** [self._parse_bool(metadata.get(key, default))] *)
Definition flag_of (st : item_state) (key default : string) : bool :=
  _parse_bool (match metadata st !! key with
               | Some text => text
               | None => default
               end).

(** The end of [_parse_item]: the object for the type, [None] when the
    item is skipped; the outer [None] is the [ValueError] of [float]. *)
Definition make_item (item_type title : string) (st : item_state)
  : option (option item) :=
  let content := strip (join newline_text (content_lines st)) in
  let module_item_id := canvas_ids st !! "module_item_id" in
  if String.eqb item_type "header" then
    Some (Some (ITextHeader (TextHeader.mk title module_item_id)))
  else if String.eqb item_type "page" then
    Some (Some (IPage (Page.mk title content VNone VNone
                         (canvas_ids st !! "page_id") module_item_id)))
  else if String.eqb item_type "link" then
    match metadata st !! "url" with
    | Some url =>
        if nonempty url
        then Some (Some (IExternalLink (ExternalLink.mk title url module_item_id)))
        else Some None
    | None => Some None
    end
  else if String.eqb item_type "file" then
    let filename :=
      match metadata st !! "filename" with
      | Some name => if nonempty name then name else title
      | None => title
      end in
    Some (Some (IFile (File.mk title filename
                         (match canvas_ids st !! "file_id" with
                          | Some id => val_of_ident id
                          | None => VNone
                          end)
                         VNone module_item_id)))
  else if String.eqb item_type "assignment" then
    match points_of st with
    | Some points =>
        Some (Some (IAssignment
          (Assignment.mk title content points
             (_parse_date (metadata st !! "due"))
             (_parse_grade_display (metadata st !! "grade_display"))
             (_parse_submission_types (metadata st !! "submission_types"))
             VNone VNone (canvas_ids st !! "assignment_id") module_item_id)))
    | None => None
    end
  else if String.eqb item_type "discussion" then
    match points_of st with
    | Some points =>
        Some (Some (IDiscussion
          (Discussion.mk title content
             (flag_of st "require_initial_post" "false")
             (flag_of st "threaded" "true")
             (flag_of st "graded" "false")
             points
             (_parse_date (metadata st !! "due"))
             (_parse_grade_display (metadata st !! "grade_display"))
             VNone VNone (canvas_ids st !! "discussion_id") module_item_id)))
    | None => None
    end
  else Some None.

(** [self.modules[-1].items.append(item)] *)
Fixpoint add_to_last (it : item) (modules : list Module_.t) : list Module_.t :=
  match modules with
  | [] => []
  | [m] =>
      [Module_.mk (Module_.title m) (Module_.items m ++ [it]) (Module_.canvas_id m)
         (Module_.canvas_module_id m)]
  | m :: rest => m :: add_to_last it rest
  end.

(** The loop of [parse] from the lines that are left. Every round takes
    at least one line, so as many rounds as there are lines are enough;
    [fuel] counts the rounds. [None] is the [ValueError] of [float]. *)
Fixpoint parse_loop (fuel : nat) (lines : list string) (modules : list Module_.t)
  : option (list Module_.t) :=
  match fuel, lines with
  | _, [] => Some modules
  | O, _ :: _ => Some modules
  | S fuel', raw :: rest =>
      let line := rstrip raw in
      match rx_match MODULE_PATTERN None line with
      | Some (caps, _) =>
          let title := group 1 caps in
          match rest with
          | next :: rest' =>
              match rx_match CANVAS_ID_PATTERN None (rstrip next) with
              | Some (id_caps, _) =>
                  if String.eqb (group 1 id_caps) "module_id"
                  then parse_loop fuel' rest'
                         (modules ++ [Module_.mk title [] VNone
                                        (option_map IdInt (py_int (group 2 id_caps)))])
                  else parse_loop fuel' rest
                         (modules ++ [Module_.mk title [] VNone None])
              | None =>
                  parse_loop fuel' rest (modules ++ [Module_.mk title [] VNone None])
              end
          | [] => parse_loop fuel' rest (modules ++ [Module_.mk title [] VNone None])
          end
      | None =>
          match rx_match ITEM_PATTERN None line, modules with
          | Some (caps, _), _ :: _ =>
              let '(st, rest') := _parse_item_lines rest new_item_state in
              match make_item (lower (group 1 caps)) (group 2 caps) st with
              | Some (Some it) => parse_loop fuel' rest' (add_to_last it modules)
              | Some None => parse_loop fuel' rest' modules
              | None => None
              end
          | _, _ => parse_loop fuel' rest modules
          end
      end
  end.

(** [MarkdownParser(content).parse()] *)
Definition parse (content : string) : option (list Module_.t) :=
  let lines := split_on newline content in
  parse_loop (length lines) lines [].

(** ** Notions used to state the properties *)


(** The rule for due dates in the words of the specification: the due
    timestamps are compared through their canonical ISO-8601
    representation; absent on both sides is unchanged, absent on one side
    only is changed.

    A timestamp is a point in time, and its canonical representation is
    the ISO-8601 text of that point in UTC, so two timestamps have the same
    canonical representation exactly when they are the same point in time.
    A date without zone is a local time, as the client takes it when it
    sends one; a remote date is the timestamp that its text denotes. *)









(** [m] takes every state to a state related to it by [R], whether it
    returns or raises. *)
Definition steps {A : Type} (R : relation builder) (m : M A) : Prop :=
  forall b, R b (snd (m b)).

(** The record of requests has grown by requests that satisfy [P]. *)
Definition sent_more (P : request -> Prop) : relation builder :=
  fun b b' => exists ext, sent b' = sent b ++ ext /\ Forall P ext.

(** [m] adds only requests that satisfy [P] to the record. *)
Definition sends {A : Type} (P : request -> Prop) (m : M A) : Prop :=
  steps (sent_more P) m.

Definition reads_only (rq : request) : Prop := is_read rq = true.








(** Every item of the tree has a placement identity. *)
Definition placed (modules : list Module_.t) : Prop :=
  Forall (fun m => Forall (fun it => has_id (item_module_item_id it) = true)
                     (Module_.items m)) modules.

(** The value is an answer of the service to the request. *)
Definition answers (rq : request) (v : pyval) : Prop :=
  exists history, canvas history rq = Ok v.

(** Every snapshot in the cache is an answer to the read of its entity. *)
Definition cache_sound (c : caches) : Prop :=
  (forall id v, cache_modules c !! id = Some v -> answers (get_module (val_of_ident id)) v)
  /\ (forall id v, cache_pages c !! id = Some v -> answers (get_page (val_of_ident id)) v)
  /\ (forall id v, cache_assignments c !! id = Some v ->
                   answers (get_assignment (val_of_ident id)) v)
  /\ (forall id v, cache_discussions c !! id = Some v ->
                   answers (get_discussion (val_of_ident id)) v).

Definition stays_sound : relation builder :=
  fun b b' => cache_sound (canvas_data_cache b) -> cache_sound (canvas_data_cache b').

Definition keeps (f : caches -> gmap ident pyval) (c c' : caches) : Prop :=
  forall id, is_Some (f c !! id) -> is_Some (f c' !! id).

(** The tree is untouched and no snapshot leaves the cache. *)
Definition caches_grow : relation builder :=
  fun b b' =>
    tree b' = tree b
    /\ keeps cache_modules (canvas_data_cache b) (canvas_data_cache b')
    /\ keeps cache_pages (canvas_data_cache b) (canvas_data_cache b')
    /\ keeps cache_assignments (canvas_data_cache b) (canvas_data_cache b')
    /\ keeps cache_discussions (canvas_data_cache b) (canvas_data_cache b').



(** The cache holds comparison data for the identity, and the comparison
    reports no change. *)
Definition unchanged_in (cache : gmap ident pyval) (o : option ident)
  (compare : pyval -> result ChangeDetectionResult) : Prop :=
  exists id canvas_data r,
    live_id o = Some id /\ comparison_data cache id = Some canvas_data
    /\ compare canvas_data = Ok r /\ has_changes r = false.



(** From a state whose cache is [c0]: nothing is sent, the cache stays and
    the items keep their placement identities. *)
Definition quiet_with (c0 : caches) : relation builder :=
  fun b b' =>
    canvas_data_cache b = c0 ->
    sent b' = sent b /\ canvas_data_cache b' = c0
    /\ (placed (tree b) -> placed (tree b')).

Definition same_tree : relation builder := fun b b' => tree b' = tree b.

(** Bodies built from plain text and placeholders. *)

Fixpoint string_forall (p : ascii -> bool) (s : string) : bool :=
  match s with
  | EmptyString => true
  | String c s' => p c && string_forall p s'
  end.

(** A text with no opening square bracket. *)
Definition plain (s : string) : bool := string_forall (any_but "["%char) s.

Definition link_type (kind : string) : Prop :=
  In kind ["Page"; "Assignment"; "Discussion"; "File"].

Definition placeholder (kind title : string) : string :=
  "[[" +:+ kind +:+ ":" +:+ title +:+ "]]".

Inductive segment : Type :=
| Text (t : string)
| Ref (kind title : string).

Definition render_segment (seg : segment) : string :=
  match seg with
  | Text t => t
  | Ref kind title => placeholder kind title
  end.

Fixpoint render (segs : list segment) : string :=
  match segs with
  | [] => ""
  | seg :: rest => render_segment seg +:+ render rest
  end.

(** The text that [resolve] puts in the place of a match. *)
Definition link_text (r : LinkResolver) (caps : captures) : string :=
  fst (replace_link r caps).

(** The output of [resolve] from a position of the scan. *)
Definition resolve_from (r : LinkResolver) (prev : option ascii) (s : string)
  (skip : nat) : string :=
  concat_strings (map (piece_text (link_text r)) (rx_scan LINK_PATTERN prev s skip)).

(** A file of the listing with its display name, as the search without
    regard to case reads it: [f.get("display_name", "")]. *)
Definition named (f : pyval) (name : string) : Prop :=
  exists d, f = VDict d /\ dict_get "display_name" (VStr "") d = VStr name.

(** A segment that [LINK_PATTERN] reads as it was written: plain text, or
    a placeholder of one of the four types whose title is not empty and has
    no closing square bracket. *)
Definition well_formed (seg : segment) : Prop :=
  match seg with
  | Text t => plain t = true
  | Ref kind title =>
      link_type kind /\ nonempty title = true
      /\ string_forall (any_but "]"%char) title = true
  end.

(** What takes the place of a segment: the link of a target that is
    registered with a URL, the trimmed title otherwise. *)
Definition resolved_segment (r : LinkResolver) (seg : segment) : string :=
  match seg with
  | Text t => t
  | Ref kind title =>
      match resolved_link r kind (strip title) with
      | Some link => link
      | None => strip title
      end
  end.


(** A character of the ISO-8601 text of a date without time zone. *)
Definition iso_char (c : ascii) : bool :=
  is_digit c || Ascii.eqb c "-" || Ascii.eqb c ":" || Ascii.eqb c "T".

(** The form data name no field of the assignment of a graded
    discussion. *)
Definition no_grading_fields (rq : request) : Prop :=
  Forall (fun kv => is_prefix "assignment[" (fst kv) = false) (data rq).

(** The cache holds comparison data for the identity, and the comparison
    reports a change. *)
Definition changed_in (cache : gmap ident pyval) (o : option ident)
  (compare : pyval -> result ChangeDetectionResult) (id : ident) : Prop :=
  exists canvas_data r,
    live_id o = Some id /\ comparison_data cache id = Some canvas_data
    /\ compare canvas_data = Ok r /\ has_changes r = true.

Definition is_ok {A : Type} (r : result A) : bool :=
  match r with
  | Ok _ => true
  | Raise _ => false
  end.

(** Along the requests [ext], sent after [history]: every write that is
    followed by another request was answered by the service, and the last
    request too, if it is a write and [last_ok] holds. *)
Fixpoint writes_answered (history ext : list request) (last_ok : bool) : Prop :=
  match ext with
  | [] => True
  | rq :: ext' =>
      (is_write rq = true -> ext' <> [] \/ last_ok = true ->
       exists v, canvas history rq = Ok v)
      /\ writes_answered (history ++ [rq]) ext' last_ok
  end.

(** [m] goes on after a write only when the write was answered, and
    returns only when all its writes were. *)
Definition settles {A : Type} (m : M A) : Prop :=
  forall b, exists ext,
    sent (snd (m b)) = sent b ++ ext
    /\ writes_answered (sent b) ext (is_ok (fst (m b))).



(** The positions of the items of a tree, in the order of the file:
    counted from 1 in each module. *)
Definition positions (modules : list Module_.t) : list nat :=
  flat_map (fun m => seq 1 (length (Module_.items m))) modules.


(** The default address of an entity of [kind] with identity [id]. *)
Definition default_url (kind : string) (id : ident) : pyval :=
  VStr (api_base_url +:+ "/courses/" +:+ api_course_id +:+ "/" +:+ kind
        +:+ "/" +:+ py_str (val_of_ident id)).

(** The test of [build] for Phase 0: some item is a file, or some body
    holds the start of a placeholder for a file. *)
Definition needs_files (modules : list Module_.t) : bool :=
  existsb (fun m => existsb is_file (Module_.items m)) modules
  || existsb (fun m => existsb (fun it => contains "[[File:" (item_text it))
                         (Module_.items m)) modules.

(** The request is not the listing of the files. *)
Definition no_listing (rq : request) : Prop := String.eqb (path rq) "files" = false.

(** The first request of a computation that starts with an empty
    record. *)
Definition first_is {A : Type} (rq : request) (m : M A) : Prop :=
  forall b, sent b = [] -> exists rest, sent (snd (m b)) = rq :: rest.

(** The characters that start a pattern of [markdown_to_html_basic]. *)
Definition marker (c : ascii) : bool :=
  existsb (Ascii.eqb c) ["#"; "-"; "*"; "["; "_"]%char.

Definition unmarked (s : string) : bool := string_forall (fun c => negb (marker c)) s.

(** The text starts with a white space character. *)
Definition starts_blank (s : string) : bool :=
  match s with
  | String c _ => is_space c
  | EmptyString => false
  end.

(** Every white space character of the text is a blank that no white
    space follows. *)
Fixpoint single_spaced (s : string) : bool :=
  match s with
  | EmptyString => true
  | String c s' =>
      (if is_space c then Ascii.eqb c " " && negb (starts_blank s') else true)
      && single_spaced s'
  end.

(** The output of the substitution of one blank for every run of white
    space, from a position of the scan. *)
Definition collapse_from (prev : option ascii) (s : string) (skip : nat) : string :=
  concat_strings (map (piece_text (fun _ => " ")) (rx_scan spaces_re prev s skip)).

(** The mode that the preview computes for an item, and for a module. *)
Definition item_mode (id : option ident) (cache : gmap ident pyval)
  (compare : pyval -> result ChangeDetectionResult) : result string :=
  preview_mode id cache compare "update: " "" "skip (no changes)"
    "update - no comparison data" "create".

Definition module_mode (id : option ident) (cache : gmap ident pyval)
  (compare : pyval -> result ChangeDetectionResult) : result string :=
  preview_mode id cache compare "UPDATE (changed: " ")" "SKIP (no changes)"
    "UPDATE (no comparison data)" "CREATE".

(** What a mode of the preview says of the requests [ext] that Phase 1
    sends: a creation, nothing, or an update. *)
Definition mode_says (mode create_mode skip_mode no_data_mode update_prefix
                        update_suffix : string)
  (create : request) (update : pyval -> request) (ext : list request) : Prop :=
  (mode = create_mode /\ ext = [create])
  \/ (mode = skip_mode /\ ext = [])
  \/ (exists id,
        (mode = no_data_mode
         \/ exists fields, mode = update_prefix +:+ fields +:+ update_suffix)
        /\ ext = [update (val_of_ident id)]).

(** The list of the objects kept for Phase 2 is untouched. *)
Definition same_pending : relation builder :=
  fun b b' => items_needing_link_resolution b' = items_needing_link_resolution b.

(** The title of a line that opens a module: the line is a hash, a blank
    and at least one more character. *)
Definition heading_of (line : string) : option string :=
  match line with
  | String a (String b (String c t)) =>
      if Ascii.eqb a "#" && Ascii.eqb b " " then Some (String c t) else None
  | _ => None
  end.

(** The same for a line of the file, whose white space at the end does
    not count. *)
Definition heading (raw : string) : option string := heading_of (rstrip raw).

(** The key and the value of a line that reads as metadata. *)
Definition metadata_of (raw : string) : option (string * string) :=
  match rx_match METADATA_PATTERN None (rstrip raw) with
  | Some (caps, _) => Some (lower (group 1 caps), strip (group 2 caps))
  | None => None
  end.

(** A list of lines, none of which holds a line break. *)
Definition no_break (lines : list string) : Prop :=
  Forall (fun l => string_forall dot l = true) lines.

(** What holds of an object that the parser has made: a link has a URL,
    an assignment has a submission type, and nothing has been given a
    place in the service yet. *)
Definition as_parsed (it : item) : Prop :=
  match it with
  | ITextHeader _ => True
  | IPage p => Page.canvas_id p = VNone /\ Page.canvas_url p = VNone
  | IExternalLink k => nonempty (ExternalLink.url k) = true
  | IFile f => File.canvas_url f = VNone
  | IAssignment a =>
      Assignment.canvas_id a = VNone /\ Assignment.canvas_url a = VNone
      /\ Assignment.submission_types a <> []
  | IDiscussion d => Discussion.canvas_id d = VNone /\ Discussion.canvas_url d = VNone
  end.

Definition module_as_parsed (m : Module_.t) : Prop :=
  Module_.canvas_id m = VNone /\ Forall as_parsed (Module_.items m).

(** * Properties *)

(** ** The normaliser *)

Lemma strip_bold_markdown : strip "**Bold** text" = "**Bold** text".
Proof. reflexivity. Qed.

Lemma strip_bold_html : strip "<strong>Bold</strong> text" = "<strong>Bold</strong> text".
Proof. reflexivity. Qed.

Lemma markdown_of_bold_markdown :
  markdown_to_html_basic "**Bold** text" = "<strong>Bold</strong> text".
Proof. vm_compute. reflexivity. Qed.

Lemma markdown_of_bold_html :
  markdown_to_html_basic "<strong>Bold</strong> text" = "<strong>Bold</strong> text".
Proof. vm_compute. reflexivity. Qed.

(** C8. Normalization equivalence: the markdown text [**Bold** text] and
    the rich-markup text [<strong>Bold</strong> text] normalise to the same
    string, whatever the markup parser does with it, as soon as
    [html.unescape] leaves these two texts, which hold no ampersand, as
    they are. *)
Theorem normalize_bold_equivalence :
  html_unescape "**Bold** text" = Ok "**Bold** text" ->
  html_unescape "<strong>Bold</strong> text" = Ok "<strong>Bold</strong> text" ->
  normalize_html "**Bold** text" = normalize_html "<strong>Bold</strong> text"
  /\ exists text, normalize_html "**Bold** text" = Ok text.
Proof.
  intros Hmd Hhtml. unfold normalize_html.
  rewrite strip_bold_markdown, strip_bold_html, Hmd, Hhtml.
  cbn [rbind].
  rewrite markdown_of_bold_markdown, markdown_of_bold_html.
  split; [reflexivity |].
  cbn [nonempty negb].
  destruct (extract_text "<strong>Bold</strong> text"); cbn [try_except rbind];
    eexists; reflexivity.
Qed.

(** The normaliser returns as soon as [html.unescape] does. *)
Lemma normalize_html_returns content unescaped :
  html_unescape (strip content) = Ok unescaped ->
  exists text, normalize_html content = Ok text.
Proof.
  intros H. unfold normalize_html, extract_text.
  destruct (nonempty content); cbn [negb]; [| eexists; reflexivity].
  rewrite H. cbn [rbind].
  destruct (html_feed _); cbn [try_except rbind]; eexists; reflexivity.
Qed.

(** It raises only what [html.unescape] raises. *)
Lemma normalize_html_raises content e :
  normalize_html content = Raise e <->
  nonempty content = true /\ html_unescape (strip content) = Raise e.
Proof.
  unfold normalize_html, extract_text.
  destruct (nonempty content); cbn [negb].
  - destruct (html_unescape (strip content)) as [unescaped | e']; cbn [rbind].
    + split; [| intros [_ H]; discriminate H].
      destruct (html_feed _); cbn [try_except rbind]; intros H; discriminate H.
    + split; [intros [= ->]; split; reflexivity | intros [_ [= ->]]; reflexivity].
  - split; [intros H; discriminate H | intros [H _]; discriminate H].
Qed.

(** C9, amended. The normaliser returns a string on every input on which
    [html.unescape] returns, whatever the markup parser does: when the
    parser raises, the result is what stripping the tags with the regular
    expression gives, with white space collapsed, trimmed and in lower case.
    The call of [html.unescape] stands before the [try], so the normaliser
    raises exactly when the content is not empty and [html.unescape] raises
    on it, and then with the same exception. *)
Theorem normalize_html_raises_with_unescape_only (content : string) :
  (nonempty content = false -> normalize_html content = Ok "")
  /\ (forall unescaped,
        html_unescape (strip content) = Ok unescaped ->
        (exists text, normalize_html content = Ok text)
        /\ forall e,
             nonempty content = true ->
             html_feed (markdown_to_html_basic unescaped) = Raise e ->
             normalize_html content =
             Ok (lower (strip (rx_sub spaces_re (fun _ => " ")
                   (rx_sub tag_re (fun _ => " ")
                      (markdown_to_html_basic unescaped))))))
  /\ (forall e,
        normalize_html content = Raise e <->
        nonempty content = true /\ html_unescape (strip content) = Raise e).
Proof.
  split; [| split].
  - intros H. unfold normalize_html. rewrite H. reflexivity.
  - intros unescaped H. split; [exact (normalize_html_returns _ _ H) |].
    intros e Hne Hfeed. unfold normalize_html, extract_text.
    rewrite Hne, H. cbn [negb rbind]. rewrite Hfeed. reflexivity.
  - apply normalize_html_raises.
Qed.

(** ** Request payloads *)






(** ** The change detector *)

Lemma in_flag x b y : In x (flag b y) <-> b = true /\ x = y.
Proof.
  unfold flag. destruct b; cbn [In]; split.
  - intros [H | []]. split; [reflexivity | symmetry; exact H].
  - intros [_ H]. left. symmetry. exact H.
  - intros [].
  - intros [H _]. discriminate H.
Qed.

Lemma has_changes_detection l x : In x l -> has_changes (detection l) = true.
Proof. destruct l; [intros [] | reflexivity]. Qed.

Lemma changed_fields_detection l : changed_fields (detection l) = l.
Proof. reflexivity. Qed.

Lemma str_eq_val_false s v : str_eq_val s v = false <-> VStr s <> v.
Proof.
  destruct v; cbn [str_eq_val]; try (split; [intros _ H; discriminate H | reflexivity]).
  split.
  - intros E H. injection H as ->. rewrite String.eqb_refl in E. discriminate E.
  - intros H. destruct (String.eqb s s0) eqn:E; [| reflexivity].
    apply String.eqb_eq in E. subst. exfalso. apply H. reflexivity.
Qed.


(** The test of the source when both dates are present: the text of the
    local date against the value received. *)
Lemma due_differs_present d canvas_due :
  truthy canvas_due = true ->
  due_differs (Some d) canvas_due = true <-> VStr (isoformat d) <> canvas_due.
Proof.
  intros H. unfold due_differs. rewrite H. cbn [option_map].
  rewrite negb_true_iff. apply str_eq_val_false.
Qed.

Lemma compare_discussion_dict local canvas_data r :
  compare_discussion local canvas_data = Ok r -> exists d, canvas_data = VDict d.
Proof.
  destruct canvas_data; try (intros H; discriminate H). intros _. eexists. reflexivity.
Qed.


(** What a comparison of a discussion that returns has computed: the
    fields of the grading part after the four fields of the discussion. *)
Lemma compare_discussion_fields local d r :
  compare_discussion local (VDict d) = Ok r ->
  exists fields grading,
    compare_discussion_grading local (dict_get "assignment" VNone d) = Ok grading
    /\ r = detection (fields ++ grading)
    /\ forall x, In x fields ->
         In x ["title"; "message"; "require_initial_post"; "discussion_type"].
Proof.
  unfold compare_discussion. cbn [val_get rbind].
  destruct (normalize_html _); [| intros H; discriminate H].
  destruct (normalize_html_val _); [| intros H; discriminate H]. cbn [rbind].
  destruct (compare_discussion_grading _ _) as [grading |]; [| intros H; discriminate H].
  cbn [rbind]. intros [= <-].
  eexists. exists grading. split; [reflexivity |].
  rewrite !app_assoc. split; [reflexivity |].
  intros x. rewrite !in_app_iff, !in_flag.
  intros [[[[_ ->] | [_ ->]] | [_ ->]] | [_ ->]]; cbn [In];
    [left | right; left | right; right; left | right; right; right; left];
    reflexivity.
Qed.

Lemma compare_discussion_returns local d ln cn :
  normalize_html (Discussion.message local) = Ok ln ->
  normalize_html_val (dict_get "message" (VStr "") d) = Ok cn ->
  Discussion.graded local = false \/ truthy (dict_get "assignment" VNone d) = false ->
  exists r, compare_discussion local (VDict d) = Ok r.
Proof.
  intros Hln Hcn H. unfold compare_discussion, compare_discussion_grading.
  cbn [val_get rbind]. rewrite Hln, Hcn. cbn [rbind].
  destruct (Discussion.graded local).
  - destruct H as [H | H]; [discriminate H |]. rewrite H. cbn [negb rbind].
    eexists. reflexivity.
  - destruct (truthy (dict_get "assignment" VNone d)); cbn [rbind]; eexists; reflexivity.
Qed.

(** C5, amended. Whenever the comparison of a discussion returns, a graded
    local discussion against a snapshot without assignment sub-record is
    reported as changed, with [graded_status] among the changed fields,
    whatever the other fields are; and for a local discussion that is not
    graded the fields [points], [due_date] and [grading_type] are never
    reported. In these two cases the comparison returns as soon as the
    normaliser returns on the local and on the remote message; and it
    raises whenever the normaliser raises on one of them. *)
Theorem graded_flag_transition (local : Discussion.t) (canvas_data : pyval) :
  (forall r,
     compare_discussion local canvas_data = Ok r ->
     exists d,
       canvas_data = VDict d
       /\ (Discussion.graded local = true ->
           truthy (dict_get "assignment" VNone d) = false ->
           has_changes r = true /\ In "graded_status" (changed_fields r))
       /\ (Discussion.graded local = false ->
           ~ In "points" (changed_fields r)
           /\ ~ In "due_date" (changed_fields r)
           /\ ~ In "grading_type" (changed_fields r)))
  /\ (forall d ln cn,
        canvas_data = VDict d ->
        normalize_html (Discussion.message local) = Ok ln ->
        normalize_html_val (dict_get "message" (VStr "") d) = Ok cn ->
        Discussion.graded local = false
        \/ truthy (dict_get "assignment" VNone d) = false ->
        exists r, compare_discussion local canvas_data = Ok r)
  /\ (forall d e,
        canvas_data = VDict d ->
        normalize_html (Discussion.message local) = Raise e
        \/ (exists ln, normalize_html (Discussion.message local) = Ok ln
                       /\ normalize_html_val (dict_get "message" (VStr "") d) =
                          Raise e) ->
        compare_discussion local canvas_data = Raise e).
Proof.
  split; [| split].
  - intros r H. destruct (compare_discussion_dict _ _ _ H) as [d ->].
    exists d. split; [reflexivity |].
    destruct (compare_discussion_fields _ _ _ H) as (fields & grading & Hg & -> & Hf).
    unfold compare_discussion_grading in Hg. split.
    + intros Hgraded Hsub. rewrite Hgraded, Hsub in Hg. injection Hg as <-.
      assert (Hin : In "graded_status" (fields ++ ["graded_status"]))
        by (apply in_app_iff; right; left; reflexivity).
      split; [eapply has_changes_detection |]; exact Hin.
    + intros Hgraded. rewrite Hgraded in Hg.
      assert (Hgrading : grading = ["graded_status"] \/ grading = []).
      { destruct (truthy (dict_get "assignment" VNone d)); injection Hg as <-;
          [left | right]; reflexivity. }
      rewrite changed_fields_detection.
      repeat split; intros Hin; apply in_app_iff in Hin as [Hin | Hin];
        try (apply Hf in Hin; cbn [In] in Hin; decompose [or] Hin;
             first [discriminate | contradiction]);
        destruct Hgrading as [-> | ->]; cbn [In] in Hin; decompose [or] Hin;
        first [discriminate | contradiction].
  - intros d ln cn -> Hln Hcn H. exact (compare_discussion_returns _ _ _ _ Hln Hcn H).
  - intros d e -> H. unfold compare_discussion. cbn [val_get rbind].
    destruct H as [-> | (ln & -> & ->)]; reflexivity.
Qed.

Lemma compare_assignment_due local snapshot r :
  compare_assignment local (VDict snapshot) = Ok r ->
  In "due_date" (changed_fields r) <->
  due_differs (Assignment.due_at local) (dict_get "due_at" VNone snapshot) = true.
Proof.
  unfold compare_assignment. cbn [val_get rbind].
  destruct (normalize_html _); [| intros H; discriminate H].
  destruct (normalize_html_val _); [| intros H; discriminate H]. cbn [rbind].
  destruct (py_set _); [| intros H; discriminate H]. cbn [rbind].
  intros [= <-]. rewrite changed_fields_detection, !in_app_iff, !in_flag.
  split.
  - intros H. decompose [and or] H; try discriminate. assumption.
  - intros H. do 3 right. left. split; [exact H | reflexivity].
Qed.


(** ** Requests sent by the builder *)

Section Steps.

Context (R : relation builder) `{!PreOrder R}.

Lemma steps_ret {A : Type} (a : A) : steps R (ret a).
Proof. intros b. reflexivity. Qed.

Lemma steps_lift {A : Type} (r : result A) : steps R (lift r).
Proof. intros b. reflexivity. Qed.

Lemma steps_gets {A : Type} (f : builder -> A) : steps R (gets f).
Proof. intros b. reflexivity. Qed.

Lemma steps_read_item l : steps R (read_item l).
Proof.
  intros b. unfold read_item.
  destruct (tree b !! l.1) as [m |]; [destruct (Module_.items m !! l.2) |];
    reflexivity.
Qed.

Lemma steps_bind {A B : Type} (m : M A) (f : A -> M B) :
  steps R m -> (forall a, steps R (f a)) -> steps R (bind m f).
Proof.
  intros Hm Hf b. unfold bind. specialize (Hm b).
  destruct (m b) as [[a | e] b1]; cbn [snd] in *; [| exact Hm].
  etransitivity; [exact Hm | apply Hf].
Qed.

Lemma steps_try {A : Type} (m : M A) (h : exn -> M A) :
  steps R m -> (forall e, steps R (h e)) -> steps R (try_ m h).
Proof.
  intros Hm Hh b. unfold try_. specialize (Hm b).
  destruct (m b) as [[a | e] b1]; cbn [snd] in *; [exact Hm |].
  etransitivity; [exact Hm | apply Hh].
Qed.

Lemma steps_for_each {A : Type} (l : list A) (f : A -> M unit) :
  (forall x, In x l -> steps R (f x)) -> steps R (for_each l f).
Proof.
  induction l as [| x l IH]; intros H; cbn [for_each].
  - apply steps_ret.
  - apply steps_bind.
    + apply H. left. reflexivity.
    + intros _. apply IH. intros y Hy. apply H. right. exact Hy.
Qed.

End Steps.

#[local] Instance sent_more_preorder P : PreOrder (sent_more P).
Proof.
  split.
  - intros b. exists []. split; [symmetry; apply app_nil_r | constructor].
  - intros b1 b2 b3 [e1 [E1 F1]] [e2 [E2 F2]]. exists (e1 ++ e2).
    rewrite E2, E1, app_assoc. split; [reflexivity | apply Forall_app; split; assumption].
Qed.

Lemma sends_modify P (f : builder -> builder) :
  (forall b, sent (f b) = sent b) -> sends P (modify f).
Proof.
  intros H b. exists []. cbn [modify snd]. rewrite H.
  split; [symmetry; apply app_nil_r | constructor].
Qed.

Lemma sends_request (P : request -> Prop) rq : P rq -> sends P (_request rq).
Proof.
  intros H b. exists [rq]. split; [reflexivity | constructor; [exact H | constructor]].
Qed.

Lemma sends_weaken {A : Type} (P Q : request -> Prop) (m : M A) :
  (forall rq, P rq -> Q rq) -> sends P m -> sends Q m.
Proof.
  intros H Hm b. destruct (Hm b) as [ext [E F]]. exists ext.
  split; [exact E | eapply Forall_impl; [exact F | exact H]].
Qed.

(** One step of a proof about the states a computation goes through:
    the structure of the computation is followed, and what a write to the
    state or a request does to the relation is left to [leaf]. *)
Ltac steps_with leaf :=
  lazymatch goal with
  | |- steps _ (ret _) => apply steps_ret; apply _
  | |- steps _ (lift _) => apply steps_lift; apply _
  | |- steps _ (gets _) => apply steps_gets; apply _
  | |- steps _ (read_item _) => apply steps_read_item; apply _
  | |- steps _ (bind _ _) => apply steps_bind; [apply _ | | intros]
  | |- steps _ (try_ _ _) => apply steps_try; [apply _ | | intros]
  | |- steps _ (for_each _ _) => apply steps_for_each; [apply _ | intros]
  | |- steps _ (match ?x with _ => _ end) => destruct x
  | |- steps _ _ => leaf
  end.

Ltac sends_leaf :=
  idtac;
  lazymatch goal with
  | |- steps _ (modify _) => apply sends_modify; intros; reflexivity
  | |- steps _ (update_item _ _) => apply sends_modify; intros; reflexivity
  | |- steps _ (set_module_canvas_id _ _) => apply sends_modify; intros; reflexivity
  end.

Ltac sends_step := unfold sends; steps_with sends_leaf.

Lemma sends_fetch_into rq store :
  reads_only rq -> sends reads_only (fetch_into rq store).
Proof.
  intros H. unfold fetch_into. repeat sends_step. apply sends_request. exact H.
Qed.

Lemma sends_fetch_files : sends reads_only fetch_files.
Proof.
  unfold fetch_files. sends_step; [apply sends_request; reflexivity |].
  repeat sends_step.
Qed.

Lemma sends_fetch_item module it : sends reads_only (fetch_item module it).
Proof.
  unfold fetch_item.
  repeat first [apply sends_fetch_into; reflexivity | sends_step].
Qed.

Lemma sends_fetch_existing_data modules :
  sends reads_only (_fetch_existing_data modules).
Proof.
  unfold _fetch_existing_data.
  repeat first [apply sends_fetch_into; reflexivity | apply sends_fetch_item | sends_step].
Qed.

Lemma sends_prefetch modules : sends reads_only (prefetch modules).
Proof.
  unfold prefetch.
  repeat first [apply sends_fetch_files | apply sends_fetch_existing_data | sends_step].
Qed.

Lemma steps_preview R `{!PreOrder R} modules : steps R (_preview modules).
Proof. intros b. reflexivity. Qed.

Lemma requests_of_sends {A : Type} P (m : M A) : sends P m -> Forall P (requests_of m).
Proof.
  intros H. unfold requests_of, run. destruct (H new_builder) as [ext [E F]].
  destruct (m new_builder) as [r b]. cbn [snd] in *. rewrite E. exact F.
Qed.

Lemma writes_of_reads l : Forall reads_only l -> writes l = [].
Proof.
  unfold writes, reads_only, is_write. induction 1 as [| rq l H _ IH]; [reflexivity |].
  rewrite filter_cons. destruct (decide _) as [E | _]; [| exact IH].
  rewrite H in E. discriminate E.
Qed.

(** C3. A dry run sends no write: every request of [build] in dry-run
    mode is a read (the file listing and the snapshots of Phase 0), for
    every module tree and every behaviour of the remote service. *)
Theorem dry_run_sends_only_reads (modules : list Module_.t) :
  Forall reads_only (requests_of (build modules true))
  /\ writes (requests_of (build modules true)) = [].
Proof.
  assert (H : Forall reads_only (requests_of (build modules true))).
  { apply requests_of_sends. cbn [build].
    repeat first [apply sends_prefetch | apply steps_preview; apply _ | sends_step]. }
  split; [exact H | apply writes_of_reads; exact H].
Qed.

(** ** Entities with an identity and no snapshot *)

Lemma live_id_some id : has_id (Some id) = true -> live_id (Some id) = Some id.
Proof. unfold live_id. intros ->. reflexivity. Qed.

Lemma comparison_data_none (cache : gmap ident pyval) id :
  cache !! id = None -> comparison_data cache id = None.
Proof. unfold comparison_data. intros ->. reflexivity. Qed.

(** A computation that sends nothing leaves the record as it is. *)
Lemma sends_nothing {A : Type} (m : M A) b :
  sends (fun _ => False) m -> sent (snd (m b)) = sent b.
Proof.
  intros H. destruct (H b) as [ext [E F]]. destruct ext as [| rq ext].
  - rewrite E. apply app_nil_r.
  - inversion F; contradiction.
Qed.

Lemma sent_bind {A B : Type} (m : M A) (f : A -> M B) b :
  (forall a, sends (fun _ => False) (f a)) ->
  sent (snd (bind m f b)) = sent (snd (m b)).
Proof.
  intros H. unfold bind. destruct (m b) as [[a | e] b1]; cbn [snd]; [| reflexivity].
  apply sends_nothing. apply H.
Qed.

Lemma sync_module_without_snapshot i module id b :
  Module_.canvas_module_id module = Some id ->
  has_id (Some id) = true ->
  cache_modules (canvas_data_cache b) !! id = None ->
  sent (snd (sync_module i module b)) =
  sent b ++ [update_module (val_of_ident id) (Module_.title module) i].
Proof.
  intros Hid Hlive Hcache. unfold sync_module.
  rewrite Hid, (live_id_some _ Hlive). unfold bind at 1. cbn [gets].
  rewrite (comparison_data_none _ _ Hcache).
  rewrite sent_bind by (intros; apply sends_modify; reflexivity).
  reflexivity.
Qed.

Lemma create_or_update_without_snapshot o id cache compare update create id_key kind b :
  o = Some id ->
  has_id (Some id) = true ->
  cache (canvas_data_cache b) !! id = None ->
  sent (snd (create_or_update o cache compare update create id_key kind b)) =
  sent b ++ [update (val_of_ident id)].
Proof.
  intros -> Hlive Hcache. unfold create_or_update.
  rewrite (live_id_some _ Hlive). unfold bind at 1. cbn [gets].
  rewrite (comparison_data_none _ _ Hcache).
  rewrite sent_bind by (intros; repeat sends_step).
  reflexivity.
Qed.

Lemma note_links_state l content b :
  sent (snd (note_links l content b)) = sent b
  /\ canvas_data_cache (snd (note_links l content b)) = canvas_data_cache b
  /\ fst (note_links l content b) = Ok tt.
Proof.
  unfold note_links. destruct (has_internal_links content); repeat split.
Qed.

(** What [_create_or_update_item] sends for an object with a content
    identity that the cache does not hold. *)
Ltac item_without_snapshot Hid Hlive Hcache :=
  let Hsent := fresh "Hsent" in
  let Hcaches := fresh "Hcaches" in
  let Hres := fresh "Hres" in
  let r := fresh "r" in
  let b1 := fresh "b" in
  unfold _create_or_update_item; unfold bind at 1;
  match goal with
  | |- context [note_links ?l ?c ?b] =>
      destruct (note_links_state l c b) as [Hsent [Hcaches Hres]];
      destruct (note_links l c b) as [r b1]; cbn [fst snd] in *; subst r
  end;
  rewrite sent_bind by (intros; repeat sends_step);
  rewrite <- Hcaches in Hcache;
  rewrite (create_or_update_without_snapshot _ _ _ _ _ _ _ _ _ Hid Hlive Hcache);
  rewrite Hsent; reflexivity.

(** C7. An entity that carries a remote identity and has no snapshot in
    the cache is updated: the Phase 1 step of a module, of a page, of an
    assignment and of a discussion sends exactly the full update of that
    entity, without any comparison, whatever the state of the builder and
    the answer of the service. An identity is carried when it passes the
    test of the source, [if ..._id:]. *)
Theorem update_without_snapshot :
  (forall i module id b,
     Module_.canvas_module_id module = Some id ->
     has_id (Some id) = true ->
     cache_modules (canvas_data_cache b) !! id = None ->
     sent (snd (sync_module i module b)) =
     sent b ++ [update_module (val_of_ident id) (Module_.title module) i])
  /\ (forall l p id b,
        Page.canvas_page_id p = Some id ->
        has_id (Some id) = true ->
        cache_pages (canvas_data_cache b) !! id = None ->
        sent (snd (_create_or_update_item l (IPage p) b)) =
        sent b ++ [update_page (val_of_ident id) (Page.content p) (Some (Page.title p))])
  /\ (forall l a id b,
        Assignment.canvas_assignment_id a = Some id ->
        has_id (Some id) = true ->
        cache_assignments (canvas_data_cache b) !! id = None ->
        sent (snd (_create_or_update_item l (IAssignment a) b)) =
        sent b ++ [update_assignment_full (val_of_ident id) (Assignment.title a)
                     (Assignment.description a) (Assignment.points a)
                     (Assignment.due_at a) (to_canvas (Assignment.grade_display a))
                     (map value (Assignment.submission_types a))])
  /\ (forall l d id b,
        Discussion.canvas_discussion_id d = Some id ->
        has_id (Some id) = true ->
        cache_discussions (canvas_data_cache b) !! id = None ->
        sent (snd (_create_or_update_item l (IDiscussion d) b)) =
        sent b ++ [update_discussion_full (val_of_ident id) (Discussion.title d)
                     (Discussion.message d) (Discussion.require_initial_post d)
                     (discussion_type d) (Discussion.graded d) (discussion_points d)
                     (discussion_due d) (discussion_grading d)]).
Proof.
  split; [exact sync_module_without_snapshot | repeat split].
  - intros l p id b Hid Hlive Hcache. item_without_snapshot Hid Hlive Hcache.
  - intros l a id b Hid Hlive Hcache. item_without_snapshot Hid Hlive Hcache.
  - intros l d id b Hid Hlive Hcache. item_without_snapshot Hid Hlive Hcache.
Qed.

(** ** A run on a tree that is in sync: Phase 1 sends nothing *)

#[local] Instance quiet_with_preorder c0 : PreOrder (quiet_with c0).
Proof.
  split.
  - intros b E. repeat split; [exact E | auto].
  - intros b1 b2 b3 H12 H23 E. destruct (H12 E) as [S1 [C1 P1]].
    destruct (H23 C1) as [S2 [C2 P2]].
    repeat split; [congruence | exact C2 | auto].
Qed.

Lemma quiet_modify c0 (f : builder -> builder) :
  (forall b, sent (f b) = sent b
             /\ canvas_data_cache (f b) = canvas_data_cache b
             /\ (placed (tree b) -> placed (tree (f b)))) ->
  steps (quiet_with c0) (modify f).
Proof.
  intros H b E. cbn [modify snd]. destruct (H b) as [S [C P]].
  repeat split; [exact S | congruence | exact P].
Qed.


Lemma quiet_set_module_canvas_id c0 i v :
  steps (quiet_with c0) (set_module_canvas_id i v).
Proof.
  apply quiet_modify. intros b. repeat split.
  cbn [with_tree tree]. intros P. apply Forall_alter; [exact P |].
  intros m _ Hm. exact Hm.
Qed.

Lemma create_or_update_unchanged o cache compare update create id_key kind b :
  unchanged_in (cache (canvas_data_cache b)) o compare ->
  snd (create_or_update o cache compare update create id_key kind b) = b.
Proof.
  intros (id & canvas_data & r & Hid & Hdata & Hcmp & Hno).
  unfold create_or_update. rewrite Hid. unfold bind at 1. cbn [gets].
  rewrite Hdata. unfold bind at 1. unfold lift at 1. rewrite Hcmp, Hno.
  unfold bind, lift, ret. destruct (val_get _ _ _); reflexivity.
Qed.





Lemma quiet_sync_module c0 i m :
  unchanged_in (cache_modules c0) (Module_.canvas_module_id m) (compare_module m) ->
  steps (quiet_with c0) (sync_module i m).
Proof.
  intros (id & canvas_data & r & Hid & Hdata & Hcmp & Hno) b E.
  assert (Hrun : sync_module i m b = set_module_canvas_id (i - 1) (val_of_ident id) b).
  { unfold sync_module. rewrite Hid. unfold bind at 1. cbn [gets].
    rewrite E, Hdata. unfold bind at 1. unfold lift at 1. rewrite Hcmp, Hno.
    reflexivity. }
  rewrite Hrun. apply quiet_set_module_canvas_id. exact E.
Qed.



(** ** A run on a tree that is in sync: Phase 0 fills the cache *)

#[local] Instance stays_sound_preorder : PreOrder stays_sound.
Proof. split; [intros b H; exact H | intros b1 b2 b3 H12 H23 H; auto]. Qed.

#[local] Instance same_tree_preorder : PreOrder same_tree.
Proof.
  split; [intros b; reflexivity | intros b1 b2 b3 H12 H23].
  unfold same_tree in *. congruence.
Qed.

#[local] Instance caches_grow_preorder : PreOrder caches_grow.
Proof.
  split.
  - intros b. repeat split; intros id H; exact H.
  - intros b1 b2 b3 (T1 & M1 & P1 & A1 & D1) (T2 & M2 & P2 & A2 & D2).
    repeat split; [congruence | | | |]; intros id H; auto.
Qed.

Lemma fetch_into_run rq store b :
  fetch_into rq store b =
  match canvas (sent b) rq with
  | Ok v => (Ok tt, with_cache (store v) (with_sent (fun l => l ++ [rq]) b))
  | Raise _ => (Ok tt, with_sent (fun l => l ++ [rq]) b)
  end.
Proof.
  unfold fetch_into, try_, bind, _request, modify, ret.
  destruct (canvas (sent b) rq); reflexivity.
Qed.

Lemma fetch_into_sound rq store :
  (forall v c, answers rq v -> cache_sound c -> cache_sound (store v c)) ->
  steps stays_sound (fetch_into rq store).
Proof.
  intros H b Hs. rewrite fetch_into_run.
  destruct (canvas (sent b) rq) as [v | e] eqn:E; cbn [snd]; [| exact Hs].
  apply H; [exists (sent b); exact E | exact Hs].
Qed.

Lemma fetch_into_grows rq store :
  (forall v c, keeps cache_modules c (store v c) /\ keeps cache_pages c (store v c)
               /\ keeps cache_assignments c (store v c)
               /\ keeps cache_discussions c (store v c)) ->
  steps caches_grow (fetch_into rq store).
Proof.
  intros H b. rewrite fetch_into_run.
  destruct (canvas (sent b) rq) as [v | e]; cbn [snd].
  - split; [reflexivity | apply H].
  - split; [reflexivity | repeat split; intros id Hid; exact Hid].
Qed.

Lemma fetch_into_total rq store b : fst (fetch_into rq store b) = Ok tt.
Proof. rewrite fetch_into_run. destruct (canvas (sent b) rq); reflexivity. Qed.

Lemma keeps_insert (m : gmap ident pyval) id v id' :
  is_Some (m !! id') -> is_Some (<[id := v]> m !! id').
Proof.
  intros H. destruct (decide (id = id')) as [-> | Hne].
  - rewrite lookup_insert_eq. eexists. reflexivity.
  - rewrite lookup_insert_ne by exact Hne. exact H.
Qed.

Lemma sound_insert (m : gmap ident pyval) (rq : ident -> request) id v :
  answers (rq id) v ->
  (forall id' v', m !! id' = Some v' -> answers (rq id') v') ->
  forall id' v', <[id := v]> m !! id' = Some v' -> answers (rq id') v'.
Proof.
  intros Hv Hm id' v' H. destruct (decide (id = id')) as [-> | Hne].
  - rewrite lookup_insert_eq in H. injection H as <-. exact Hv.
  - rewrite lookup_insert_ne in H by exact Hne. apply Hm. exact H.
Qed.

(** What each of the five stores does to soundness and to the entries. *)
Ltac store_sound :=
  intros ? ? ? (? & ? & ? & ?); repeat split;
  cbn [cache_modules cache_pages cache_assignments cache_discussions
       store_module store_page store_assignment store_discussion store_module_item];
  first [assumption
        | apply (sound_insert _ (fun id => get_module (val_of_ident id))); assumption
        | apply (sound_insert _ (fun id => get_page (val_of_ident id))); assumption
        | apply (sound_insert _ (fun id => get_assignment (val_of_ident id))); assumption
        | apply (sound_insert _ (fun id => get_discussion (val_of_ident id))); assumption].

Ltac store_grows :=
  intros ? ?; repeat split; intros ? ?;
  cbn [cache_modules cache_pages cache_assignments cache_discussions
       store_module store_page store_assignment store_discussion store_module_item];
  first [assumption | apply keeps_insert; assumption].

Lemma steps_fetch_item_sound module it : steps stays_sound (fetch_item module it).
Proof.
  unfold fetch_item.
  repeat first [apply fetch_into_sound; store_sound
               | steps_with ltac:(idtac; fail)].
Qed.

Lemma steps_fetch_item_grows module it : steps caches_grow (fetch_item module it).
Proof.
  unfold fetch_item.
  repeat first [apply fetch_into_grows; store_grows
               | steps_with ltac:(idtac; fail)].
Qed.

Lemma fetch_item_total module it b : fst (fetch_item module it b) = Ok tt.
Proof.
  unfold fetch_item.
  repeat first [apply fetch_into_total | reflexivity
               | match goal with |- context [match ?x with _ => _ end] => destruct x end].
Qed.

Lemma sound_untouched b b' :
  canvas_data_cache b' = canvas_data_cache b -> stays_sound b b'.
Proof. intros E H. rewrite E. exact H. Qed.

Lemma grows_untouched b b' :
  canvas_data_cache b' = canvas_data_cache b -> tree b' = tree b -> caches_grow b b'.
Proof.
  intros E T. split; [exact T |]. rewrite E. repeat split; intros id H; exact H.
Qed.

(** Writes to the state outside the cache and the tree, and requests. *)
Ltac untouched_leaf :=
  idtac;
  lazymatch goal with
  | |- steps stays_sound (fetch_into _ _) => apply fetch_into_sound; store_sound
  | |- steps caches_grow (fetch_into _ _) => apply fetch_into_grows; store_grows
  | |- steps stays_sound (fetch_item _ _) => apply steps_fetch_item_sound
  | |- steps caches_grow (fetch_item _ _) => apply steps_fetch_item_grows
  | |- steps stays_sound _ => intros ?; apply sound_untouched; reflexivity
  | |- steps caches_grow _ => intros ?; apply grows_untouched; reflexivity
  | |- steps same_tree _ => intros ?; reflexivity
  end.

Lemma steps_fetch_files_sound : steps stays_sound fetch_files.
Proof. unfold fetch_files. repeat steps_with untouched_leaf. Qed.

Lemma steps_fetch_files_grows : steps caches_grow fetch_files.
Proof. unfold fetch_files. repeat steps_with untouched_leaf. Qed.

Lemma steps_fetch_existing_sound modules :
  steps stays_sound (_fetch_existing_data modules).
Proof. unfold _fetch_existing_data. repeat steps_with untouched_leaf. Qed.

Lemma steps_fetch_existing_grows modules :
  steps caches_grow (_fetch_existing_data modules).
Proof. unfold _fetch_existing_data. repeat steps_with untouched_leaf. Qed.














Ltac prefetch_leaf :=
  idtac;
  lazymatch goal with
  | |- steps stays_sound fetch_files => apply steps_fetch_files_sound
  | |- steps caches_grow fetch_files => apply steps_fetch_files_grows
  | |- steps stays_sound (_fetch_existing_data _) => apply steps_fetch_existing_sound
  | |- steps caches_grow (_fetch_existing_data _) => apply steps_fetch_existing_grows
  end.

Lemma steps_prefetch_sound modules : steps stays_sound (prefetch modules).
Proof. unfold prefetch. repeat steps_with prefetch_leaf. Qed.




(** ** A run on a tree that is in sync: Phases 2 and 3 only update *)









Lemma sent_more_weaken (P Q : request -> Prop) b b' :
  (forall rq, P rq -> Q rq) -> sent_more P b b' -> sent_more Q b b'.
Proof.
  intros H [ext [E F]]. exists ext. split; [exact E |].
  eapply Forall_impl; [exact F | exact H].
Qed.


(** ** The scan of [re.sub] *)

Lemma append_nil (x : string) : "" +:+ x = x.
Proof. reflexivity. Qed.

Lemma append_cons (c : ascii) (u x : string) : String c u +:+ x = String c (u +:+ x).
Proof. reflexivity. Qed.

Lemma append_assoc (u v w : string) : (u +:+ v) +:+ w = u +:+ (v +:+ w).
Proof.
  induction u as [| c u IH]; [reflexivity |].
  rewrite !append_cons, IH. reflexivity.
Qed.

Lemma length_append (u v : string) :
  String.length (u +:+ v) = String.length u + String.length v.
Proof.
  induction u as [| c u IH]; [reflexivity |].
  rewrite append_cons. cbn [String.length]. rewrite IH. reflexivity.
Qed.

Lemma substring_append (u v : string) : substring 0 (String.length u) (u +:+ v) = u.
Proof.
  induction u as [| c u IH].
  - rewrite append_nil. destruct v; reflexivity.
  - rewrite append_cons. cbn [String.length substring]. rewrite IH. reflexivity.
Qed.

Lemma consumed_append (u v : string) : consumed (u +:+ v) v = u.
Proof.
  unfold consumed. rewrite length_append.
  replace (String.length u + String.length v - String.length v) with (String.length u)
    by lia.
  apply substring_append.
Qed.

Lemma string_forall_append p (u v : string) :
  string_forall p (u +:+ v) = string_forall p u && string_forall p v.
Proof.
  induction u as [| c u IH]; [reflexivity |].
  rewrite append_cons. cbn [string_forall]. rewrite IH. apply andb_assoc.
Qed.

(** Where nothing matches, the scan copies the text. *)
Lemma scan_without_match r repl : forall s prev,
  rx_search r prev s = false ->
  concat_strings (map (piece_text repl) (rx_scan r prev s 0)) = s.
Proof.
  induction s as [| c s IH]; intros prev H; cbn [rx_search rx_scan] in *.
  - destruct (rx_match r prev ""); [discriminate H | reflexivity].
  - destruct (rx_match r prev (String c s)) as [[caps rest] |]; [discriminate H |].
    cbn [map concat_strings piece_text]. rewrite append_cons, append_nil.
    f_equal. apply IH. exact H.
Qed.

Lemma rx_sub_without_match r repl s :
  rx_search r None s = false -> rx_sub r repl s = s.
Proof. apply scan_without_match. Qed.

(** The characters of a match are passed over. *)
Lemma scan_skip r : forall u prev s,
  exists prev', rx_scan r prev (u +:+ s) (String.length u) = rx_scan r prev' s 0.
Proof.
  induction u as [| c u IH]; intros prev s.
  - exists prev. reflexivity.
  - rewrite append_cons. cbn [String.length rx_scan]. apply IH.
Qed.

Lemma scan_match r prev c u s caps :
  rx_match r prev (String c (u +:+ s)) = Some (caps, s) ->
  exists prev', rx_scan r prev (String c (u +:+ s)) 0 = Matched caps :: rx_scan r prev' s 0.
Proof.
  intros H. cbn [rx_scan]. rewrite H.
  replace (String.length (String c (u +:+ s)) - String.length s)
    with (S (String.length u))
    by (cbn [String.length]; rewrite length_append; lia).
  destruct (scan_skip r u (Some c) s) as [prev' E]. exists prev'. rewrite E. reflexivity.
Qed.

(** Greedy repetition runs to the first character outside the class when
    the rest of the pattern matches there. *)
Lemma star_run p : forall t prev c s k r,
  string_forall p t = true -> p c = false ->
  (forall prev', k prev' (String c s) = Some r) ->
  star p prev (t +:+ String c s) k = Some r.
Proof.
  induction t as [| a t IH]; intros prev c s k r Ht Hc Hk.
  - rewrite append_nil. cbn [star]. rewrite Hc. apply Hk.
  - rewrite append_cons. cbn [star].
    cbn [string_forall] in Ht. apply andb_true_iff in Ht as [Ha Ht].
    rewrite Ha. rewrite (IH (Some a) c s k r Ht Hc Hk). reflexivity.
Qed.

(** ** The link pattern *)

Lemma placeholder_then kind title s :
  placeholder kind title +:+ s =
  String "[" (String "[" (kind +:+ String ":" (title +:+ String "]" (String "]" s)))).
Proof.
  unfold placeholder. rewrite !append_assoc, !append_cons, !append_nil. reflexivity.
Qed.

Lemma link_match kind c title s prev :
  link_type kind ->
  any_but "]"%char c = true ->
  string_forall (any_but "]"%char) title = true ->
  rx_match LINK_PATTERN prev (placeholder kind (String c title) +:+ s) =
  Some ([(2, String c title); (1, kind)], s).
Proof.
  intros Hkind Hc Ht. rewrite placeholder_then. unfold rx_match, LINK_PATTERN.
  destruct Hkind as [<- | [<- | [<- | [<- | []]]]];
    rewrite !append_cons, !append_nil;
    cbn [rx lit_prefix Ascii.eqb Bool.eqb]; rewrite Hc;
    match goal with
    | |- context [star _ _ _ ?k] =>
        match goal with
        | |- _ = Some ?r =>
            rewrite (star_run _ title _ "]"%char (String "]"%char s) k r Ht eq_refl)
        end
    end;
    first [reflexivity
          | intros prev'; cbn [lit_prefix Ascii.eqb Bool.eqb];
            repeat f_equal;
            match goal with
            | |- consumed _ ?v = ?u => exact (consumed_append u v)
            end].
Qed.

Lemma link_needs_bracket c s prev :
  any_but "["%char c = true -> rx_match LINK_PATTERN prev (String c s) = None.
Proof.
  unfold any_but. rewrite negb_true_iff, Ascii.eqb_sym. intros H.
  unfold rx_match, LINK_PATTERN. cbn [rx lit_prefix]. rewrite H. reflexivity.
Qed.



Lemma resolve_is_resolve_from r content : resolve r content = resolve_from r None content 0.
Proof. reflexivity. Qed.

Lemma resolve_from_text r : forall t prev s,
  plain t = true ->
  exists prev', resolve_from r prev (t +:+ s) 0 = t +:+ resolve_from r prev' s 0.
Proof.
  induction t as [| c t IH]; intros prev s H.
  - exists prev. reflexivity.
  - unfold plain in H. cbn [string_forall] in H. apply andb_true_iff in H as [Hc Ht].
    destruct (IH (Some c) s Ht) as [prev' E]. exists prev'.
    rewrite !append_cons. unfold resolve_from in *. cbn [rx_scan].
    rewrite (link_needs_bracket _ _ _ Hc). cbn [map concat_strings piece_text].
    rewrite append_cons, append_nil, E. reflexivity.
Qed.

Lemma resolve_from_placeholder r kind title prev s :
  link_type kind ->
  nonempty title = true ->
  string_forall (any_but "]"%char) title = true ->
  exists prev',
    resolve_from r prev (placeholder kind title +:+ s) 0 =
    link_text r [(2, title); (1, kind)] +:+ resolve_from r prev' s 0.
Proof.
  intros Hkind Hne Ht. destruct title as [| c title]; [discriminate Hne |].
  cbn [string_forall] in Ht. apply andb_true_iff in Ht as [Hc Ht].
  pose proof (link_match kind c title s prev Hkind Hc Ht) as Hmatch.
  set (u := String "["%char (kind +:+ ":" +:+ String c title +:+ "]]")).
  change (placeholder kind (String c title) +:+ s) with (String "["%char (u +:+ s)) in *.
  destruct (scan_match _ _ _ _ _ _ Hmatch) as [prev' E]. exists prev'.
  unfold resolve_from. rewrite E. reflexivity.
Qed.

Lemma resolve_from_end r prev : resolve_from r prev "" 0 = "".
Proof. reflexivity. Qed.

Lemma link_text_segment r kind title :
  link_text r [(2, title); (1, kind)] = resolved_segment r (Ref kind title).
Proof.
  unfold link_text, replace_link. cbn [group Nat.eqb resolved_segment].
  destruct (resolved_link r kind (strip title)); reflexivity.
Qed.

Lemma resolve_from_render r : forall segs prev,
  Forall well_formed segs ->
  resolve_from r prev (render segs) 0 = concat_strings (map (resolved_segment r) segs).
Proof.
  induction segs as [| seg segs IH]; intros prev H; [reflexivity |].
  inversion H as [| ? ? Hseg Hrest]. subst. cbn [render map concat_strings].
  destruct seg as [t | kind title]; cbn [render_segment well_formed] in *.
  - destruct (resolve_from_text r t prev (render segs) Hseg) as [prev' E].
    rewrite E, (IH prev' Hrest). reflexivity.
  - destruct Hseg as (Hkind & Hne & Ht).
    destruct (resolve_from_placeholder r kind title prev (render segs) Hkind Hne Ht)
      as [prev' E].
    rewrite E, (IH prev' Hrest), link_text_segment. reflexivity.
Qed.



(** C2. An unresolved placeholder is not left as it is: [resolve] puts
    the trimmed title in its place, without the brackets and the link type,
    and prints one warning. With no target registered, the body
    [See [[Page:Policies]]] becomes [See Policies]. *)
Theorem unresolved_link_loses_brackets :
  resolve (new_resolver api_base_url api_course_id) "See [[Page:Policies]]"
  = "See Policies"
  /\ resolve_warnings (new_resolver api_base_url api_course_id) "See [[Page:Policies]]"
     = ["  Warning: Could not resolve link [[Page:Policies]]"].
Proof. split; vm_compute; reflexivity. Qed.

(** * Further properties *)

(** ** Case and white space *)

Lemma lower_char_lower_char c : lower_char (lower_char c) = lower_char c.
Proof. destruct c as [[] [] [] [] [] [] [] []]; reflexivity. Qed.

Lemma is_space_lower_char c : is_space (lower_char c) = is_space c.
Proof. destruct c as [[] [] [] [] [] [] [] []]; reflexivity. Qed.

Lemma lower_lower s : lower (lower s) = lower s.
Proof.
  induction s as [| c s IH]; [reflexivity |].
  cbn [lower]. rewrite lower_char_lower_char, IH. reflexivity.
Qed.

Lemma lower_append u v : lower (u +:+ v) = lower u +:+ lower v.
Proof.
  induction u as [| c u IH]; [reflexivity |].
  rewrite append_cons. cbn [lower]. rewrite IH, append_cons. reflexivity.
Qed.

Lemma blank_lower s : string_forall is_space (lower s) = string_forall is_space s.
Proof.
  induction s as [| c s IH]; [reflexivity |].
  cbn [lower string_forall]. rewrite is_space_lower_char, IH. reflexivity.
Qed.

Lemma lstrip_blank pre s :
  string_forall is_space pre = true -> lstrip (pre +:+ s) = lstrip s.
Proof.
  induction pre as [| c pre IH]; intros H; [reflexivity |].
  cbn [string_forall] in H. apply andb_true_iff in H as [Hc Hpre].
  rewrite append_cons. cbn [lstrip]. rewrite Hc. apply IH. exact Hpre.
Qed.

Lemma rstrip_only_blank post : string_forall is_space post = true -> rstrip post = "".
Proof.
  induction post as [| c post IH]; intros H; [reflexivity |].
  cbn [string_forall] in H. apply andb_true_iff in H as [Hc Hpost].
  cbn [rstrip]. rewrite (IH Hpost), Hc. reflexivity.
Qed.

Lemma rstrip_blank s post :
  string_forall is_space post = true -> rstrip (s +:+ post) = rstrip s.
Proof.
  intros H. induction s as [| c s IH].
  - rewrite append_nil. apply rstrip_only_blank. exact H.
  - rewrite append_cons. cbn [rstrip]. rewrite IH. reflexivity.
Qed.

Lemma strip_blank pre s post :
  string_forall is_space pre = true -> string_forall is_space post = true ->
  strip (pre +:+ s +:+ post) = strip s.
Proof.
  intros Hpre Hpost. unfold strip. rewrite (lstrip_blank _ _ Hpre).
  induction s as [| c s IH].
  - rewrite append_nil.
    replace post with (post +:+ "") at 1
      by (clear; induction post as [| a p IHp];
          [reflexivity | rewrite append_cons, IHp; reflexivity]).
    rewrite (lstrip_blank _ _ Hpost). reflexivity.
  - rewrite append_cons. cbn [lstrip]. destruct (is_space c); [exact IH |].
    rewrite <- append_cons. apply rstrip_blank. exact Hpost.
Qed.

(** ** [MarkdownParser]: the values of the metadata *)

Lemma split_on_nonempty sep s : split_on sep s <> [].
Proof.
  destruct s as [| c s]; cbn [split_on]; [discriminate |].
  destruct (Ascii.eqb c sep); [discriminate |].
  destruct (split_on sep s); discriminate.
Qed.

Lemma split_on_append sep a b :
  split_on sep (a +:+ String sep b) = split_on sep a ++ split_on sep b.
Proof.
  induction a as [| c a IH].
  - rewrite append_nil. cbn [split_on]. rewrite Ascii.eqb_refl. reflexivity.
  - rewrite append_cons. cbn [split_on]. rewrite IH.
    destruct (Ascii.eqb c sep); [reflexivity |].
    pose proof (split_on_nonempty sep a) as Hne.
    destruct (split_on sep a) as [| x l]; [contradiction | reflexivity].
Qed.

Lemma split_on_plain sep s :
  string_forall (any_but sep) s = true -> split_on sep s = [s].
Proof.
  induction s as [| c s IH]; intros H; [reflexivity |].
  cbn [string_forall] in H. apply andb_true_iff in H as [Hc Hs].
  cbn [split_on]. unfold any_but in Hc. apply negb_true_iff in Hc.
  rewrite Hc, (IH Hs). reflexivity.
Qed.

Lemma join_cons_char sep c x l :
  join sep (String c x :: l) = String c (join sep (x :: l)).
Proof. destruct l; reflexivity. Qed.

(** Splitting at a character and joining with it gives the text back. *)
Lemma join_split_on sep s : join (String sep "") (split_on sep s) = s.
Proof.
  induction s as [| c s IH]; [reflexivity |].
  cbn [split_on]. pose proof (split_on_nonempty sep s) as Hne.
  destruct (Ascii.eqb_spec c sep) as [-> | Hc].
  - destruct (split_on sep s) as [| x l]; [contradiction |].
    change (join (String sep "") ("" :: x :: l))
      with ("" +:+ String sep "" +:+ join (String sep "") (x :: l)).
    rewrite IH. reflexivity.
  - destruct (split_on sep s) as [| x l]; [contradiction |].
    rewrite join_cons_char, IH. reflexivity.
Qed.

Lemma submission_type_of_value st : submission_type_of (value st) = Some st.
Proof. destruct st; reflexivity. Qed.

Lemma split_on_value st : split_on ","%char (value st) = [value st].
Proof. destruct st; reflexivity. Qed.

Lemma submission_type_of_blank part :
  submission_type_of (String " "%char part) = submission_type_of part.
Proof. reflexivity. Qed.

Lemma omap_cons {A B : Type} (f : A -> option B) x l :
  omap f (x :: l) =
  match f x with
  | Some y => y :: omap f l
  | None => omap f l
  end.
Proof. reflexivity. Qed.

Lemma omap_after_blank s :
  omap submission_type_of (split_on ","%char (String " "%char s)) =
  omap submission_type_of (split_on ","%char s).
Proof.
  cbn [split_on]. change (Ascii.eqb " " ",") with false. cbv iota.
  pose proof (split_on_nonempty ","%char s) as Hne.
  destruct (split_on ","%char s) as [| x l]; [contradiction |].
  rewrite !omap_cons, submission_type_of_blank. reflexivity.
Qed.

Lemma parts_of_values st l :
  omap submission_type_of (split_on ","%char (join ", " (map value (st :: l)))) =
  st :: l.
Proof.
  revert st. induction l as [| st' l IH]; intros st.
  - cbn [map join]. rewrite split_on_value, omap_cons, submission_type_of_value.
    reflexivity.
  - change (join ", " (map value (st :: st' :: l)))
      with (value st +:+ ", " +:+ join ", " (map value (st' :: l))).
    change (", " +:+ join ", " (map value (st' :: l)))
      with (String ","%char (String " "%char (join ", " (map value (st' :: l))))).
    rewrite split_on_append, split_on_value.
    cbn [app]. rewrite omap_cons, submission_type_of_value, omap_after_blank, IH.
    reflexivity.
Qed.

(** X1. Reading back a list of submission types: for every list with at
    least one type, the names that the service uses for them, joined with a
    comma and a blank, are read as that list. *)
Theorem parse_submission_types_of_values (l : list SubmissionType) :
  l <> [] ->
  _parse_submission_types (Some (join ", " (map value l))) = l.
Proof.
  intros Hne. destruct l as [| st l]; [contradiction |].
  unfold _parse_submission_types. rewrite parts_of_values.
  replace (nonempty (join ", " (map value (st :: l)))) with true
    by (destruct l; destruct st; reflexivity).
  reflexivity.
Qed.

Lemma parse_submission_types_nonempty v : _parse_submission_types v <> [].
Proof.
  unfold _parse_submission_types.
  destruct v as [s |]; [| discriminate].
  destruct (nonempty s); [| discriminate].
  destruct (omap submission_type_of (split_on ","%char s)); discriminate.
Qed.

(** X2. The result of [_parse_submission_types] is never empty, and each
    of its types is named by one part of the value, or is the default of a
    value that names no type. *)
Theorem parse_submission_types_never_empty (v : option string) :
  _parse_submission_types v <> []
  /\ forall st,
       In st (_parse_submission_types v) ->
       (exists s part,
          v = Some s /\ In part (split_on ","%char s)
          /\ assoc (lower (strip part)) submission_types_mapping = Some st)
       \/ (st = ONLINE_TEXT
           /\ forall s, v = Some s ->
                Forall (fun part => submission_type_of part = None)
                  (split_on ","%char s)).
Proof.
  unfold _parse_submission_types.
  destruct v as [s |].
  - destruct (nonempty s) eqn:Hs.
    + destruct (omap submission_type_of (split_on ","%char s)) as [| t ts] eqn:E.
      * split; [discriminate |]. intros st [<- | []]. right.
        split; [reflexivity |]. intros s' [= <-].
        apply List.Forall_forall. intros part Hin.
        destruct (submission_type_of part) as [t |] eqn:Ht; [| reflexivity].
        assert (Hel : t ∈ omap submission_type_of (split_on ","%char s)).
        { apply list_elem_of_omap. exists part.
          split; [apply list_elem_of_In; exact Hin | exact Ht]. }
        rewrite E in Hel. inversion Hel.
      * split; [discriminate |]. intros st Hin. left.
        rewrite <- E in Hin. apply list_elem_of_In, list_elem_of_omap in Hin.
        destruct Hin as (part & Hpart & Hst).
        exists s, part. split; [reflexivity |].
        split; [apply list_elem_of_In; exact Hpart | exact Hst].
    + split; [discriminate |]. intros st [<- | []]. right.
      split; [reflexivity |]. intros s' [= <-].
      destruct s; [| discriminate Hs]. repeat constructor.
  - split; [discriminate |]. intros st [<- | []]. right.
    split; [reflexivity |]. intros s' H. discriminate H.
Qed.

(** X3. Reading back a grading type: the name that the service uses for a
    grade display is read as that grade display; and a value is read as
    [POINTS] or [NOT_GRADED] only when, in lower case and trimmed, it is
    that name, everything else being complete or incomplete. *)
Theorem parse_grade_display_of_canvas :
  (forall g, _parse_grade_display (Some (to_canvas g)) = g)
  /\ (forall v,
        _parse_grade_display v <> COMPLETE_INCOMPLETE ->
        exists s, v = Some s
                  /\ strip (lower s) = to_canvas (_parse_grade_display v)).
Proof.
  split; [intros []; reflexivity |].
  intros v. unfold _parse_grade_display.
  destruct v as [s |]; [| intros H; contradiction].
  destruct (nonempty s); [| intros H; contradiction].
  cbn [assoc grade_display_mapping].
  destruct (String.eqb_spec "complete_incomplete" (strip (lower s)));
    [intros H; contradiction |].
  destruct (String.eqb_spec "pass_fail" (strip (lower s)));
    [intros H; contradiction |].
  destruct (String.eqb_spec "points" (strip (lower s))) as [E | _];
    [intros _; exists s; split; [reflexivity | symmetry; exact E] |].
  destruct (String.eqb_spec "not_graded" (strip (lower s))) as [E | _];
    [intros _; exists s; split; [reflexivity | symmetry; exact E] |].
  intros H. contradiction.
Qed.

Lemma parse_bool_text b : _parse_bool (bool_text b) = b.
Proof. destruct b; reflexivity. Qed.

(** X4. The truth values and grade displays of the metadata are read
    without regard to white space around the value and to its case; the
    texts [true] and [false] that the builder writes are read back as the
    truth values. *)
Theorem metadata_values_ignore_blanks_and_case (pre s post : string) :
  string_forall is_space pre = true ->
  string_forall is_space post = true ->
  _parse_bool (pre +:+ s +:+ post) = _parse_bool s
  /\ _parse_bool (lower s) = _parse_bool s
  /\ _parse_grade_display (Some (pre +:+ s +:+ post)) = _parse_grade_display (Some s)
  /\ _parse_grade_display (Some (lower s)) = _parse_grade_display (Some s)
  /\ forall b, _parse_bool (bool_text b) = b.
Proof.
  intros Hpre Hpost.
  assert (Hstrip : strip (lower (pre +:+ s +:+ post)) = strip (lower s)).
  { rewrite !lower_append. apply strip_blank; rewrite blank_lower; assumption. }
  assert (Hlower : nonempty (lower s) = nonempty s) by (destruct s; reflexivity).
  unfold _parse_bool, _parse_grade_display.
  rewrite Hstrip, lower_lower, Hlower.
  split; [reflexivity |]. split; [reflexivity |].
  split; [| split; [reflexivity | exact parse_bool_text]].
  destruct s as [| c s].
  - destruct (nonempty (pre +:+ "" +:+ post)); reflexivity.
  - replace (nonempty (pre +:+ String c s +:+ post)) with true; [reflexivity |].
    clear. induction pre as [| a pre IH]; reflexivity.
Qed.

(** ** [extract_frontmatter] *)

Lemma closing_delimiter_found before line after :
  Forall (fun l => is_delimiter l = false) before ->
  is_delimiter line = true ->
  closing_delimiter (before ++ line :: after) = Some (before, after).
Proof.
  intros Hbefore Hline. induction Hbefore as [| l before Hl _ IH].
  - cbn [app closing_delimiter]. rewrite Hline. reflexivity.
  - cbn [app closing_delimiter]. rewrite Hl, IH. reflexivity.
Qed.

(** X5. A document that starts with a frontmatter block is taken apart
    into the block and the text after it: when no line of the block is a
    delimiter, [extract_frontmatter] hands the block to [yaml.safe_load]
    and returns what it reads (an empty dictionary for a false value, and
    after a [YAMLError]) with the body, which may itself hold delimiter
    lines, as it is. Any other exception of [yaml.safe_load] is not caught:
    [extract_frontmatter] raises it. *)
Theorem extract_frontmatter_of_block (frontmatter body : string) :
  Forall (fun l => is_delimiter l = false) (split_on newline frontmatter) ->
  let document := "---" +:+ newline_text +:+ frontmatter +:+ newline_text
                  +:+ "---" +:+ newline_text +:+ body in
  (forall v, yaml_safe_load frontmatter = Ok v ->
             extract_frontmatter document =
             Ok (if truthy v then v else VDict [], body))
  /\ (yaml_safe_load frontmatter = Raise YAMLError ->
      extract_frontmatter document = Ok (VDict [], body))
  /\ (forall e, yaml_safe_load frontmatter = Raise e -> e <> YAMLError ->
                extract_frontmatter document = Raise e).
Proof.
  intros H document.
  assert (E : extract_frontmatter document =
              rbind (frontmatter_metadata frontmatter)
                (fun metadata => Ok (metadata, body))).
  { unfold document, extract_frontmatter, newline_text.
    change ("---" +:+ String newline "" +:+ frontmatter +:+ String newline ""
            +:+ "---" +:+ String newline "" +:+ body)
      with ("---" +:+ String newline (frontmatter +:+ String newline
              ("---" +:+ String newline body))).
    rewrite !split_on_append.
    change (split_on newline "---") with ["---"].
    cbn [app]. change (is_delimiter "---") with true. cbv iota.
    rewrite (closing_delimiter_found _ "---" _ H eq_refl).
    rewrite !join_split_on. reflexivity. }
  rewrite E. unfold frontmatter_metadata. split; [| split].
  - intros v ->. reflexivity.
  - intros ->. reflexivity.
  - intros e -> He. destruct e; first [reflexivity | contradiction].
Qed.

Lemma append_empty (u : string) : u +:+ "" = u.
Proof.
  induction u as [| c u IH]; [reflexivity |]. rewrite append_cons, IH. reflexivity.
Qed.

Lemma join_append sep l1 x l2 :
  join sep (l1 ++ x :: l2) =
  match l1 with
  | [] => join sep (x :: l2)
  | _ => join sep l1 +:+ sep +:+ join sep (x :: l2)
  end.
Proof.
  induction l1 as [| y l1 IH]; [reflexivity |].
  destruct l1 as [| z l1].
  - reflexivity.
  - change (join sep ((y :: z :: l1) ++ x :: l2))
      with (y +:+ sep +:+ join sep ((z :: l1) ++ x :: l2)).
    rewrite IH.
    change (join sep (y :: z :: l1)) with (y +:+ sep +:+ join sep (z :: l1)).
    rewrite !append_assoc. reflexivity.
Qed.

Lemma closing_delimiter_parts lines before after :
  closing_delimiter lines = Some (before, after) ->
  exists line, lines = before ++ line :: after /\ is_delimiter line = true
               /\ Forall (fun l => is_delimiter l = false) before.
Proof.
  revert before after.
  induction lines as [| l lines IH]; intros before after H; [discriminate H |].
  cbn [closing_delimiter] in H. destruct (is_delimiter l) eqn:Hl.
  - injection H as <- <-. exists l.
    split; [reflexivity | split; [exact Hl | constructor]].
  - destruct (closing_delimiter lines) as [[b a] |]; [| discriminate H].
    injection H as <- <-. destruct (IH b a eq_refl) as (line & E & Hline & Hb).
    exists line. rewrite E.
    split; [reflexivity | split; [exact Hline | constructor; assumption]].
Qed.

(** X6. [extract_frontmatter] only cuts at the start: the text it returns
    is always an end of the content. When the first line is no delimiter,
    or no later line is one, it returns the whole content and no
    metadata. It raises only what [yaml.safe_load] raises, and never a
    [YAMLError]. *)
Theorem extract_frontmatter_keeps_the_rest (content : string) :
  (forall metadata remaining,
     extract_frontmatter content = Ok (metadata, remaining) ->
     exists cut, content = cut +:+ remaining)
  /\ (forall first rest,
        split_on newline content = first :: rest ->
        is_delimiter first = false \/ Forall (fun l => is_delimiter l = false) rest ->
        extract_frontmatter content = Ok (VDict [], content))
  /\ (forall e,
        extract_frontmatter content = Raise e ->
        e <> YAMLError /\ exists text, yaml_safe_load text = Raise e).
Proof.
  split; [| split].
  - intros metadata remaining. unfold extract_frontmatter.
    pose proof (join_split_on newline content) as Hjoin.
    destruct (split_on newline content) as [| first rest];
      [intros [= _ <-]; exists ""; reflexivity |].
    destruct (is_delimiter first); [| intros [= _ <-]; exists ""; reflexivity].
    destruct (closing_delimiter rest) as [[frontmatter rest'] |] eqn:E;
      [| intros [= _ <-]; exists ""; reflexivity].
    apply closing_delimiter_parts in E as (line & -> & _ & _).
    destruct (frontmatter_metadata _); cbn [rbind]; [| intros H; discriminate H].
    intros [= _ <-]. fold newline_text in Hjoin. rewrite <- Hjoin.
    destruct rest' as [| x rest'].
    + eexists. cbn [join]. rewrite append_empty. reflexivity.
    + replace (first :: frontmatter ++ line :: x :: rest')
        with ((first :: frontmatter ++ [line]) ++ x :: rest')
        by (cbn [app]; rewrite <- app_assoc; reflexivity).
      rewrite join_append. cbv iota.
      exists (join newline_text (first :: frontmatter ++ [line]) +:+ newline_text).
      rewrite append_assoc. reflexivity.
  - intros first rest E H. unfold extract_frontmatter. rewrite E.
    destruct (is_delimiter first) eqn:Hfirst; [| reflexivity].
    destruct H as [H | H]; [discriminate H |].
    destruct (closing_delimiter rest) as [[frontmatter remaining] |] eqn:Hc;
      [| reflexivity].
    apply closing_delimiter_parts in Hc as (line & -> & Hline & _).
    apply Forall_app in H as [_ H]. inversion H as [| ? ? Hl _]. subst.
    rewrite Hline in Hl. discriminate Hl.
  - intros e. unfold extract_frontmatter.
    destruct (split_on newline content) as [| first rest]; [intros H; discriminate H |].
    destruct (is_delimiter first); [| intros H; discriminate H].
    destruct (closing_delimiter rest) as [[frontmatter remaining] |];
      [| intros H; discriminate H].
    unfold frontmatter_metadata.
    destruct (yaml_safe_load (join newline_text frontmatter)) as [v | e'] eqn:Hy;
      cbn [rbind]; [intros H; discriminate H |].
    destruct e'; cbn [rbind]; intros [= <-];
      (split; [discriminate | eexists; exact Hy]).
Qed.

(** ** Keychain entries and addresses *)

Lemma rstrip_char_only c t :
  string_forall (Ascii.eqb c) t = true -> rstrip_char c t = "".
Proof.
  induction t as [| a t IH]; intros H; [reflexivity |].
  cbn [string_forall] in H. apply andb_true_iff in H as [Ha Ht].
  cbn [rstrip_char]. rewrite (IH Ht), Ascii.eqb_sym, Ha. reflexivity.
Qed.

Lemma rstrip_char_append c s t :
  string_forall (Ascii.eqb c) t = true -> rstrip_char c (s +:+ t) = rstrip_char c s.
Proof.
  intros H. induction s as [| a s IH].
  - rewrite append_nil. apply rstrip_char_only. exact H.
  - rewrite append_cons. cbn [rstrip_char]. rewrite IH. reflexivity.
Qed.

Lemma append_inv_head (u v w : string) : u +:+ v = u +:+ w -> v = w.
Proof.
  induction u as [| c u IH]; [intros H; exact H |].
  rewrite !append_cons. intros H. injection H as H. apply IH. exact H.
Qed.

(** X7. Trailing slashes of the address of the service do not count: the
    name of the keychain entry and the addresses of the requests are the
    same with and without them. For one address, different courses have
    different keychain entries. *)
Theorem trailing_slashes_do_not_count (url slashes course_id path : string) :
  string_forall (Ascii.eqb "/"%char) slashes = true ->
  get_keychain_username (url +:+ slashes) course_id = get_keychain_username url course_id
  /\ _url (url +:+ slashes) course_id path = _url url course_id path
  /\ forall other,
       get_keychain_username url course_id = get_keychain_username url other ->
       course_id = other.
Proof.
  intros H. unfold get_keychain_username, _url.
  rewrite (rstrip_char_append _ _ _ H).
  split; [reflexivity |]. split; [reflexivity |].
  intros other E. apply append_inv_head in E. apply append_inv_head in E. exact E.
Qed.

(** ** [get_file_by_name] *)

Lemma find_exact_some filename files_cache f :
  find_exact filename files_cache = Ok (Some f) ->
  In f files_cache /\ named f filename.
Proof.
  induction files_cache as [| g rest IH]; intros H; [discriminate H |].
  cbn [find_exact] in H. destruct g as [| | | | | | d]; try discriminate H.
  cbn [val_get rbind] in H. unfold dict_get in H.
  destruct (dict_lookup "display_name" d) as [v |] eqn:E.
  - destruct (str_eq_val filename v) eqn:Ev.
    + injection H as <-. split; [left; reflexivity |].
      exists d. split; [reflexivity |]. unfold dict_get. rewrite E.
      destruct v; try discriminate Ev. cbn [str_eq_val] in Ev.
      apply String.eqb_eq in Ev. subst. reflexivity.
    + destruct (IH H) as [Hin Hn]. split; [right; exact Hin | exact Hn].
  - cbn [str_eq_val] in H. destruct (IH H) as [Hin Hn].
    split; [right; exact Hin | exact Hn].
Qed.

Lemma find_lower_some filename_lower files_cache f :
  find_lower filename_lower files_cache = Ok (Some f) ->
  In f files_cache /\ exists name, named f name /\ lower name = filename_lower.
Proof.
  induction files_cache as [| g rest IH]; intros H; [discriminate H |].
  cbn [find_lower] in H. destruct g as [| | | | | | d]; try discriminate H.
  cbn [val_get rbind] in H.
  destruct (dict_get "display_name" (VStr "") d) as [| | | | n | |] eqn:E;
    try discriminate H.
  destruct (String.eqb_spec (lower n) filename_lower) as [En | _].
  - injection H as <-. split; [left; reflexivity |].
    exists n. split; [exists d; split; [reflexivity | exact E] | exact En].
  - destruct (IH H) as [Hin Hn]. split; [right; exact Hin | exact Hn].
Qed.

Lemma find_lower_none filename_lower files_cache :
  find_lower filename_lower files_cache = Ok None ->
  Forall (fun f => forall name, named f name -> lower name <> filename_lower)
    files_cache.
Proof.
  induction files_cache as [| g rest IH]; intros H; [constructor |].
  cbn [find_lower] in H. destruct g as [| | | | | | d]; try discriminate H.
  cbn [val_get rbind] in H.
  destruct (dict_get "display_name" (VStr "") d) as [| | | | n | |] eqn:E;
    try discriminate H.
  destruct (String.eqb_spec (lower n) filename_lower) as [En | Hne];
    [discriminate H |].
  constructor; [| apply IH; exact H].
  intros name (d' & Hd & Hname). injection Hd as <-.
  rewrite E in Hname. injection Hname as <-. exact Hne.
Qed.

(** X8. What [get_file_by_name] finds is a file of the listing whose
    display name is the file name up to case; and it finds nothing only
    when no file of the listing has such a name. On an empty listing it
    finds nothing. *)
Theorem get_file_by_name_matches (filename : string) (files_cache : list pyval) :
  (forall f,
     get_file_by_name filename files_cache = Ok (Some f) ->
     In f files_cache
     /\ exists name, named f name /\ lower name = lower filename)
  /\ (get_file_by_name filename files_cache = Ok None ->
      Forall (fun f => forall name, named f name -> lower name <> lower filename)
        files_cache)
  /\ get_file_by_name filename [] = Ok None.
Proof.
  unfold get_file_by_name. split; [| split; [| reflexivity]].
  - intros f H. destruct (find_exact filename files_cache) as [[g |] | e] eqn:E;
      cbn [rbind] in H; [| | discriminate H].
    + injection H as <-. destruct (find_exact_some _ _ _ E) as [Hin Hn].
      split; [exact Hin | exists filename; split; [exact Hn | reflexivity]].
    + apply find_lower_some. exact H.
  - intros H. destruct (find_exact filename files_cache) as [[g |] | e];
      cbn [rbind] in H; [discriminate H | | discriminate H].
    apply find_lower_none. exact H.
Qed.

(** X9. An exact match wins: [get_file_by_name] returns the first file
    whose display name is the file name itself, also when a file before it
    in the listing has that name in another case. The files before it are
    dictionaries. *)
Theorem get_file_by_name_prefers_exact
  (filename : string) (before after : list pyval) (d : dict) :
  dict_lookup "display_name" d = Some (VStr filename) ->
  Forall (fun g => exists dg, g = VDict dg
                              /\ dict_lookup "display_name" dg <> Some (VStr filename))
    before ->
  get_file_by_name filename (before ++ VDict d :: after) = Ok (Some (VDict d)).
Proof.
  intros Hd Hbefore. unfold get_file_by_name.
  assert (E : find_exact filename (before ++ VDict d :: after) = Ok (Some (VDict d))).
  { induction Hbefore as [| g before (dg & -> & Hg) _ IH].
    - cbn [app find_exact val_get rbind]. unfold dict_get. rewrite Hd.
      cbn [str_eq_val]. rewrite String.eqb_refl. reflexivity.
    - cbn [app find_exact val_get rbind]. unfold dict_get.
      destruct (dict_lookup "display_name" dg) as [v |] eqn:Ev; [| exact IH].
      destruct (str_eq_val filename v) eqn:Es; [| exact IH].
      destruct v; try discriminate Es. cbn [str_eq_val] in Es.
      apply String.eqb_eq in Es. subst. contradiction. }
  rewrite E. reflexivity.
Qed.

(** ** [LinkResolver.resolve] on a body of text and placeholders *)

(** X10. What [resolve] does to a body: in a body made of plain text and
    of placeholders of the four types, every text stays as it is and every
    placeholder is replaced, in its place, by the link of its target when
    the target is registered with a URL and by its trimmed title
    otherwise. *)
Theorem resolve_replaces_each_placeholder (r : LinkResolver) (segs : list segment) :
  Forall well_formed segs ->
  resolve r (render segs) = concat_strings (map (resolved_segment r) segs).
Proof. intros H. rewrite resolve_is_resolve_from. apply resolve_from_render. exact H. Qed.

Lemma resolve_one_placeholder r kind title :
  link_type kind -> nonempty title = true ->
  string_forall (any_but "]"%char) title = true ->
  resolve r (placeholder kind title) = resolved_segment r (Ref kind title).
Proof.
  intros Hkind Hne Ht.
  pose proof (resolve_from_render r [Ref kind title] None) as H.
  cbn [render render_segment map concat_strings] in H.
  rewrite !append_empty in H. rewrite resolve_is_resolve_from. apply H.
  constructor; [| constructor].
  split; [exact Hkind | split; [exact Hne | exact Ht]].
Qed.

(** X11. Registration and resolution: after a page, an assignment or a
    discussion with a URL has been registered, a placeholder of its type
    whose title is its title up to case and to white space around it is
    replaced by a link to that URL, whatever was registered before under
    that title. *)
Theorem registered_target_is_linked (r : LinkResolver) (title : string) :
  nonempty title = true ->
  string_forall (any_but "]"%char) title = true ->
  (forall p,
     truthy (Page.canvas_url p) = true ->
     lower (strip title) = lower (Page.title p) ->
     resolve (register_page r p) (placeholder "Page" title) =
     anchor (py_str (Page.canvas_url p)) (strip title))
  /\ (forall a,
        truthy (Assignment.canvas_url a) = true ->
        lower (strip title) = lower (Assignment.title a) ->
        resolve (register_assignment r a) (placeholder "Assignment" title) =
        anchor (py_str (Assignment.canvas_url a)) (strip title))
  /\ (forall d,
        truthy (Discussion.canvas_url d) = true ->
        lower (strip title) = lower (Discussion.title d) ->
        resolve (register_discussion r d) (placeholder "Discussion" title) =
        anchor (py_str (Discussion.canvas_url d)) (strip title)).
Proof.
  intros Hne Ht.
  assert (Hpage : link_type "Page") by (left; reflexivity).
  assert (Hassignment : link_type "Assignment") by (right; left; reflexivity).
  assert (Hdiscussion : link_type "Discussion") by (right; right; left; reflexivity).
  split; [| split]; intros x Hurl Htitle;
    rewrite resolve_one_placeholder by assumption;
    cbn [resolved_segment]; unfold resolved_link;
    cbn [String.eqb Ascii.eqb Bool.eqb register_page register_assignment
         register_discussion pages assignments discussions];
    rewrite Htitle, lookup_insert_eq, Hurl; reflexivity.
Qed.

(** ** Due dates: what is sent and what is compared *)

Lemma string_forall_impl (p q : ascii -> bool) s :
  (forall c, p c = true -> q c = true) ->
  string_forall p s = true -> string_forall q s = true.
Proof.
  intros Hpq. induction s as [| c s IH]; [reflexivity |].
  cbn [string_forall]. rewrite !andb_true_iff. intros [Hc Hs].
  split; [apply Hpq; exact Hc | apply IH; exact Hs].
Qed.

Lemma digits_of_uint u : string_forall is_digit (NilEmpty.string_of_uint u) = true.
Proof.
  induction u; cbn [NilEmpty.string_of_uint string_forall];
    [reflexivity | rewrite IHu; reflexivity ..].
Qed.

Lemma iso_string_of_nat n : string_forall iso_char (string_of_nat n) = true.
Proof.
  apply (string_forall_impl is_digit); [| apply digits_of_uint].
  intros c H. unfold iso_char. rewrite H. reflexivity.
Qed.

Lemma iso_pad2 n : string_forall iso_char (pad2 n) = true.
Proof.
  unfold pad2. destruct (Nat.ltb n 10);
    rewrite ?string_forall_append, iso_string_of_nat; reflexivity.
Qed.

Lemma iso_pad4 n : string_forall iso_char (pad4 n) = true.
Proof.
  unfold pad4.
  destruct (Nat.ltb n 10); [| destruct (Nat.ltb n 100); [| destruct (Nat.ltb n 1000)]];
    rewrite ?string_forall_append, iso_string_of_nat; reflexivity.
Qed.

(** The text of a date without time zone holds digits, hyphens, colons
    and the letter T only. *)
Lemma iso_isoformat d : tzinfo d = None -> string_forall iso_char (isoformat d) = true.
Proof.
  intros H. unfold isoformat. rewrite H.
  rewrite !string_forall_append, iso_pad4, !iso_pad2. reflexivity.
Qed.

Lemma utc_offset_length z : 0 < String.length (utc_offset z).
Proof.
  unfold utc_offset. destruct (Z.ltb z 0); rewrite append_cons;
    cbn [String.length]; lia.
Qed.

Lemma isoformat_with_zone d z :
  tzinfo d = None ->
  isoformat {| year := year d; month := month d; day := day d; hour := hour d;
               minute := minute d; second := second d; tzinfo := Some z |}
  = isoformat d +:+ utc_offset z.
Proof.
  intros H. unfold isoformat. cbn [year month day hour minute second tzinfo].
  rewrite H, !append_assoc. reflexivity.
Qed.

Lemma due_differs_naive d canvas_due :
  tzinfo d = None ->
  due_at_data (Some d) = [("assignment[due_at]", canvas_due)]
  \/ (exists s, canvas_due = VStr s /\ string_forall iso_char s = false) ->
  due_differs (Some d) canvas_due = true.
Proof.
  intros Hd H.
  destruct (truthy canvas_due) eqn:Htruthy;
    [| unfold due_differs; rewrite Htruthy; reflexivity].
  apply (due_differs_present _ _ Htruthy).
  intros E. destruct H as [H | (s & -> & Hs)].
  - unfold due_at_data in H. rewrite Hd in H. injection H as H. subst canvas_due.
    injection E as E. rewrite (isoformat_with_zone _ _ Hd) in E.
    apply (f_equal String.length) in E. rewrite length_append in E.
    pose proof (utc_offset_length local_tz). lia.
  - injection E as <-. rewrite (iso_isoformat _ Hd) in Hs. discriminate Hs.
Qed.


Lemma has_changes_of_field r x :
  changed_fields r = [] -> ~ In x (changed_fields r).
Proof. intros -> []. Qed.

Lemma compare_assignment_detection local snapshot r :
  compare_assignment local (VDict snapshot) = Ok r ->
  r = detection (changed_fields r).
Proof.
  unfold compare_assignment. cbn [val_get rbind].
  destruct (normalize_html _); [| intros H; discriminate H].
  destruct (normalize_html_val _); [| intros H; discriminate H]. cbn [rbind].
  destruct (py_set _); [| intros H; discriminate H]. cbn [rbind].
  intros [= <-]. reflexivity.
Qed.

(** X12. A local due date never matches the remote one. The parser builds
    dates without time zone; for an assignment with such a date,
    [compare_assignment] reports [due_date] against every snapshot whose
    due date is the very text that the builder sends for that date (which
    carries the local offset), and against every snapshot whose due date
    holds a character other than a digit, a hyphen, a colon and the letter
    T, such as the Z of a time in UTC. *)
Theorem local_due_date_never_matches
  (local : Assignment.t) (date : datetime) (snapshot : dict)
  (r : ChangeDetectionResult) :
  Assignment.due_at local = Some date ->
  tzinfo date = None ->
  due_at_data (Some date) =
    [("assignment[due_at]", dict_get "due_at" VNone snapshot)]
  \/ (exists s, dict_get "due_at" VNone snapshot = VStr s
                /\ string_forall iso_char s = false) ->
  compare_assignment local (VDict snapshot) = Ok r ->
  In "due_date" (changed_fields r) /\ has_changes r = true.
Proof.
  intros Hdue Hzone Hremote Hcmp.
  assert (Hin : In "due_date" (changed_fields r)).
  { apply (compare_assignment_due _ _ _ Hcmp). rewrite Hdue.
    apply due_differs_naive; assumption. }
  split; [exact Hin |].
  rewrite (compare_assignment_detection _ _ _ Hcmp).
  eapply has_changes_detection. exact Hin.
Qed.

(** X13. A due date that was removed locally is not removed remotely: for
    an assignment without due date and a snapshot with one,
    [compare_assignment] reports [due_date], and the data of the full
    update hold no due date, so the remote one stays and the next run
    reports it again. *)
Theorem removed_due_date_is_not_sent
  (local : Assignment.t) (snapshot : dict) (r : ChangeDetectionResult)
  (assignment_id : pyval) :
  Assignment.due_at local = None ->
  truthy (dict_get "due_at" VNone snapshot) = true ->
  compare_assignment local (VDict snapshot) = Ok r ->
  In "due_date" (changed_fields r)
  /\ dict_lookup "assignment[due_at]"
       (data (update_assignment_full assignment_id (Assignment.title local)
                (Assignment.description local) (Assignment.points local)
                (Assignment.due_at local)
                (to_canvas (Assignment.grade_display local))
                (map value (Assignment.submission_types local)))) = None.
Proof.
  intros Hdue Hremote Hcmp. split.
  - apply (compare_assignment_due _ _ _ Hcmp). rewrite Hdue.
    unfold due_differs. rewrite Hremote. reflexivity.
  - rewrite Hdue. reflexivity.
Qed.

(** ** Snapshots that echo the local values *)

Lemma normalize_html_val_echo content :
  normalize_html_val (VStr content) = normalize_html content.
Proof.
  unfold normalize_html_val. cbn [truthy].
  destruct content; [reflexivity | reflexivity].
Qed.

Lemma str_set_eq_echo l : str_set_eq l (map VStr l) = true.
Proof.
  unfold str_set_eq. apply andb_true_iff. split.
  - apply forallb_forall. intros s Hs. apply existsb_exists.
    exists (VStr s). split; [apply in_map; exact Hs | apply String.eqb_refl].
  - apply forallb_forall. intros v Hv. apply in_map_iff in Hv as (s & <- & Hs).
    apply existsb_exists. exists s. split; [exact Hs | apply String.eqb_refl].
Qed.

Lemma num_eq_val_echo x : num_eq_val x (VFloat x) = true.
Proof.
  cbn [num_eq_val]. unfold Qc_eq_bool.
  destruct (Qcanon.Qc_eq_dec x x) as [_ | H]; [reflexivity | exfalso; apply H; reflexivity].
Qed.

(** X14. A snapshot that echoes the local values is no change: a page
    whose remote title and body are the local ones, and an assignment
    without due date whose remote name, description, points, grading type
    and submission types are the local ones, are reported as unchanged
    whenever the normaliser returns on the local text, whatever it makes of
    it. When the normaliser raises on the local text, the comparison
    raises the same exception. *)
Theorem echoed_values_are_unchanged :
  (forall (local : Page.t) (snapshot : dict),
     dict_get "title" (VStr "") snapshot = VStr (Page.title local) ->
     dict_get "body" (VStr "") snapshot = VStr (Page.content local) ->
     (forall text, normalize_html (Page.content local) = Ok text ->
                   compare_page local (VDict snapshot) = Ok (detection []))
     /\ (forall e, normalize_html (Page.content local) = Raise e ->
                   compare_page local (VDict snapshot) = Raise e))
  /\ (forall (local : Assignment.t) (snapshot : dict),
        Assignment.due_at local = None ->
        dict_get "name" (VStr "") snapshot = VStr (Assignment.title local) ->
        dict_get "description" (VStr "") snapshot =
          VStr (Assignment.description local) ->
        dict_get "points_possible" (VInt 0) snapshot =
          VFloat (Assignment.points local) ->
        truthy (dict_get "due_at" VNone snapshot) = false ->
        dict_get "grading_type" (VStr "pass_fail") snapshot =
          VStr (to_canvas (Assignment.grade_display local)) ->
        dict_get "submission_types" (VList []) snapshot =
          VList (map VStr (map value (Assignment.submission_types local))) ->
        (forall text, normalize_html (Assignment.description local) = Ok text ->
                      compare_assignment local (VDict snapshot) = Ok (detection []))
        /\ (forall e, normalize_html (Assignment.description local) = Raise e ->
                      compare_assignment local (VDict snapshot) = Raise e)).
Proof.
  split.
  - intros local snapshot Htitle Hbody. unfold compare_page. cbn [val_get rbind].
    rewrite Htitle, Hbody, normalize_html_val_echo.
    split; [intros text -> | intros e ->]; cbn [rbind]; [| reflexivity].
    cbn [str_eq_val]. rewrite !String.eqb_refl. reflexivity.
  - intros local snapshot Hdue Hname Hdesc Hpoints Hremote Hgrading Htypes.
    unfold compare_assignment. cbn [val_get rbind].
    rewrite Hname, Hdesc, Hpoints, Hgrading, Htypes, normalize_html_val_echo.
    split; [intros text -> | intros e ->]; cbn [rbind]; [| reflexivity].
    cbn [py_set].
    replace (forallb hashable (map VStr (map value (Assignment.submission_types local))))
      with true
      by (symmetry; apply forallb_forall; intros v Hv;
          apply in_map_iff in Hv as (s & <- & _); reflexivity).
    cbn [rbind]. rewrite str_set_eq_echo, num_eq_val_echo. cbn [str_eq_val].
    rewrite !String.eqb_refl. unfold due_differs. rewrite Hdue, Hremote.
    reflexivity.
Qed.

(** ** The data of the discussion calls *)

Lemma sends_create_or_update (P : request -> Prop) o cache compare update create
  id_key kind :
  (forall id, P (update id)) -> P create ->
  sends P (create_or_update o cache compare update create id_key kind).
Proof.
  intros Hupdate Hcreate. unfold create_or_update.
  repeat first [apply sends_request; first [apply Hupdate | exact Hcreate] | sends_step].
Qed.

Lemma sends_note_links P l content : sends P (note_links l content).
Proof. unfold note_links. repeat sends_step. Qed.

(** X15. A discussion that is not graded never sends grading fields: the
    requests of its Phase 1 step, the creation as well as the full update,
    name no field of an assignment, whatever its points, due date and grade
    display are. *)
Theorem ungraded_discussion_sends_no_grading_fields (l : loc) (d : Discussion.t) :
  Discussion.graded d = false ->
  forall b, exists ext,
    sent (snd (_create_or_update_item l (IDiscussion d) b)) = sent b ++ ext
    /\ Forall no_grading_fields ext.
Proof.
  intros Hgraded.
  change (sends no_grading_fields (_create_or_update_item l (IDiscussion d))).
  unfold _create_or_update_item.
  repeat first
    [ apply sends_note_links
    | apply sends_create_or_update;
      [intros id |]; unfold no_grading_fields; cbn [data update_discussion_full create_discussion];
      rewrite Hgraded; repeat constructor
    | sends_step ].
Qed.

(** ** Phase 1: the decision for one entity *)

Lemma live_id_none o : has_id o = false -> live_id o = None.
Proof. unfold live_id. intros ->. reflexivity. Qed.

Lemma create_or_update_new o cache compare update create id_key kind b :
  has_id o = false ->
  sent (snd (create_or_update o cache compare update create id_key kind b)) =
  sent b ++ [create].
Proof.
  intros H. unfold create_or_update. rewrite (live_id_none _ H).
  rewrite sent_bind by (intros; repeat sends_step). reflexivity.
Qed.

Lemma create_or_update_changed o cache compare update create id_key kind b id :
  changed_in (cache (canvas_data_cache b)) o compare id ->
  sent (snd (create_or_update o cache compare update create id_key kind b)) =
  sent b ++ [update (val_of_ident id)].
Proof.
  intros (canvas_data & r & Hid & Hdata & Hcmp & Hch).
  unfold create_or_update. rewrite Hid. unfold bind at 1. cbn [gets].
  rewrite Hdata. unfold bind at 1. unfold lift at 1. rewrite Hcmp, Hch.
  rewrite sent_bind by (intros; repeat sends_step). reflexivity.
Qed.

(** What [_create_or_update_item] sends, when [rewrite_sent] tells what
    [create_or_update] sends. *)
Ltac item_sends rewrite_sent :=
  let Hsent := fresh "Hsent" in
  let Hcaches := fresh "Hcaches" in
  let Hres := fresh "Hres" in
  let r := fresh "r" in
  let b1 := fresh "b" in
  unfold _create_or_update_item; unfold bind at 1;
  match goal with
  | |- context [note_links ?l ?c ?b] =>
      destruct (note_links_state l c b) as [Hsent [Hcaches Hres]];
      destruct (note_links l c b) as [r b1]; cbn [fst snd] in *; subst r
  end;
  rewrite sent_bind by (intros; repeat sends_step);
  rewrite <- ?Hcaches in *; rewrite_sent; rewrite ?Hsent; try reflexivity.

(** X16. An entity without remote identity is created: the Phase 1 step
    of a module, a page, an assignment and a discussion that carry no
    identity sends exactly the creation of that entity, whatever the cache
    holds; the Phase 1 step of a header, a link and a file sends
    nothing. *)
Theorem new_entity_is_created :
  (forall i module b,
     has_id (Module_.canvas_module_id module) = false ->
     sent (snd (sync_module i module b)) =
     sent b ++ [create_module (Module_.title module) i])
  /\ (forall l p b,
        has_id (Page.canvas_page_id p) = false ->
        sent (snd (_create_or_update_item l (IPage p) b)) =
        sent b ++ [create_page (Page.title p) (Page.content p)])
  /\ (forall l a b,
        has_id (Assignment.canvas_assignment_id a) = false ->
        sent (snd (_create_or_update_item l (IAssignment a) b)) =
        sent b ++ [create_assignment (Assignment.title a) (Assignment.description a)
                     (Assignment.points a) (Assignment.due_at a)
                     (to_canvas (Assignment.grade_display a))
                     (map value (Assignment.submission_types a))])
  /\ (forall l d b,
        has_id (Discussion.canvas_discussion_id d) = false ->
        sent (snd (_create_or_update_item l (IDiscussion d) b)) =
        sent b ++ [create_discussion (Discussion.title d) (Discussion.message d)
                     (Discussion.require_initial_post d) (discussion_type d)
                     (Discussion.graded d) (discussion_points d) (discussion_due d)
                     (discussion_grading d)])
  /\ (forall l h b, sent (snd (_create_or_update_item l (ITextHeader h) b)) = sent b)
  /\ (forall l k b, sent (snd (_create_or_update_item l (IExternalLink k) b)) = sent b)
  /\ (forall l f b, sent (snd (_create_or_update_item l (IFile f) b)) = sent b).
Proof.
  split; [| split; [| split; [| split; [| split; [| split]]]]].
  - intros i module b H. unfold sync_module. rewrite (live_id_none _ H).
    rewrite sent_bind by (intros; repeat sends_step). reflexivity.
  - intros l p b H.
    item_sends ltac:(idtac; rewrite create_or_update_new by exact H).
  - intros l a b H.
    item_sends ltac:(idtac; rewrite create_or_update_new by exact H).
  - intros l d b H.
    item_sends ltac:(idtac; rewrite create_or_update_new by exact H).
  - intros l h b. reflexivity.
  - intros l k b. reflexivity.
  - intros l f b. apply sends_nothing. cbn [_create_or_update_item].
    repeat sends_step.
Qed.

Lemma sync_module_changed i module b id :
  changed_in (cache_modules (canvas_data_cache b)) (Module_.canvas_module_id module)
    (compare_module module) id ->
  sent (snd (sync_module i module b)) =
  sent b ++ [update_module (val_of_ident id) (Module_.title module) i].
Proof.
  intros (canvas_data & r & Hid & Hdata & Hcmp & Hch).
  unfold sync_module. rewrite Hid. unfold bind at 1. cbn [gets].
  rewrite Hdata. unfold bind at 1. unfold lift at 1. rewrite Hcmp, Hch.
  rewrite sent_bind by (intros; apply sends_modify; reflexivity).
  rewrite sent_bind by (intros; repeat sends_step). reflexivity.
Qed.

(** X17. An entity whose snapshot differs is updated: when the cache
    holds comparison data for the identity of a module, a page, an
    assignment or a discussion and the comparison reports a change, the
    Phase 1 step sends exactly the full update of that entity. *)
Theorem changed_entity_is_updated :
  (forall i module b id,
     changed_in (cache_modules (canvas_data_cache b))
       (Module_.canvas_module_id module) (compare_module module) id ->
     sent (snd (sync_module i module b)) =
     sent b ++ [update_module (val_of_ident id) (Module_.title module) i])
  /\ (forall l p b id,
        changed_in (cache_pages (canvas_data_cache b)) (Page.canvas_page_id p)
          (compare_page p) id ->
        sent (snd (_create_or_update_item l (IPage p) b)) =
        sent b ++ [update_page (val_of_ident id) (Page.content p) (Some (Page.title p))])
  /\ (forall l a b id,
        changed_in (cache_assignments (canvas_data_cache b))
          (Assignment.canvas_assignment_id a) (compare_assignment a) id ->
        sent (snd (_create_or_update_item l (IAssignment a) b)) =
        sent b ++ [update_assignment_full (val_of_ident id) (Assignment.title a)
                     (Assignment.description a) (Assignment.points a)
                     (Assignment.due_at a) (to_canvas (Assignment.grade_display a))
                     (map value (Assignment.submission_types a))])
  /\ (forall l d b id,
        changed_in (cache_discussions (canvas_data_cache b))
          (Discussion.canvas_discussion_id d) (compare_discussion d) id ->
        sent (snd (_create_or_update_item l (IDiscussion d) b)) =
        sent b ++ [update_discussion_full (val_of_ident id) (Discussion.title d)
                     (Discussion.message d) (Discussion.require_initial_post d)
                     (discussion_type d) (Discussion.graded d) (discussion_points d)
                     (discussion_due d) (discussion_grading d)]).
Proof.
  split; [exact sync_module_changed | split; [| split]].
  - intros l p b id H.
    item_sends ltac:(idtac; rewrite (create_or_update_changed _ _ _ _ _ _ _ _ id) by exact H).
  - intros l a b id H.
    item_sends ltac:(idtac; rewrite (create_or_update_changed _ _ _ _ _ _ _ _ id) by exact H).
  - intros l d b id H.
    item_sends ltac:(idtac; rewrite (create_or_update_changed _ _ _ _ _ _ _ _ id) by exact H).
Qed.

Lemma create_or_update_skip o cache compare update create id_key kind b id d r :
  live_id o = Some id ->
  comparison_data (cache (canvas_data_cache b)) id = Some (VDict d) ->
  compare (VDict d) = Ok r ->
  has_changes r = false ->
  create_or_update o cache compare update create id_key kind b =
  (Ok (val_of_ident id, dict_get "html_url" (default_url kind id) d), b).
Proof.
  intros Hid Hdata Hcmp Hno. unfold create_or_update. rewrite Hid.
  unfold bind at 1. cbn [gets]. rewrite Hdata.
  unfold bind at 1. unfold lift at 1. rewrite Hcmp, Hno. reflexivity.
Qed.

(** The Phase 1 step of an object whose snapshot equals it. *)
Ltac item_skipped Hid Hdata Hcmp Hno :=
  unfold _create_or_update_item, note_links;
  match goal with
  | |- context [has_internal_links ?c] => destruct (has_internal_links c)
  end;
  unfold bind, modify, ret; cbn beta iota;
  erewrite create_or_update_skip
    by (first [exact Hid | exact Hdata | exact Hcmp | exact Hno]);
  (split; [reflexivity | split; [reflexivity |]]);
  cbn; apply lookup_insert_eq.

(** X18. An entity whose snapshot equals it is skipped and still takes
    part in link resolution: when the cache holds a snapshot of a page, an
    assignment or a discussion for which the comparison reports no change,
    the Phase 1 step returns, sends nothing, and registers the object with
    the resolver under its title in lower case, with its identity and with
    the address of the snapshot, or the default address when the snapshot
    has none. *)
Theorem unchanged_entity_is_skipped :
  (forall l p b id d r,
     live_id (Page.canvas_page_id p) = Some id ->
     comparison_data (cache_pages (canvas_data_cache b)) id = Some (VDict d) ->
     compare_page p (VDict d) = Ok r ->
     has_changes r = false ->
     fst (_create_or_update_item l (IPage p) b) = Ok tt
     /\ sent (snd (_create_or_update_item l (IPage p) b)) = sent b
     /\ pages (resolver (snd (_create_or_update_item l (IPage p) b)))
          !! lower (Page.title p) =
        Some (Page.mk (Page.title p) (Page.content p) (val_of_ident id)
                (dict_get "html_url" (default_url "pages" id) d)
                (Page.canvas_page_id p) (Page.canvas_module_item_id p)))
  /\ (forall l a b id d r,
        live_id (Assignment.canvas_assignment_id a) = Some id ->
        comparison_data (cache_assignments (canvas_data_cache b)) id = Some (VDict d) ->
        compare_assignment a (VDict d) = Ok r ->
        has_changes r = false ->
        fst (_create_or_update_item l (IAssignment a) b) = Ok tt
        /\ sent (snd (_create_or_update_item l (IAssignment a) b)) = sent b
        /\ assignments (resolver (snd (_create_or_update_item l (IAssignment a) b)))
             !! lower (Assignment.title a) =
           Some (Assignment.mk (Assignment.title a) (Assignment.description a)
                   (Assignment.points a) (Assignment.due_at a)
                   (Assignment.grade_display a) (Assignment.submission_types a)
                   (val_of_ident id)
                   (dict_get "html_url" (default_url "assignments" id) d)
                   (Assignment.canvas_assignment_id a)
                   (Assignment.canvas_module_item_id a)))
  /\ (forall l t b id d r,
        live_id (Discussion.canvas_discussion_id t) = Some id ->
        comparison_data (cache_discussions (canvas_data_cache b)) id = Some (VDict d) ->
        compare_discussion t (VDict d) = Ok r ->
        has_changes r = false ->
        fst (_create_or_update_item l (IDiscussion t) b) = Ok tt
        /\ sent (snd (_create_or_update_item l (IDiscussion t) b)) = sent b
        /\ discussions (resolver (snd (_create_or_update_item l (IDiscussion t) b)))
             !! lower (Discussion.title t) =
           Some (Discussion.mk (Discussion.title t) (Discussion.message t)
                   (Discussion.require_initial_post t) (Discussion.threaded t)
                   (Discussion.graded t) (Discussion.points t) (Discussion.due_at t)
                   (Discussion.grade_display t) (val_of_ident id)
                   (dict_get "html_url" (default_url "discussion_topics" id) d)
                   (Discussion.canvas_discussion_id t)
                   (Discussion.canvas_module_item_id t))).
Proof.
  split; [| split].
  - intros l p b id d r Hid Hdata Hcmp Hno. item_skipped Hid Hdata Hcmp Hno.
  - intros l a b id d r Hid Hdata Hcmp Hno. item_skipped Hid Hdata Hcmp Hno.
  - intros l t b id d r Hid Hdata Hcmp Hno. item_skipped Hid Hdata Hcmp Hno.
Qed.

(** ** Phase 0: failures of the reads *)

Lemma for_each_total {A : Type} (l : list A) (f : A -> M unit) :
  (forall x b, fst (f x b) = Ok tt) -> forall b, fst (for_each l f b) = Ok tt.
Proof.
  intros H. induction l as [| x l IH]; intros b; cbn [for_each]; [reflexivity |].
  unfold bind. specialize (H x b).
  destruct (f x b) as [[[] | e] b1]; cbn [fst] in H; [apply IH | discriminate H].
Qed.

Lemma bind_total {A : Type} (m : M A) (f : A -> M unit) :
  (forall b, exists a, fst (m b) = Ok a) ->
  (forall a b, fst (f a b) = Ok tt) ->
  forall b, fst (bind m f b) = Ok tt.
Proof.
  intros Hm Hf b. unfold bind. destruct (Hm b) as [a Ha].
  destruct (m b) as [[a' | e] b1]; cbn [fst] in Ha; [apply Hf | discriminate Ha].
Qed.

(** X19. A failed read does not end the run: [_fetch_existing_data]
    returns normally for every tree, every state of the builder and every
    behaviour of the service, failures included, and it sends reads
    only. *)
Theorem fetch_existing_data_never_raises (modules : list Module_.t) (b : builder) :
  fst (_fetch_existing_data modules b) = Ok tt
  /\ exists ext,
       sent (snd (_fetch_existing_data modules b)) = sent b ++ ext
       /\ Forall reads_only ext.
Proof.
  split; [| apply sends_fetch_existing_data].
  unfold _fetch_existing_data. apply for_each_total. clear b. intros module b.
  apply bind_total.
  - intros b0. exists tt.
    destruct (live_id _); [apply fetch_into_total | reflexivity].
  - intros [] b0. apply for_each_total. intros it b1. apply fetch_item_total.
Qed.

(** ** A write that fails ends the run *)

Lemma writes_answered_app h e1 : forall e2 last_ok,
  writes_answered h e1 true ->
  writes_answered (h ++ e1) e2 last_ok ->
  writes_answered h (e1 ++ e2) last_ok.
Proof.
  revert h. induction e1 as [| rq e1 IH]; intros h e2 last_ok H1 H2.
  - rewrite app_nil_r in H2. exact H2.
  - cbn [app writes_answered] in *. destruct H1 as [Hrq H1]. split.
    + intros Hw _. apply Hrq; [exact Hw | right; reflexivity].
    + apply IH; [exact H1 |]. rewrite <- app_assoc. exact H2.
Qed.

Lemma writes_answered_reads h ext last_ok :
  Forall reads_only ext -> writes_answered h ext last_ok.
Proof.
  intros H. revert h. induction H as [| rq ext Hrq _ IH]; intros h; [exact I |].
  split; [| apply IH]. intros Hw. unfold is_write in Hw.
  unfold reads_only in Hrq. rewrite Hrq in Hw. discriminate Hw.
Qed.

Lemma writes_answered_at h before rq after last_ok :
  writes_answered h (before ++ rq :: after) last_ok ->
  is_write rq = true -> after <> [] ->
  exists v, canvas (h ++ before) rq = Ok v.
Proof.
  revert h. induction before as [| x before IH]; intros h H Hw Hafter.
  - rewrite app_nil_r. destruct H as [H _]. apply H; [exact Hw | left; exact Hafter].
  - destruct H as [_ H]. specialize (IH _ H Hw Hafter).
    rewrite <- app_assoc in IH. exact IH.
Qed.

Lemma settles_silent {A : Type} (m : M A) :
  (forall b, sent (snd (m b)) = sent b) -> settles m.
Proof. intros H b. exists []. rewrite H, app_nil_r. split; [reflexivity | exact I]. Qed.

Lemma settles_reads {A : Type} (m : M A) : sends reads_only m -> settles m.
Proof.
  intros H b. destruct (H b) as [ext [E F]]. exists ext.
  split; [exact E | apply writes_answered_reads; exact F].
Qed.

Lemma settles_request rq : settles (_request rq).
Proof.
  intros b. exists [rq]. split; [reflexivity |].
  cbn [_request fst writes_answered]. split; [| exact I].
  intros _ [H | H]; [contradiction |].
  destruct (canvas (sent b) rq) as [v | e]; [exists v; reflexivity | discriminate H].
Qed.

Lemma settles_bind {A B : Type} (m : M A) (f : A -> M B) :
  settles m -> (forall a, settles (f a)) -> settles (bind m f).
Proof.
  intros Hm Hf b. unfold bind. destruct (Hm b) as [e1 [E1 W1]].
  destruct (m b) as [[a | e] b1]; cbn [fst snd] in *.
  - destruct (Hf a b1) as [e2 [E2 W2]]. exists (e1 ++ e2).
    rewrite E2, E1, app_assoc. split; [reflexivity |].
    apply writes_answered_app; [exact W1 |]. rewrite <- E1. exact W2.
  - exists e1. split; [exact E1 | exact W1].
Qed.

Lemma settles_for_each {A : Type} (l : list A) (f : A -> M unit) :
  (forall x, settles (f x)) -> settles (for_each l f).
Proof.
  intros H. induction l as [| x l IH]; cbn [for_each].
  - apply settles_silent. reflexivity.
  - apply settles_bind; [apply H | intros _; exact IH].
Qed.

Ltac settles_step :=
  lazymatch goal with
  | |- settles (ret _) => apply settles_silent; reflexivity
  | |- settles (lift _) => apply settles_silent; reflexivity
  | |- settles (gets _) => apply settles_silent; reflexivity
  | |- settles (modify _) => apply settles_silent; reflexivity
  | |- settles (update_item _ _) => apply settles_silent; reflexivity
  | |- settles (set_module_canvas_id _ _) => apply settles_silent; reflexivity
  | |- settles (read_item _) =>
      apply settles_reads; apply steps_read_item; apply _
  | |- settles (note_links _ _) => apply settles_reads; apply sends_note_links
  | |- settles (prefetch _) => apply settles_reads; apply sends_prefetch
  | |- settles (_request _) => apply settles_request
  | |- settles (bind _ _) => apply settles_bind; [| intros]
  | |- settles (for_each _ _) => apply settles_for_each; intros
  | |- settles (match ?x with _ => _ end) => destruct x
  end.

Lemma settles_build modules : settles (build modules false).
Proof.
  cbn [build]. unfold build_content, content_sync, sync_module,
    _create_or_update_item, create_or_update, _resolve_links, resolve_item_links,
    placement, _add_to_module, place.
  repeat settles_step.
Qed.

(** X20. A write that fails ends the run: when the service fails a write
    request of a run of [build], that request is the last one of the run;
    nothing is sent after it, for no other entity either. *)
Theorem failed_write_ends_the_run
  (modules : list Module_.t) (before after : list request) (rq : request) (e : exn) :
  requests_of (build modules false) = before ++ rq :: after ->
  is_write rq = true ->
  canvas before rq = Raise e ->
  after = [].
Proof.
  intros Hrun Hw Hfail. destruct after as [| x after]; [reflexivity | exfalso].
  unfold requests_of, run in Hrun.
  destruct (settles_build modules new_builder) as [ext [E W]].
  destruct (build modules false new_builder) as [r b]. cbn [fst snd] in *.
  cbn [new_builder sent app] in E. rewrite E in Hrun. subst ext.
  destruct (writes_answered_at _ _ _ _ _ W Hw) as [v Hv]; [discriminate |].
  cbn [new_builder sent app] in Hv. rewrite Hfail in Hv. discriminate Hv.
Qed.

(** ** Phase 3: positions *)














(** ** Phase 0: the listing of the files *)

Lemma sends_fetch_into_with (P : request -> Prop) rq store :
  P rq -> sends P (fetch_into rq store).
Proof.
  intros H. unfold fetch_into. repeat sends_step. apply sends_request. exact H.
Qed.

(** Every request of the computation satisfies [P], when [leaf] shows it
    of each request. *)
Ltac sends_all leaf :=
  repeat first
    [ apply sends_note_links
    | apply sends_fetch_into_with; leaf
    | apply sends_request; leaf
    | sends_step ].

Lemma no_listing_after_prefetch modules dry_run :
  sends no_listing
    (if has_existing modules then _fetch_existing_data modules else ret tt) ->
  needs_files modules = false ->
  sends no_listing (build modules dry_run).
Proof.
  intros Hfetch Hneeds. destruct dry_run; cbn [build].
  - unfold prefetch. fold (needs_files modules). rewrite Hneeds.
    sends_step; [sends_all ltac:(reflexivity) |].
    sends_step; [sends_step; [repeat sends_step | exact Hfetch] |].
    apply steps_preview. apply _.
  - unfold build_content, prefetch. fold (needs_files modules). rewrite Hneeds.
    unfold content_sync, sync_module, _create_or_update_item, create_or_update,
      _resolve_links, resolve_item_links, placement, _add_to_module, place.
    sends_step; [| sends_all ltac:(reflexivity)].
    sends_step; [sends_all ltac:(reflexivity) |].
    sends_step; [sends_step; [repeat sends_step | exact Hfetch] |].
    sends_all ltac:(reflexivity).
Qed.

Lemma sends_fetch_existing_no_listing modules :
  sends no_listing
    (if has_existing modules then _fetch_existing_data modules else ret tt).
Proof.
  unfold _fetch_existing_data, fetch_item. sends_all ltac:(reflexivity).
Qed.

Ltac sends_anything :=
  repeat first
    [ eapply sends_weaken; [| apply sends_prefetch]; intros; exact I
    | apply sends_note_links
    | apply steps_preview; apply _
    | apply sends_request; exact I
    | sends_step ].

Lemma sends_anything_sync modules : sends (fun _ => True) (content_sync modules).
Proof.
  unfold content_sync, sync_module, _create_or_update_item, create_or_update.
  sends_anything.
Qed.

Lemma sends_anything_later :
  sends (fun _ => True) (_resolve_links ;; placement ;; ret (@nil string)).
Proof.
  unfold _resolve_links, resolve_item_links, placement, _add_to_module, place.
  sends_anything.
Qed.

Lemma first_is_request rq : first_is rq (_request rq).
Proof. intros b H. exists []. cbn [_request snd with_sent sent]. rewrite H. reflexivity. Qed.

Lemma first_is_bind {A B : Type} rq (m : M A) (f : A -> M B) :
  first_is rq m -> (forall a, sends (fun _ => True) (f a)) -> first_is rq (bind m f).
Proof.
  intros Hm Hf b Hb. destruct (Hm b Hb) as [rest E]. unfold bind.
  destruct (m b) as [[a | e] b1]; cbn [snd] in *.
  - destruct (Hf a b1) as [ext [E' _]]. exists (rest ++ ext). rewrite E', E. reflexivity.
  - exists rest. exact E.
Qed.

Lemma first_is_after_modify {B : Type} rq g (f : unit -> M B) :
  (forall b, sent (g b) = sent b) -> first_is rq (f tt) -> first_is rq (bind (modify g) f).
Proof.
  intros Hg Hf b Hb. unfold bind, modify. apply Hf. rewrite Hg. exact Hb.
Qed.

Lemma first_is_prefetch modules :
  needs_files modules = true -> first_is get_files (prefetch modules).
Proof.
  intros H. unfold prefetch. fold (needs_files modules). rewrite H.
  apply first_is_bind.
  - unfold fetch_files. apply first_is_bind; [apply first_is_request |].
    intros listing. sends_anything.
  - intros _. destruct (has_existing modules).
    + eapply sends_weaken; [| apply sends_fetch_existing_data]. intros; exact I.
    + sends_anything.
Qed.

(** X22. The listing of the files is read first, and only when it is
    needed: when some item of the tree is a file or some body holds the
    start of a placeholder for a file, the first request of a run, dry or
    not, is the listing of the files; otherwise no request of the run is
    that listing. *)
Theorem files_are_listed_when_needed (modules : list Module_.t) (dry_run : bool) :
  (needs_files modules = true ->
   exists rest, requests_of (build modules dry_run) = get_files :: rest)
  /\ (needs_files modules = false ->
      Forall no_listing (requests_of (build modules dry_run))).
Proof.
  split.
  - intros Hneeds.
    assert (H : first_is get_files (build modules dry_run)).
    { destruct dry_run; cbn [build].
      - apply first_is_after_modify; [reflexivity |].
        apply first_is_bind; [apply first_is_prefetch; exact Hneeds |].
        intros _. sends_anything.
      - apply first_is_bind; [| intros _; apply sends_anything_later].
        unfold build_content. apply first_is_after_modify; [reflexivity |].
        apply first_is_bind; [apply first_is_prefetch; exact Hneeds |].
        intros _. apply sends_anything_sync. }
    unfold requests_of, run. specialize (H new_builder eq_refl).
    destruct (build modules dry_run new_builder) as [r b]. exact H.
  - intros Hneeds. apply requests_of_sends.
    apply no_listing_after_prefetch; [apply sends_fetch_existing_no_listing | exact Hneeds].
Qed.

(** ** [markdown_to_html_basic] on text without markers *)

(** A pattern whose matches start with a marker finds nothing in a text
    without markers. *)
Lemma search_unmarked r :
  (forall prev c s, marker c = false -> rx_match r prev (String c s) = None) ->
  (forall prev, rx_match r prev "" = None) ->
  forall s prev, unmarked s = true -> rx_search r prev s = false.
Proof.
  intros Hchar Hend. induction s as [| c s IH]; intros prev H; cbn [rx_search].
  - rewrite Hend. reflexivity.
  - unfold unmarked in H. cbn [string_forall] in H.
    apply andb_true_iff in H as [Hc Hs]. apply negb_true_iff in Hc.
    rewrite (Hchar _ _ _ Hc). apply IH. exact Hs.
Qed.

Lemma marker_differs a c : marker a = true -> marker c = false -> Ascii.eqb a c = false.
Proof.
  intros Ha Hc. destruct (Ascii.eqb_spec a c) as [-> | _]; [| reflexivity].
  rewrite Ha in Hc. discriminate Hc.
Qed.

Lemma heading_unmarked a h s :
  marker a = true -> unmarked s = true ->
  rx_search (heading_re (String a h)) None s = false.
Proof.
  intros Ha. apply search_unmarked.
  - intros prev c s' Hc. unfold rx_match, heading_re. cbn [rx lit_prefix].
    rewrite (marker_differs _ _ Ha Hc). destruct (at_bol prev); reflexivity.
  - intros prev. unfold rx_match, heading_re. cbn [rx lit_prefix].
    destruct (at_bol prev); reflexivity.
Qed.

Lemma literal_unmarked a l r s :
  marker a = true -> unmarked s = true ->
  rx_search (Cat (Lit (String a l)) r) None s = false.
Proof.
  intros Ha. apply search_unmarked.
  - intros prev c s' Hc. unfold rx_match. cbn [rx lit_prefix].
    rewrite (marker_differs _ _ Ha Hc). reflexivity.
  - intros prev. reflexivity.
Qed.

Lemma underscore_unmarked s :
  unmarked s = true -> rx_search italic_underscore_re None s = false.
Proof.
  apply search_unmarked.
  - intros prev c s' Hc. unfold rx_match, italic_underscore_re. cbn [rx lit_prefix].
    rewrite (marker_differs "_"%char c eq_refl Hc).
    destruct prev as [b |]; [destruct (Ascii.eqb b "*") |]; reflexivity.
  - intros prev. unfold rx_match, italic_underscore_re. cbn [rx lit_prefix].
    destruct prev as [b |]; [destruct (Ascii.eqb b "*") |]; reflexivity.
Qed.

(** X23. [markdown_to_html_basic] leaves a text without markers as it is:
    a text that holds no hash, hyphen, star, opening square bracket or
    underscore is returned unchanged. *)
Theorem markdown_keeps_unmarked_text (text : string) :
  unmarked text = true -> markdown_to_html_basic text = text.
Proof.
  intros H. unfold markdown_to_html_basic. cbv zeta.
  rewrite (rx_sub_without_match (heading_re "####") _ text)
    by (apply heading_unmarked; [reflexivity | exact H]).
  rewrite (rx_sub_without_match (heading_re "###") _ text)
    by (apply heading_unmarked; [reflexivity | exact H]).
  rewrite (rx_sub_without_match (heading_re "##") _ text)
    by (apply heading_unmarked; [reflexivity | exact H]).
  rewrite (rx_sub_without_match (heading_re "#") _ text)
    by (apply heading_unmarked; [reflexivity | exact H]).
  rewrite (rx_sub_without_match (heading_re "-") _ text)
    by (apply heading_unmarked; [reflexivity | exact H]).
  rewrite (rx_sub_without_match (heading_re "*") _ text)
    by (apply heading_unmarked; [reflexivity | exact H]).
  rewrite (rx_sub_without_match md_link_re _ text)
    by (apply literal_unmarked; [reflexivity | exact H]).
  rewrite (rx_sub_without_match bold_re _ text)
    by (apply literal_unmarked; [reflexivity | exact H]).
  rewrite (rx_sub_without_match italic_star_re _ text)
    by (apply literal_unmarked; [reflexivity | exact H]).
  apply rx_sub_without_match. apply underscore_unmarked. exact H.
Qed.

(** ** The form of a normalised text *)

Lemma lower_char_blank c : is_space c = true -> lower_char c = c.
Proof.
  destruct c as [[] [] [] [] [] [] [] []]; intros H;
    first [reflexivity | discriminate H].
Qed.

Lemma starts_blank_lower s : starts_blank (lower s) = starts_blank s.
Proof. destruct s as [| c s]; [reflexivity | apply is_space_lower_char]. Qed.

Lemma single_spaced_lower s : single_spaced (lower s) = single_spaced s.
Proof.
  induction s as [| c s IH]; [reflexivity |].
  cbn [lower single_spaced]. rewrite is_space_lower_char, starts_blank_lower, IH.
  destruct (is_space c) eqn:E; [rewrite (lower_char_blank _ E) |]; reflexivity.
Qed.

Lemma lstrip_lower s : lstrip (lower s) = lower (lstrip s).
Proof.
  induction s as [| c s IH]; [reflexivity |].
  cbn [lower lstrip]. rewrite is_space_lower_char.
  destruct (is_space c); [exact IH | reflexivity].
Qed.

Lemma rstrip_lower s : rstrip (lower s) = lower (rstrip s).
Proof.
  induction s as [| c s IH]; [reflexivity |].
  cbn [lower rstrip]. rewrite IH, is_space_lower_char.
  destruct (rstrip s); cbn [lower]; [destruct (is_space c) |]; reflexivity.
Qed.

Lemma strip_lower s : strip (lower s) = lower (strip s).
Proof. unfold strip. rewrite lstrip_lower, rstrip_lower. reflexivity. Qed.

Lemma starts_blank_lstrip s : starts_blank (lstrip s) = false.
Proof.
  induction s as [| c s IH]; [reflexivity |].
  cbn [lstrip]. destruct (is_space c) eqn:E; [exact IH | exact E].
Qed.

Lemma lstrip_unchanged s : starts_blank s = false -> lstrip s = s.
Proof.
  destruct s as [| c s]; [reflexivity |].
  cbn [starts_blank lstrip]. intros ->. reflexivity.
Qed.

Lemma rstrip_head s d t : rstrip s = String d t -> exists s', s = String d s'.
Proof.
  destruct s as [| c s]; [discriminate |]. cbn [rstrip].
  destruct (rstrip s); [destruct (is_space c) |]; intros [= <- _]; eexists; reflexivity.
Qed.

Lemma starts_blank_rstrip s : starts_blank s = false -> starts_blank (rstrip s) = false.
Proof.
  intros H. destruct (rstrip s) as [| d t] eqn:E; [reflexivity |].
  destruct (rstrip_head _ _ _ E) as [s' ->]. exact H.
Qed.

Lemma rstrip_rstrip s : rstrip (rstrip s) = rstrip s.
Proof.
  induction s as [| c s IH]; [reflexivity |].
  cbn [rstrip]. destruct (rstrip s) as [| d t] eqn:E.
  - destruct (is_space c) eqn:Ec; [reflexivity |]. cbn [rstrip]. rewrite Ec. reflexivity.
  - change (rstrip (String c (String d t)))
      with (match rstrip (String d t) with
            | "" => if is_space c then "" else String c ""
            | String a u => String c (String a u)
            end).
    rewrite IH. reflexivity.
Qed.

Lemma strip_strip s : strip (strip s) = strip s.
Proof.
  unfold strip.
  rewrite (lstrip_unchanged (rstrip (lstrip s)))
    by (apply starts_blank_rstrip, starts_blank_lstrip).
  apply rstrip_rstrip.
Qed.

Lemma single_spaced_tail c s : single_spaced (String c s) = true -> single_spaced s = true.
Proof. cbn [single_spaced]. intros H. apply andb_true_iff in H as [_ H]. exact H. Qed.

Lemma single_spaced_lstrip s : single_spaced s = true -> single_spaced (lstrip s) = true.
Proof.
  induction s as [| c s IH]; intros H; [reflexivity |].
  cbn [lstrip]. destruct (is_space c); [| exact H].
  apply IH. exact (single_spaced_tail _ _ H).
Qed.

Lemma single_spaced_rstrip s : single_spaced s = true -> single_spaced (rstrip s) = true.
Proof.
  induction s as [| c s IH]; intros H; [reflexivity |].
  pose proof (IH (single_spaced_tail _ _ H)) as Hs.
  cbn [rstrip]. destruct (rstrip s) as [| d t] eqn:E.
  - destruct (is_space c) eqn:Ec; [reflexivity |].
    cbn [single_spaced]. rewrite Ec. reflexivity.
  - destruct (rstrip_head _ _ _ E) as [s' ->].
    cbn [single_spaced starts_blank] in *. rewrite Hs.
    apply andb_true_iff in H as [H _]. rewrite H. reflexivity.
Qed.

Lemma star_blanks : forall s prev caps,
  star is_space prev s (fun _ s' => Some (caps, s')) = Some (caps, lstrip s).
Proof.
  induction s as [| c s IH]; intros prev caps; [reflexivity |].
  cbn [star lstrip]. destruct (is_space c); [rewrite IH |]; reflexivity.
Qed.

Lemma lstrip_parts s : exists u, s = u +:+ lstrip s.
Proof.
  induction s as [| c s [u IH]]; [exists ""; reflexivity |].
  cbn [lstrip]. destruct (is_space c).
  - exists (String c u). rewrite append_cons, <- IH. reflexivity.
  - exists "". reflexivity.
Qed.

Lemma length_lstrip s : String.length (lstrip s) <= String.length s.
Proof.
  destruct (lstrip_parts s) as [u E]. rewrite E at 2. rewrite length_append. lia.
Qed.

(** The scan at a white space character: one blank for the whole run. *)
Lemma collapse_blank c s prev :
  is_space c = true ->
  exists prev',
    collapse_from prev (String c s) 0 = String " " (collapse_from prev' (lstrip s) 0).
Proof.
  intros Hc. destruct (lstrip_parts s) as [u E].
  assert (Hmatch : rx_match spaces_re prev (String c (u +:+ lstrip s))
                   = Some ([], lstrip s)).
  { unfold rx_match, spaces_re. cbn [rx]. rewrite Hc, <- E. apply star_blanks. }
  destruct (scan_match _ _ _ _ _ _ Hmatch) as [prev' Hscan].
  exists prev'. unfold collapse_from. rewrite E at 1. rewrite Hscan. reflexivity.
Qed.

Lemma collapse_other c s prev :
  is_space c = false ->
  collapse_from prev (String c s) 0 = String c (collapse_from (Some c) s 0).
Proof.
  intros Hc. unfold collapse_from. cbn [rx_scan].
  unfold rx_match, spaces_re. cbn [rx]. rewrite Hc. reflexivity.
Qed.

Lemma collapse_single_spaced : forall n s prev,
  String.length s <= n ->
  single_spaced (collapse_from prev s 0) = true
  /\ starts_blank (collapse_from prev s 0) = starts_blank s.
Proof.
  induction n as [| n IH]; intros s prev Hn.
  - destruct s; [split; reflexivity | cbn [String.length] in Hn; lia].
  - destruct s as [| c s]; [split; reflexivity |].
    cbn [String.length] in Hn. destruct (is_space c) eqn:Hc.
    + destruct (collapse_blank c s prev Hc) as [prev' E]. rewrite E.
      assert (Hlen : String.length (lstrip s) <= n)
        by (pose proof (length_lstrip s); lia).
      destruct (IH (lstrip s) prev' Hlen) as [Hs Hb].
      rewrite starts_blank_lstrip in Hb.
      cbn [single_spaced starts_blank]. rewrite Hs, Hb, Hc. split; reflexivity.
    + rewrite (collapse_other _ _ _ Hc).
      destruct (IH s (Some c) ltac:(lia)) as [Hs _].
      cbn [single_spaced starts_blank]. rewrite Hs, Hc. split; reflexivity.
Qed.

(** X24. The form of a normalised text: whatever [html.unescape] and the
    markup parser do, the text that [normalize_html] returns is in lower
    case, has no white space at its ends, and holds no white space but
    single blanks. *)
Theorem normalize_html_normal_form (content text : string) :
  normalize_html content = Ok text ->
  lower text = text /\ strip text = text /\ single_spaced text = true.
Proof.
  unfold normalize_html. destruct (nonempty content); cbn [negb].
  - destruct (html_unescape (strip content)) as [unescaped | e]; cbn [rbind];
      [| intros H; discriminate H].
    destruct (try_except _ _) as [t | e]; cbn [rbind]; [| intros H; discriminate H].
    intros [= <-]. split; [apply lower_lower | split].
    + rewrite strip_lower, strip_strip. reflexivity.
    + rewrite single_spaced_lower. unfold strip.
      apply single_spaced_rstrip, single_spaced_lstrip.
      apply (collapse_single_spaced (String.length t) t None). lia.
  - intros [= <-]. repeat split.
Qed.

(** ** The preview and Phase 1 decide alike *)

Lemma live_id_none_inv o : live_id o = None -> has_id o = false.
Proof.
  unfold live_id. destruct (has_id o) eqn:E; [| reflexivity].
  destruct o; [discriminate | discriminate E].
Qed.

Lemma create_or_update_unchanged_sent o cache compare update create id_key kind b :
  unchanged_in (cache (canvas_data_cache b)) o compare ->
  sent (snd (create_or_update o cache compare update create id_key kind b)) = sent b.
Proof. intros H. rewrite create_or_update_unchanged by exact H. reflexivity. Qed.

Lemma mode_decides o cache compare update create id_key kind b
  update_prefix update_suffix skip_mode no_data_mode create_mode mode :
  preview_mode o (cache (canvas_data_cache b)) compare update_prefix update_suffix
    skip_mode no_data_mode create_mode = Ok mode ->
  exists ext,
    sent (snd (create_or_update o cache compare update create id_key kind b)) =
    sent b ++ ext
    /\ mode_says mode create_mode skip_mode no_data_mode update_prefix update_suffix
         create update ext.
Proof.
  unfold preview_mode. intros H.
  destruct (live_id o) as [id |] eqn:Hid.
  - destruct (comparison_data (cache (canvas_data_cache b)) id) as [canvas_data |] eqn:Hdata.
    + destruct (compare canvas_data) as [r | e] eqn:Hcmp; cbn [rbind] in H;
        [| discriminate H].
      destruct (has_changes r) eqn:Hch; injection H as <-.
      * exists [update (val_of_ident id)]. split.
        -- apply create_or_update_changed. exists canvas_data, r. auto.
        -- right. right. exists id. split; [| reflexivity].
           right. eexists. reflexivity.
      * exists []. rewrite app_nil_r. split.
        -- apply create_or_update_unchanged_sent. exists id, canvas_data, r. auto.
        -- right. left. split; reflexivity.
    + injection H as <-. exists [update (val_of_ident id)]. split.
      * unfold create_or_update. rewrite Hid. unfold bind at 1. cbn [gets].
        rewrite Hdata. rewrite sent_bind by (intros; repeat sends_step). reflexivity.
      * right. right. exists id. split; [left |]; reflexivity.
  - injection H as <-. exists [create]. split.
    + apply create_or_update_new. apply live_id_none_inv. exact Hid.
    + left. split; reflexivity.
Qed.

(** The Phase 1 step of a page, an assignment or a discussion sends what
    its call of [create_or_update] sends, from a state with the same cache
    and the same record. *)
Ltac item_as_create_or_update :=
  unfold _create_or_update_item; unfold bind at 1;
  match goal with
  | |- context [note_links ?l ?c ?b] =>
      let Hsent := fresh "Hsent" in
      let Hcaches := fresh "Hcaches" in
      let Hres := fresh "Hres" in
      let r := fresh "r" in
      let b1 := fresh "b" in
      destruct (note_links_state l c b) as [Hsent [Hcaches Hres]];
      destruct (note_links l c b) as [r b1]; cbn [fst snd] in *; subst r;
      rewrite sent_bind by (intros; repeat sends_step);
      rewrite <- Hsent; apply mode_decides; rewrite Hcaches; assumption
  end.

Lemma module_mode_decides i module b mode :
  module_mode (Module_.canvas_module_id module) (cache_modules (canvas_data_cache b))
    (compare_module module) = Ok mode ->
  exists ext,
    sent (snd (sync_module i module b)) = sent b ++ ext
    /\ mode_says mode "CREATE" "SKIP (no changes)" "UPDATE (no comparison data)"
         "UPDATE (changed: " ")"
         (create_module (Module_.title module) i)
         (fun id => update_module id (Module_.title module) i) ext.
Proof.
  unfold module_mode, preview_mode. intros H.
  destruct (live_id (Module_.canvas_module_id module)) as [id |] eqn:Hid.
  - destruct (comparison_data (cache_modules (canvas_data_cache b)) id)
      as [canvas_data |] eqn:Hdata.
    + destruct (compare_module module canvas_data) as [r | e] eqn:Hcmp;
        cbn [rbind] in H; [| discriminate H].
      destruct (has_changes r) eqn:Hch; injection H as <-.
      * exists [update_module (val_of_ident id) (Module_.title module) i]. split.
        -- apply sync_module_changed. exists canvas_data, r. auto.
        -- right. right. exists id. split; [| reflexivity].
           right. eexists. reflexivity.
      * exists []. rewrite app_nil_r. split.
        -- assert (Hq : steps (quiet_with (canvas_data_cache b)) (sync_module i module)).
           { apply quiet_sync_module. exists id, canvas_data, r. auto. }
           exact (proj1 (Hq b eq_refl)).
        -- right. left. split; reflexivity.
    + injection H as <-.
      exists [update_module (val_of_ident id) (Module_.title module) i]. split.
      * unfold sync_module. rewrite Hid. unfold bind at 1. cbn [gets].
        rewrite Hdata. rewrite sent_bind by (intros; apply sends_modify; reflexivity).
        reflexivity.
      * right. right. exists id. split; [left |]; reflexivity.
  - injection H as <-. exists [create_module (Module_.title module) i]. split.
    + unfold sync_module. rewrite Hid.
      rewrite sent_bind by (intros; repeat sends_step). reflexivity.
    + left. split; reflexivity.
Qed.

(** X25. The preview and Phase 1 decide alike. From one state of the
    builder, the mode that the preview of a dry run computes for a module,
    a page, an assignment or a discussion tells what the Phase 1 step of
    that entity sends: the creation for [create], nothing for [skip], and
    the full update for the two kinds of [update]. *)
Theorem preview_agrees_with_phase_1 :
  (forall i module b mode,
     module_mode (Module_.canvas_module_id module)
       (cache_modules (canvas_data_cache b)) (compare_module module) = Ok mode ->
     exists ext,
       sent (snd (sync_module i module b)) = sent b ++ ext
       /\ mode_says mode "CREATE" "SKIP (no changes)" "UPDATE (no comparison data)"
            "UPDATE (changed: " ")"
            (create_module (Module_.title module) i)
            (fun id => update_module id (Module_.title module) i) ext)
  /\ (forall l p b mode,
        item_mode (Page.canvas_page_id p) (cache_pages (canvas_data_cache b))
          (compare_page p) = Ok mode ->
        exists ext,
          sent (snd (_create_or_update_item l (IPage p) b)) = sent b ++ ext
          /\ mode_says mode "create" "skip (no changes)" "update - no comparison data"
               "update: " ""
               (create_page (Page.title p) (Page.content p))
               (fun id => update_page id (Page.content p) (Some (Page.title p))) ext)
  /\ (forall l a b mode,
        item_mode (Assignment.canvas_assignment_id a)
          (cache_assignments (canvas_data_cache b)) (compare_assignment a) = Ok mode ->
        exists ext,
          sent (snd (_create_or_update_item l (IAssignment a) b)) = sent b ++ ext
          /\ mode_says mode "create" "skip (no changes)" "update - no comparison data"
               "update: " ""
               (create_assignment (Assignment.title a) (Assignment.description a)
                  (Assignment.points a) (Assignment.due_at a)
                  (to_canvas (Assignment.grade_display a))
                  (map value (Assignment.submission_types a)))
               (fun id =>
                  update_assignment_full id (Assignment.title a)
                    (Assignment.description a) (Assignment.points a)
                    (Assignment.due_at a) (to_canvas (Assignment.grade_display a))
                    (map value (Assignment.submission_types a))) ext)
  /\ (forall l d b mode,
        item_mode (Discussion.canvas_discussion_id d)
          (cache_discussions (canvas_data_cache b)) (compare_discussion d) = Ok mode ->
        exists ext,
          sent (snd (_create_or_update_item l (IDiscussion d) b)) = sent b ++ ext
          /\ mode_says mode "create" "skip (no changes)" "update - no comparison data"
               "update: " ""
               (create_discussion (Discussion.title d) (Discussion.message d)
                  (Discussion.require_initial_post d) (discussion_type d)
                  (Discussion.graded d) (discussion_points d) (discussion_due d)
                  (discussion_grading d))
               (fun id =>
                  update_discussion_full id (Discussion.title d) (Discussion.message d)
                    (Discussion.require_initial_post d) (discussion_type d)
                    (Discussion.graded d) (discussion_points d) (discussion_due d)
                    (discussion_grading d)) ext).
Proof.
  split; [exact module_mode_decides | split; [| split]].
  - intros l p b mode H. unfold item_mode in H. item_as_create_or_update.
  - intros l a b mode H. unfold item_mode in H. item_as_create_or_update.
  - intros l d b mode H. unfold item_mode in H. item_as_create_or_update.
Qed.

(** ** Phase 1 keeps the objects whose body holds a placeholder *)

#[local] Instance same_pending_preorder : PreOrder same_pending.
Proof.
  split; [intros b; reflexivity | intros b1 b2 b3 H12 H23].
  unfold same_pending in *. congruence.
Qed.

Ltac pending_leaf :=
  idtac;
  lazymatch goal with
  | |- steps _ (modify _) => intros ?; reflexivity
  | |- steps _ (update_item _ _) => intros ?; reflexivity
  | |- steps _ (set_module_canvas_id _ _) => intros ?; reflexivity
  | |- steps _ (_request _) => intros ?; reflexivity
  end.

Lemma pending_create_or_update o cache compare update create id_key kind :
  steps same_pending (create_or_update o cache compare update create id_key kind).
Proof. unfold create_or_update. repeat steps_with pending_leaf. Qed.

Lemma pending_after_note_links {A : Type} l content (f : unit -> M A) b :
  (forall u, steps same_pending (f u)) ->
  items_needing_link_resolution (snd (bind (note_links l content) f b)) =
  items_needing_link_resolution b ++ (if has_internal_links content then [l] else []).
Proof.
  intros Hf. unfold bind, note_links.
  destruct (has_internal_links content); cbn [modify ret].
  - rewrite (Hf tt). reflexivity.
  - rewrite (Hf tt), app_nil_r. reflexivity.
Qed.

(** X26. An object takes part in Phase 2 exactly when its body holds a
    placeholder: the Phase 1 step of an item adds its place to the list
    kept for link resolution when [has_internal_links] holds of its body,
    and leaves the list as it is otherwise; this is done before anything
    is sent, so it holds also when the step raises. *)
Theorem item_is_kept_for_link_resolution (l : loc) (it : item) (b : builder) :
  items_needing_link_resolution (snd (_create_or_update_item l it b)) =
  items_needing_link_resolution b
  ++ (if has_internal_links (item_text it) then [l] else []).
Proof.
  destruct it as [h | p | k | f | a | d]; cbn [_create_or_update_item item_text].
  - symmetry. apply app_nil_r.
  - apply pending_after_note_links. intros _.
    repeat first [apply pending_create_or_update | steps_with pending_leaf].
  - symmetry. apply app_nil_r.
  - rewrite app_nil_r.
    assert (H : steps same_pending (_create_or_update_item l (IFile f)))
      by (cbn [_create_or_update_item]; repeat steps_with pending_leaf).
    apply H.
  - apply pending_after_note_links. intros _.
    repeat first [apply pending_create_or_update | steps_with pending_leaf].
  - apply pending_after_note_links. intros _.
    repeat first [apply pending_create_or_update | steps_with pending_leaf].
Qed.

(** ** [MarkdownParser.parse] *)

Lemma star_to_end p : forall t prev k r,
  string_forall p t = true ->
  (forall prev', k prev' "" = Some r) ->
  star p prev t k = Some r.
Proof.
  induction t as [| a t IH]; intros prev k r Ht Hk.
  - cbn [star]. apply Hk.
  - cbn [star]. cbn [string_forall] in Ht. apply andb_true_iff in Ht as [Ha Ht].
    rewrite Ha, (IH (Some a) k r Ht Hk). reflexivity.
Qed.

Lemma consumed_all s : consumed s "" = s.
Proof. rewrite <- (append_empty s) at 1. apply consumed_append. Qed.

(** [MODULE_PATTERN] on a line without line break. *)
Lemma module_match line :
  string_forall dot line = true ->
  rx_match MODULE_PATTERN None line =
  match heading_of line with
  | Some t => Some ([(1, t)], "")
  | None => None
  end.
Proof.
  intros H. unfold rx_match, MODULE_PATTERN.
  destruct line as [| a [| b [| c t]]]; cbn [rx lit_prefix at_bol heading_of].
  - reflexivity.
  - destruct (Ascii.eqb "#" a); reflexivity.
  - destruct (Ascii.eqb "#" a); [destruct (Ascii.eqb " " b) |]; reflexivity.
  - rewrite (Ascii.eqb_sym a "#"), (Ascii.eqb_sym b " ").
    destruct (Ascii.eqb "#" a); [| reflexivity].
    destruct (Ascii.eqb " " b); [| reflexivity].
    cbn [string_forall] in H.
    apply andb_true_iff in H as [_ H]. apply andb_true_iff in H as [_ H].
    apply andb_true_iff in H as [Hc Ht].
    cbn [andb rx]. rewrite Hc.
    apply star_to_end; [exact Ht |].
    intros prev'. cbn [at_eol]. rewrite consumed_all. reflexivity.
Qed.

Lemma matches_module line :
  string_forall dot line = true ->
  matches MODULE_PATTERN line = false -> heading_of line = None.
Proof.
  intros H. unfold matches. rewrite (module_match _ H).
  destruct (heading_of line); [discriminate | reflexivity].
Qed.

(** A line that [CANVAS_ID_PATTERN] matches opens no module. *)
Lemma canvas_id_not_heading line r :
  rx_match CANVAS_ID_PATTERN None line = Some r -> heading_of line = None.
Proof.
  unfold rx_match, CANVAS_ID_PATTERN. destruct line as [| a rest]; [discriminate |].
  cbn [rx lit_prefix at_bol].
  destruct (Ascii.eqb_spec "<"%char a) as [<- | _]; [intros _ | discriminate].
  destruct rest as [| b [| c t]]; reflexivity.
Qed.

Lemma split_on_no_break s : no_break (split_on newline s).
Proof.
  unfold no_break. induction s as [| c s IH]; [repeat constructor |].
  cbn [split_on]. destruct (Ascii.eqb c newline) eqn:E.
  - constructor; [reflexivity | exact IH].
  - pose proof (split_on_nonempty newline s) as Hne.
    destruct (split_on newline s) as [| x l]; [contradiction |].
    inversion IH as [| ? ? Hx Hl]. subst. constructor; [| exact Hl].
    cbn [string_forall]. rewrite Hx. unfold dot, any_but. rewrite E. reflexivity.
Qed.

Lemma string_forall_rstrip p s :
  string_forall p s = true -> string_forall p (rstrip s) = true.
Proof.
  induction s as [| c s IH]; intros H; [reflexivity |].
  cbn [string_forall] in H. apply andb_true_iff in H as [Hc Hs].
  cbn [rstrip]. destruct (rstrip s) as [| d t].
  - destruct (is_space c); [reflexivity |]. cbn [string_forall]. rewrite Hc. reflexivity.
  - cbn [string_forall] in *. rewrite Hc. apply IH. exact Hs.
Qed.

(** The lines that [_parse_item] takes open no module. *)
Lemma parse_item_lines_rest : forall lines st st' rest,
  no_break lines ->
  _parse_item_lines lines st = (st', rest) ->
  omap heading lines = omap heading rest
  /\ no_break rest /\ length rest <= length lines.
Proof.
  induction lines as [| raw lines IH]; intros st st' rest Hnb H.
  - injection H as _ <-. split; [reflexivity | split; [constructor | lia]].
  - cbn [_parse_item_lines] in H.
    inversion Hnb as [| ? ? Hraw Hlines]. subst.
    destruct (matches MODULE_PATTERN (rstrip raw)) eqn:Hm.
    + cbn [orb] in H. injection H as _ <-.
      split; [reflexivity | split; [exact Hnb | lia]].
    + assert (Hnone : heading raw = None)
        by (apply matches_module; [apply string_forall_rstrip; exact Hraw | exact Hm]).
      assert (Hstep : forall st0,
                _parse_item_lines lines st0 = (st', rest) ->
                omap heading (raw :: lines) = omap heading rest
                /\ no_break rest /\ length rest <= length (raw :: lines)).
      { intros st0 H0. destruct (IH _ _ _ Hlines H0) as (E & Hr & Hlen).
        rewrite omap_cons, Hnone. cbn [length].
        split; [exact E | split; [exact Hr | lia]]. }
      cbn [orb] in H. destruct (matches ITEM_PATTERN (rstrip raw)).
      * injection H as _ <-. split; [reflexivity | split; [exact Hnb | lia]].
      * destruct (String.eqb (rstrip raw) CONTENT_SEPARATOR); [eapply Hstep; exact H |].
        destruct (rx_match CANVAS_ID_PATTERN None (rstrip raw)) as [[caps s] |];
          [eapply Hstep; exact H |].
        destruct (in_content st); [eapply Hstep; exact H |].
        destruct (rx_match METADATA_PATTERN None (rstrip raw)) as [[caps s] |];
          [eapply Hstep; exact H |].
        destruct (nonempty (rstrip raw) && negb (is_prefix "<!--" (rstrip raw)));
          eapply Hstep; exact H.
Qed.

Lemma title_add_to_last it modules :
  map Module_.title (add_to_last it modules) = map Module_.title modules.
Proof.
  induction modules as [| m [| m' modules] IH]; [reflexivity | reflexivity |].
  change (add_to_last it (m :: m' :: modules)) with (m :: add_to_last it (m' :: modules)).
  cbn [map] in *. rewrite IH. reflexivity.
Qed.

Lemma parse_loop_titles : forall fuel lines modules out,
  length lines <= fuel -> no_break lines ->
  parse_loop fuel lines modules = Some out ->
  map Module_.title out = map Module_.title modules ++ omap heading lines.
Proof.
  induction fuel as [| fuel IH]; intros lines modules out Hlen Hnb H.
  - destruct lines; [| cbn [length] in Hlen; lia].
    injection H as <-. symmetry. apply app_nil_r.
  - destruct lines as [| raw rest].
    + injection H as <-. symmetry. apply app_nil_r.
    + cbn [length] in Hlen. inversion Hnb as [| ? ? Hraw Hrest]. subst.
      cbn [parse_loop] in H.
      rewrite (module_match (rstrip raw)) in H by (apply string_forall_rstrip; exact Hraw).
      rewrite omap_cons. unfold heading at 1.
      assert (Hnew : forall t id rest0,
                length rest0 <= fuel -> no_break rest0 ->
                omap heading rest = omap heading rest0 ->
                parse_loop fuel rest0 (modules ++ [Module_.mk t [] VNone id]) = Some out ->
                map Module_.title out =
                map Module_.title modules ++ t :: omap heading rest).
      { intros t id rest0 Hl Hn E H0. rewrite (IH _ _ _ Hl Hn H0), map_app, E.
        rewrite <- app_assoc. reflexivity. }
      destruct (heading_of (rstrip raw)) as [t |].
      * cbn [group Nat.eqb] in H. destruct rest as [| next rest'].
        -- eapply Hnew; [| | | exact H]; [cbn; lia | constructor | reflexivity].
        -- destruct (rx_match CANVAS_ID_PATTERN None (rstrip next)) as [[id_caps s] |] eqn:Hid.
           ++ destruct (String.eqb (group 1 id_caps) "module_id").
              ** inversion Hrest as [| ? ? _ Hrest']. subst.
                 eapply Hnew; [| | | exact H];
                   [cbn [length] in Hlen; lia | exact Hrest' |].
                 rewrite omap_cons. unfold heading at 1.
                 rewrite (canvas_id_not_heading _ _ Hid). reflexivity.
              ** eapply Hnew; [| | | exact H]; [lia | exact Hrest | reflexivity].
           ++ eapply Hnew; [| | | exact H]; [lia | exact Hrest | reflexivity].
      * assert (Hskip : parse_loop fuel rest modules = Some out ->
                        map Module_.title out =
                        map Module_.title modules ++ omap heading rest).
        { apply IH; [lia | exact Hrest]. }
        destruct (rx_match ITEM_PATTERN None (rstrip raw)) as [[caps s] |];
          [| exact (Hskip H)].
        destruct modules as [| m modules]; [exact (Hskip H) |].
        destruct (_parse_item_lines rest new_item_state) as [st rest'] eqn:Hitem.
        destruct (parse_item_lines_rest _ _ _ _ Hrest Hitem) as (E & Hnb' & Hlen').
        rewrite E. assert (Hl : length rest' <= fuel) by lia.
        destruct (make_item (lower (group 1 caps)) (group 2 caps) st) as [[it |] |];
          [| | discriminate H].
        -- rewrite (IH _ _ _ Hl Hnb' H), title_add_to_last. reflexivity.
        -- exact (IH _ _ _ Hl Hnb' H).
Qed.

Lemma parse_loop_fuel : forall fuel1 fuel2 lines modules,
  no_break lines ->
  length lines <= fuel1 -> length lines <= fuel2 ->
  parse_loop fuel1 lines modules = parse_loop fuel2 lines modules.
Proof.
  induction fuel1 as [| fuel1 IH]; intros fuel2 lines modules Hnb H1 H2.
  - destruct lines; [destruct fuel2; reflexivity | cbn [length] in H1; lia].
  - destruct lines as [| raw rest]; [destruct fuel2; reflexivity |].
    destruct fuel2 as [| fuel2]; [cbn [length] in H2; lia |].
    cbn [length] in H1, H2. inversion Hnb as [| ? ? _ Hrest]. subst.
    cbn [parse_loop].
    destruct (rx_match MODULE_PATTERN None (rstrip raw)) as [[caps s] |].
    + destruct rest as [| next rest']; [apply IH; [constructor | cbn; lia | cbn; lia] |].
      inversion Hrest as [| ? ? _ Hrest']. subst. cbn [length] in H1, H2.
      destruct (rx_match CANVAS_ID_PATTERN None (rstrip next)) as [[id_caps s'] |];
        [destruct (String.eqb (group 1 id_caps) "module_id") |];
        apply IH; first [assumption | cbn [length]; lia].
    + destruct (rx_match ITEM_PATTERN None (rstrip raw)) as [[caps s] |];
        [| apply IH; [assumption | lia | lia]].
      destruct modules as [| m modules]; [apply IH; [assumption | lia | lia] |].
      destruct (_parse_item_lines rest new_item_state) as [st rest'] eqn:Hitem.
      destruct (parse_item_lines_rest _ _ _ _ Hrest Hitem) as (_ & Hnb' & Hlen').
      destruct (make_item (lower (group 1 caps)) (group 2 caps) st) as [[it |] |];
        [| | reflexivity]; apply IH; first [assumption | lia].
Qed.

(** X27. The modules are the heading lines. The loop of [parse] ends: as
    many rounds as the file has lines are enough, and more rounds change
    nothing. When [parse] returns, the titles of its modules are, in
    order, the titles of the lines of the file that, without the white
    space at their end, are a hash, a blank and at least one more
    character; such a line opens a module wherever it stands, in the body
    of an item too. *)
Theorem modules_are_the_heading_lines (content : string) :
  (forall fuel,
     length (split_on newline content) <= fuel ->
     parse_loop fuel (split_on newline content) [] = parse content)
  /\ (forall modules,
        parse content = Some modules ->
        map Module_.title modules = omap heading (split_on newline content)).
Proof.
  split.
  - intros fuel H. unfold parse.
    apply parse_loop_fuel; [apply split_on_no_break | exact H | lia].
  - intros modules H. unfold parse in H.
    apply (parse_loop_titles _ _ [] modules (Nat.le_refl _) (split_on_no_break content) H).
Qed.

Lemma make_item_fails item_type title st :
  make_item item_type title st = None ->
  exists text, metadata st !! "points" = Some text /\ py_float text = None.
Proof.
  intros H.
  assert (Hpoints : points_of st = None).
  { unfold make_item in H.
    repeat match type of H with
           | context [if String.eqb ?a ?b then _ else _] => destruct (String.eqb a b)
           end;
      try discriminate H;
      try (destruct (points_of st); [discriminate H | reflexivity]).
    destruct (metadata st !! "url") as [url |]; [| discriminate H].
    destruct (nonempty url); discriminate H. }
  unfold points_of in Hpoints.
  destruct (metadata st !! "points") as [text |]; [| discriminate Hpoints].
  exists text. split; [reflexivity | exact Hpoints].
Qed.

(** The metadata at the end of [_parse_item] are those of the start and
    those of the lines read, and the lines left are lines of the file. *)
Lemma parse_item_lines_metadata : forall lines st st' rest,
  _parse_item_lines lines st = (st', rest) ->
  (forall raw, In raw rest -> In raw lines)
  /\ forall key text, metadata st' !! key = Some text ->
       metadata st !! key = Some text
       \/ exists raw, In raw lines /\ metadata_of raw = Some (key, text).
Proof.
  induction lines as [| raw lines IH]; intros st st' rest H.
  - injection H as <- <-. split; [intros r Hr; exact Hr | intros key text Hk; left; exact Hk].
  - cbn [_parse_item_lines] in H.
    assert (Hstep : forall st0,
              metadata st0 = metadata st ->
              _parse_item_lines lines st0 = (st', rest) ->
              (forall r, In r rest -> In r (raw :: lines))
              /\ forall key text, metadata st' !! key = Some text ->
                   metadata st !! key = Some text
                   \/ exists r, In r (raw :: lines) /\ metadata_of r = Some (key, text)).
    { intros st0 E H0. destruct (IH _ _ _ H0) as [Hin Hmeta]. split.
      - intros r Hr. right. apply Hin, Hr.
      - intros key text Hk. destruct (Hmeta _ _ Hk) as [Hold | (r & Hr & Hm)].
        + left. rewrite <- E. exact Hold.
        + right. exists r. split; [right; exact Hr | exact Hm]. }
    destruct (matches MODULE_PATTERN (rstrip raw) || matches ITEM_PATTERN (rstrip raw)).
    + injection H as <- <-. split; [intros r Hr; exact Hr | intros key text Hk; left; exact Hk].
    + destruct (String.eqb (rstrip raw) CONTENT_SEPARATOR);
        [(eapply Hstep; [| exact H]; reflexivity) |].
      destruct (rx_match CANVAS_ID_PATTERN None (rstrip raw)) as [[caps s] |];
        [(eapply Hstep; [| exact H]; reflexivity) |].
      destruct (in_content st); [(eapply Hstep; [| exact H]; reflexivity) |].
      destruct (rx_match METADATA_PATTERN None (rstrip raw)) as [[caps s] |] eqn:Em.
      * destruct (IH _ _ _ H) as [Hin Hmeta]. split.
        -- intros r Hr. right. apply Hin, Hr.
        -- intros key text Hk. destruct (Hmeta _ _ Hk) as [Hold | (r & Hr & Hm)].
           ++ cbn [metadata] in Hold. apply lookup_insert_Some in Hold.
              destruct Hold as [[<- <-] | [_ Hold]]; [| left; exact Hold].
              right. exists raw. split; [left; reflexivity |].
              unfold metadata_of. rewrite Em. reflexivity.
           ++ right. exists r. split; [right; exact Hr | exact Hm].
      * destruct (nonempty (rstrip raw) && negb (is_prefix "<!--" (rstrip raw)));
          (eapply Hstep; [| exact H]; reflexivity).
Qed.

Lemma parse_loop_fails : forall fuel lines modules,
  parse_loop fuel lines modules = None ->
  exists raw text,
    In raw lines /\ metadata_of raw = Some ("points", text) /\ py_float text = None.
Proof.
  induction fuel as [| fuel IH]; intros lines modules H.
  - destruct lines; discriminate H.
  - destruct lines as [| raw rest]; [discriminate H |].
    assert (Hrest : forall modules0,
              parse_loop fuel rest modules0 = None ->
              exists r text,
                In r (raw :: rest) /\ metadata_of r = Some ("points", text)
                /\ py_float text = None).
    { intros modules0 H0. destruct (IH _ _ H0) as (r & text & Hr & Hm & Hf).
      exists r, text. split; [right; exact Hr | split; assumption]. }
    cbn [parse_loop] in H.
    destruct (rx_match MODULE_PATTERN None (rstrip raw)) as [[caps s] |].
    + destruct rest as [| next rest']; [exact (Hrest _ H) |].
      destruct (rx_match CANVAS_ID_PATTERN None (rstrip next)) as [[id_caps s'] |];
        [destruct (String.eqb (group 1 id_caps) "module_id") |];
        try exact (Hrest _ H).
      destruct (IH _ _ H) as (r & text & Hr & Hm & Hf).
      exists r, text. split; [right; right; exact Hr | split; assumption].
    + destruct (rx_match ITEM_PATTERN None (rstrip raw)) as [[caps s] |];
        [| exact (Hrest _ H)].
      destruct modules as [| m modules]; [exact (Hrest _ H) |].
      destruct (_parse_item_lines rest new_item_state) as [st rest'] eqn:Elines.
      destruct (parse_item_lines_metadata _ _ _ _ Elines) as [Hin Hmeta].
      assert (Hlater : forall modules0,
                parse_loop fuel rest' modules0 = None ->
                exists r text,
                  In r (raw :: rest) /\ metadata_of r = Some ("points", text)
                  /\ py_float text = None).
      { intros modules0 H0. destruct (IH _ _ H0) as (r & text & Hr & Hm & Hf).
        exists r, text. split; [right; apply Hin; exact Hr | split; assumption]. }
      destruct (make_item (lower (group 1 caps)) (group 2 caps) st) as [[it |] |] eqn:E;
        [exact (Hlater _ H) | exact (Hlater _ H) |].
      destruct (make_item_fails _ _ _ E) as (text & Hpoints & Htext).
      destruct (Hmeta _ _ Hpoints) as [Hold | (r & Hr & Hm)].
      * cbn [new_item_state metadata] in Hold. rewrite lookup_empty in Hold.
        discriminate Hold.
      * exists r, text. split; [right; exact Hr | split; assumption].
Qed.

(** X28. The parser fails on points only: when [parse] raises, a line of
    the file reads as metadata with the key [points] (in any case) and a
    value that [float] does not read; every other file gives its
    modules. *)
Theorem parse_fails_on_points_only (content : string) :
  parse content = None ->
  exists raw text,
    In raw (split_on newline content)
    /\ metadata_of raw = Some ("points", text) /\ py_float text = None.
Proof.
  unfold parse. apply parse_loop_fails.
Qed.

Lemma make_item_as_parsed item_type title st it :
  make_item item_type title st = Some (Some it) -> as_parsed it.
Proof.
  unfold make_item.
  repeat match goal with
         | |- context [if String.eqb ?a ?b then _ else _] => destruct (String.eqb a b)
         end;
    try (intros [= <-]; cbn [as_parsed]; auto; fail).
  - destruct (metadata st !! "url") as [url |]; [| discriminate].
    destruct (nonempty url) eqn:E; [| discriminate]. intros [= <-]. exact E.
  - destruct (points_of st); [| discriminate]. intros [= <-].
    cbn [as_parsed Assignment.canvas_id Assignment.canvas_url Assignment.submission_types].
    split; [reflexivity | split; [reflexivity |]].
    apply parse_submission_types_nonempty.
  - destruct (points_of st); [| discriminate]. intros [= <-]. split; reflexivity.
Qed.

Lemma add_to_last_as_parsed it modules :
  as_parsed it -> Forall module_as_parsed modules ->
  Forall module_as_parsed (add_to_last it modules).
Proof.
  intros Hit H. induction H as [| m modules [Hid Hitems] Hrest IH]; [constructor |].
  destruct modules as [| m' modules].
  - constructor; [| constructor]. split; [exact Hid |].
    cbn [Module_.items]. apply Forall_app. split; [exact Hitems | repeat constructor; exact Hit].
  - change (add_to_last it (m :: m' :: modules))
      with (m :: add_to_last it (m' :: modules)).
    constructor; [split; assumption | exact IH].
Qed.

Lemma parse_loop_as_parsed : forall fuel lines modules out,
  Forall module_as_parsed modules ->
  parse_loop fuel lines modules = Some out ->
  Forall module_as_parsed out.
Proof.
  induction fuel as [| fuel IH]; intros lines modules out Hm H.
  - destruct lines; injection H as <-; exact Hm.
  - destruct lines as [| raw rest]; [injection H as <-; exact Hm |].
    cbn [parse_loop] in H.
    assert (Hnew : forall t id,
              Forall module_as_parsed (modules ++ [Module_.mk t [] VNone id])).
    { intros t id. apply Forall_app. split; [exact Hm |].
      repeat constructor. }
    destruct (rx_match MODULE_PATTERN None (rstrip raw)) as [[caps s] |].
    + destruct rest as [| next rest']; [exact (IH _ _ _ (Hnew _ _) H) |].
      destruct (rx_match CANVAS_ID_PATTERN None (rstrip next)) as [[id_caps s'] |];
        [destruct (String.eqb (group 1 id_caps) "module_id") |];
        exact (IH _ _ _ (Hnew _ _) H).
    + destruct (rx_match ITEM_PATTERN None (rstrip raw)) as [[caps s] |];
        [| exact (IH _ _ _ Hm H)].
      destruct modules as [| m modules]; [exact (IH _ _ _ Hm H) |].
      destruct (_parse_item_lines rest new_item_state) as [st rest'].
      destruct (make_item (lower (group 1 caps)) (group 2 caps) st) as [[it |] |] eqn:E;
        [| exact (IH _ _ _ Hm H) | discriminate H].
      apply (IH _ _ _ (add_to_last_as_parsed _ _ (make_item_as_parsed _ _ _ _ E) Hm) H).
Qed.

(** X29. What the parser hands to the builder: in the modules that
    [parse] returns, every link has a URL that is not empty, every
    assignment has at least one submission type, and no module, page,
    assignment, discussion or file has been given an identity or an
    address of the service by the parser; these are for the builder to
    set. *)
Theorem parsed_objects_are_new (content : string) (modules : list Module_.t) :
  parse content = Some modules -> Forall module_as_parsed modules.
Proof.
  unfold parse. apply parse_loop_as_parsed. constructor.
Qed.

End Builder.

(** * Examples *)

Local Abbreviation example_url := "https://canvas.example".
Local Abbreviation example_course := "7".

(** The two texts of C8 under the stand-in parser: both normalise to
    [bold text]. *)
Lemma normalize_bold_equivalence_witness :
  normalize_html unescape_basic feed_tags "**Bold** text" =
  normalize_html unescape_basic feed_tags "<strong>Bold</strong> text"
  /\ exists text, normalize_html unescape_basic feed_tags "**Bold** text" = Ok text.
Proof.
  apply (normalize_bold_equivalence unescape_basic feed_tags); reflexivity.
Defined.

Example normalize_bold_value :
  normalize_html unescape_basic feed_tags "**Bold** text" = Ok "bold text"
  /\ normalize_html unescape_basic feed_tags "<strong>Bold</strong> text" = Ok "bold text"
  /\ normalize_html unescape_basic feed_fails "<strong>Bold</strong> text" = Ok "bold text".
Proof. repeat split; vm_compute; reflexivity. Qed.

(** A text whose tags the stand-in parser cannot read: the fallback. *)
Lemma normalize_html_raises_with_unescape_only_witness :
  (exists text,
     normalize_html unescape_basic feed_fails "Tom &amp; <b>Jerry</b>" = Ok text)
  /\ forall e,
       nonempty "Tom &amp; <b>Jerry</b>" = true ->
       feed_fails (markdown_to_html_basic "Tom & <b>Jerry</b>") = Raise e ->
       normalize_html unescape_basic feed_fails "Tom &amp; <b>Jerry</b>" =
       Ok (lower (strip (rx_sub spaces_re (fun _ => " ")
             (rx_sub tag_re (fun _ => " ")
                (markdown_to_html_basic "Tom & <b>Jerry</b>"))))).
Proof.
  apply (proj1 (proj2 (normalize_html_raises_with_unescape_only unescape_basic
                         feed_fails "Tom &amp; <b>Jerry</b>"))).
  vm_compute. reflexivity.
Defined.

Example normalize_fallback_value :
  normalize_html unescape_basic feed_fails "Tom &amp; <b>Jerry</b>" = Ok "tom & jerry".
Proof. vm_compute. reflexivity. Qed.

(** C9 as stated fails: [html.unescape] raises on a decimal character
    reference of 4301 digits, and so does the normaliser, whatever the
    markup parser does. *)
Lemma normalize_html_can_raise :
  String.length long_reference_text = 4304
  /\ unescape_basic (strip long_reference_text) = Raise ValueError
  /\ normalize_html unescape_basic feed_tags long_reference_text = Raise ValueError
  /\ normalize_html unescape_basic feed_fails long_reference_text = Raise ValueError.
Proof. repeat split; vm_compute; reflexivity. Qed.

(** A graded forum against a snapshot without assignment sub-record. *)
Lemma graded_flag_transition_witness :
  exists r, compare_discussion unescape_basic feed_tags forum (VDict forum_snapshot) = Ok r
            /\ has_changes r = true
            /\ In "graded_status" (changed_fields r).
Proof.
  destruct (proj1 (proj2 (graded_flag_transition unescape_basic feed_tags forum
                            (VDict forum_snapshot)))
              forum_snapshot "discuss." "discuss." eq_refl
              ltac:(vm_compute; reflexivity) ltac:(vm_compute; reflexivity)
              (or_intror eq_refl)) as [r Hr].
  exists r. split; [exact Hr |].
  destruct (proj1 (graded_flag_transition unescape_basic feed_tags forum
                     (VDict forum_snapshot)) r Hr) as (d & Hd & Hgraded & _).
  injection Hd as <-. apply Hgraded; reflexivity.
Defined.

(** C5 as stated fails: against a snapshot without assignment sub-record
    whose message is a number, and for a graded forum whose message holds a
    long character reference, the comparison raises and reports nothing. *)
Lemma graded_comparison_can_raise :
  Discussion.graded forum = true
  /\ truthy (dict_get "assignment" VNone numeric_snapshot) = false
  /\ compare_discussion unescape_basic feed_tags forum (VDict numeric_snapshot)
     = Raise AttributeError
  /\ Discussion.graded forum_with_long_reference = true
  /\ truthy (dict_get "assignment" VNone forum_snapshot) = false
  /\ compare_discussion unescape_basic feed_tags forum_with_long_reference
       (VDict forum_snapshot) = Raise ValueError.
Proof. repeat split; vm_compute; reflexivity. Qed.



(** A module with an identity in a new builder, whose cache is empty. *)
Lemma update_without_snapshot_witness :
  sent (snd (sync_module repr_unknown failing_service 1 week_one
               (new_builder example_url example_course))) =
  [update_module repr_unknown (VInt 1) "Week 1" 1].
Proof.
  exact (proj1 (update_without_snapshot unescape_basic feed_tags repr_unknown 0%Z
                  failing_service example_url example_course)
           1 week_one (IdInt 1) (new_builder example_url example_course)
           eq_refl eq_refl eq_refl).
Defined.

(** A whole run in which every read of Phase 0 fails: the module is
    updated all the same. *)
Example update_after_failed_fetch :
  requests_of example_url example_course
    (build unescape_basic feed_tags repr_unknown 0%Z failing_service
       example_url example_course [week_one] false) =
  [get_module repr_unknown (VInt 1);
   get_module_item repr_unknown (VInt 1) (VInt 2);
   update_module repr_unknown (VInt 1) "Week 1" 1].
Proof. vm_compute. reflexivity. Qed.





(** The requests of that run: three reads, the update of the body of the
    page in Phase 2 and the two updates of placements in Phase 3. *)
Example synced_run_requests :
  requests_of example_url example_course
    (build unescape_basic feed_tags repr_unknown 0%Z week_three_service
       example_url example_course [week_three] false) =
  [get_module repr_unknown (VInt 3);
   get_module_item repr_unknown (VInt 3) (VInt 31);
   get_page repr_unknown (VStr "notes");
   update_page repr_unknown (VStr "notes")
     ("See " +:+ anchor "https://canvas.example/courses/7/pages/notes" "Notes"
      +:+ " again.") None;
   update_module_item repr_unknown (VInt 3) (VInt 31)
     [("title", VStr "Intro"); ("position", VInt 1)];
   update_module_item repr_unknown (VInt 3) (VInt 32) [("position", VInt 2)]].
Proof. vm_compute. reflexivity. Qed.



Example resolve_mixed_value :
  resolve repr_unknown
    (register_page (new_resolver example_url example_course)
       (Page.mk "Policies" "Be kind." (VInt 11)
          (VStr "https://canvas.example/courses/7/pages/policies") None None))
    "See [[Page:Policies]] and [[Page: Missing ]]."
  = "See " +:+ anchor "https://canvas.example/courses/7/pages/policies" "Policies"
    +:+ " and Missing.".
Proof. vm_compute. reflexivity. Qed.

(** * Examples of the further properties *)

(** Two types, written as the service names them. *)
Lemma parse_submission_types_of_values_witness :
  _parse_submission_types (Some "online_upload, online_url") =
  [ONLINE_UPLOAD; ONLINE_URL].
Proof.
  apply (parse_submission_types_of_values [ONLINE_UPLOAD; ONLINE_URL]). discriminate.
Defined.

(** A value with a short name and an unknown one. *)
Lemma parse_submission_types_never_empty_witness :
  (exists s part,
     Some "upload, nothing" = Some s /\ In part (split_on ","%char s)
     /\ assoc (lower (strip part)) submission_types_mapping = Some ONLINE_UPLOAD)
  \/ (ONLINE_UPLOAD = ONLINE_TEXT
      /\ forall s, Some "upload, nothing" = Some s ->
           Forall (fun part => submission_type_of part = None)
             (split_on ","%char s)).
Proof.
  apply (proj2 (parse_submission_types_never_empty (Some "upload, nothing"))
           ONLINE_UPLOAD).
  left. reflexivity.
Defined.

Lemma parse_grade_display_of_canvas_witness :
  exists s, Some " Points " = Some s
            /\ strip (lower s) = to_canvas (_parse_grade_display (Some " Points ")).
Proof.
  apply (proj2 parse_grade_display_of_canvas (Some " Points ")).
  vm_compute. discriminate.
Defined.

Lemma metadata_values_ignore_blanks_and_case_witness :
  _parse_bool (" " +:+ "Yes" +:+ "  ") = _parse_bool "Yes"
  /\ _parse_bool (lower "Yes") = _parse_bool "Yes"
  /\ _parse_grade_display (Some (" " +:+ "Yes" +:+ "  ")) =
     _parse_grade_display (Some "Yes")
  /\ _parse_grade_display (Some (lower "Yes")) = _parse_grade_display (Some "Yes")
  /\ forall b, _parse_bool (bool_text b) = b.
Proof.
  apply (metadata_values_ignore_blanks_and_case " " "Yes" "  "); reflexivity.
Defined.

(** A document with one line of frontmatter. *)
Lemma extract_frontmatter_of_block_witness :
  extract_frontmatter yaml_flat
    ("---" +:+ newline_text +:+ "course_id: 7" +:+ newline_text
     +:+ "---" +:+ newline_text +:+ "# Week 1")
  = Ok (VDict [("course_id", VStr "7")], "# Week 1").
Proof.
  apply (proj1 (extract_frontmatter_of_block yaml_flat "course_id: 7" "# Week 1"
                  ltac:(constructor; [reflexivity | constructor]))
           (VDict [("course_id", VStr "7")])).
  vm_compute. reflexivity.
Defined.

(** A frontmatter that is no YAML for the stand-in, and one with a date
    whose month is 13. *)
Example extract_frontmatter_errors :
  extract_frontmatter yaml_flat
    ("---" +:+ newline_text +:+ "no colon" +:+ newline_text
     +:+ "---" +:+ newline_text +:+ "# Week 1")
  = Ok (VDict [], "# Week 1")
  /\ extract_frontmatter yaml_flat_dates
       ("---" +:+ newline_text +:+ "d: 2026-13-45" +:+ newline_text
        +:+ "---" +:+ newline_text +:+ "# Week 1")
     = Raise ValueError.
Proof. split; vm_compute; reflexivity. Qed.

(** A document without frontmatter. *)
Lemma extract_frontmatter_keeps_the_rest_witness :
  extract_frontmatter yaml_flat "# Week 1" = Ok (VDict [], "# Week 1").
Proof.
  apply (proj1 (proj2 (extract_frontmatter_keeps_the_rest yaml_flat "# Week 1"))
           "# Week 1" []); [reflexivity | left; reflexivity].
Defined.

Lemma trailing_slashes_do_not_count_witness :
  get_keychain_username ("https://canvas.example" +:+ "//") "7" =
  get_keychain_username "https://canvas.example" "7"
  /\ _url ("https://canvas.example" +:+ "//") "7" "pages" =
     _url "https://canvas.example" "7" "pages"
  /\ forall other,
       get_keychain_username "https://canvas.example" "7" =
       get_keychain_username "https://canvas.example" other ->
       "7" = other.
Proof.
  apply (trailing_slashes_do_not_count "https://canvas.example" "//" "7" "pages").
  reflexivity.
Defined.

(** A listing with one file, asked for in another case. *)
Lemma get_file_by_name_matches_witness :
  In (VDict [("display_name", VStr "Syllabus.PDF"); ("id", VInt 5)])
    [VDict [("display_name", VStr "Syllabus.PDF"); ("id", VInt 5)]]
  /\ exists name,
       named (VDict [("display_name", VStr "Syllabus.PDF"); ("id", VInt 5)]) name
       /\ lower name = lower "syllabus.pdf".
Proof.
  apply (proj1 (get_file_by_name_matches "syllabus.pdf"
                  [VDict [("display_name", VStr "Syllabus.PDF"); ("id", VInt 5)]])).
  reflexivity.
Defined.

(** A listing in which a file with the name in another case comes
    first. *)
Lemma get_file_by_name_prefers_exact_witness :
  get_file_by_name "notes.pdf"
    ([VDict [("display_name", VStr "NOTES.pdf")]]
     ++ VDict [("display_name", VStr "notes.pdf")] :: [])
  = Ok (Some (VDict [("display_name", VStr "notes.pdf")])).
Proof.
  apply (get_file_by_name_prefers_exact "notes.pdf"
           [VDict [("display_name", VStr "NOTES.pdf")]] []
           [("display_name", VStr "notes.pdf")]); [reflexivity |].
  constructor; [| constructor].
  eexists. split; [reflexivity | discriminate].
Defined.

(** A body with one placeholder, with no target registered. *)
Lemma resolve_replaces_each_placeholder_witness :
  resolve repr_unknown (new_resolver example_url example_course)
    (render [Text "See "; Ref "Page" " Policies "; Text "."])
  = concat_strings
      (map (resolved_segment repr_unknown (new_resolver example_url example_course))
         [Text "See "; Ref "Page" " Policies "; Text "."]).
Proof.
  apply (resolve_replaces_each_placeholder repr_unknown
           (new_resolver example_url example_course)
           [Text "See "; Ref "Page" " Policies "; Text "."]).
  constructor; [reflexivity |]. constructor; [| constructor; [reflexivity | constructor]].
  split; [left; reflexivity | split; reflexivity].
Defined.

Example resolve_value :
  resolve repr_unknown (new_resolver example_url example_course)
    (render [Text "See "; Ref "Page" " Policies "; Text "."])
  = "See Policies.".
Proof. vm_compute. reflexivity. Qed.

(** A page registered with a URL, named in capitals between blanks. *)
Lemma registered_target_is_linked_witness :
  resolve repr_unknown
    (register_page (new_resolver example_url example_course)
       (Page.mk "Policies" "Be kind." (VInt 11)
          (VStr "https://canvas.example/courses/7/pages/policies") None None))
    (placeholder "Page" " POLICIES ")
  = anchor "https://canvas.example/courses/7/pages/policies" "POLICIES".
Proof.
  apply (proj1 (registered_target_is_linked repr_unknown
                  (new_resolver example_url example_course) " POLICIES "
                  eq_refl eq_refl)
           (Page.mk "Policies" "Be kind." (VInt 11)
              (VStr "https://canvas.example/courses/7/pages/policies") None None));
    reflexivity.
Defined.

(** An assignment due on January 15 against a snapshot with that time in
    UTC. *)
Lemma local_due_date_never_matches_witness :
  In "due_date" (changed_fields (detection ["due_date"]))
  /\ has_changes (detection ["due_date"]) = true.
Proof.
  apply (local_due_date_never_matches unescape_basic feed_tags 0%Z report jan_15
           report_snapshot (detection ["due_date"]));
    [reflexivity | reflexivity | | vm_compute; reflexivity].
  right. eexists. split; reflexivity.
Defined.

(** An assignment without due date against a snapshot with one. *)
Lemma removed_due_date_is_not_sent_witness :
  In "due_date" (changed_fields (detection ["due_date"]))
  /\ dict_lookup "assignment[due_at]"
       (data (update_assignment_full repr_unknown 0%Z (VInt 12) "Essay" "Write."
                (whole 10) None "points" ["online_upload"])) = None.
Proof.
  apply (removed_due_date_is_not_sent unescape_basic feed_tags repr_unknown 0%Z
           essay essay_snapshot (detection ["due_date"]) (VInt 12));
    [reflexivity | reflexivity | vm_compute; reflexivity].
Defined.

(** A page against the snapshot that holds its title and its body. *)
Lemma echoed_values_are_unchanged_witness :
  compare_page unescape_basic feed_tags policies_page
    (VDict [("title", VStr "Policies"); ("body", VStr "Be kind.")])
  = Ok (detection []).
Proof.
  apply (proj1 (proj1 (echoed_values_are_unchanged unescape_basic feed_tags)
                  policies_page
                  [("title", VStr "Policies"); ("body", VStr "Be kind.")]
                  eq_refl eq_refl) "be kind.").
  vm_compute. reflexivity.
Defined.

(** A discussion that is not graded and has points and a due date. *)
Lemma ungraded_discussion_sends_no_grading_fields_witness :
  exists ext,
    sent (snd (_create_or_update_item unescape_basic feed_tags repr_unknown 0%Z
                 failing_service example_url example_course (0, 0)
                 (IDiscussion ungraded_forum)
                 (new_builder example_url example_course)))
    = sent (new_builder example_url example_course) ++ ext
    /\ Forall no_grading_fields ext.
Proof.
  apply (ungraded_discussion_sends_no_grading_fields unescape_basic feed_tags
           repr_unknown 0%Z failing_service example_url example_course (0, 0)
           ungraded_forum).
  reflexivity.
Defined.

(** A module without identity. *)
Lemma new_entity_is_created_witness :
  sent (snd (sync_module repr_unknown failing_service 2 week_two
               (new_builder example_url example_course)))
  = sent (new_builder example_url example_course) ++ [create_module "Week 2" 2].
Proof.
  apply (proj1 (new_entity_is_created unescape_basic feed_tags repr_unknown 0%Z
                  failing_service example_url example_course)
           2 week_two (new_builder example_url example_course)).
  reflexivity.
Defined.

(** A module whose snapshot has another name. *)
Lemma changed_entity_is_updated_witness :
  sent (snd (sync_module repr_unknown failing_service 1 week_one
               (with_cache (store_module (IdInt 1) renamed_snapshot)
                  (new_builder example_url example_course))))
  = sent (with_cache (store_module (IdInt 1) renamed_snapshot)
            (new_builder example_url example_course))
    ++ [update_module repr_unknown (VInt 1) "Week 1" 1].
Proof.
  apply (proj1 (changed_entity_is_updated unescape_basic feed_tags repr_unknown 0%Z
                  failing_service example_url example_course)
           1 week_one
           (with_cache (store_module (IdInt 1) renamed_snapshot)
              (new_builder example_url example_course))
           (IdInt 1)).
  exists renamed_snapshot, (detection ["title"]).
  split; [reflexivity |]. split; [| split; reflexivity].
  unfold comparison_data. cbn [canvas_data_cache with_cache cache_modules store_module].
  rewrite lookup_insert_eq. reflexivity.
Defined.

(** A page whose snapshot holds the same values. *)
Lemma unchanged_entity_is_skipped_witness :
  fst (_create_or_update_item unescape_basic feed_tags repr_unknown 0%Z
         failing_service example_url example_course (0, 0) (IPage policies_page)
         (with_cache (store_page (IdInt 11) (VDict policies_snapshot))
            (new_builder example_url example_course))) = Ok tt
  /\ sent (snd (_create_or_update_item unescape_basic feed_tags repr_unknown 0%Z
                  failing_service example_url example_course (0, 0)
                  (IPage policies_page)
                  (with_cache (store_page (IdInt 11) (VDict policies_snapshot))
                     (new_builder example_url example_course))))
     = sent (with_cache (store_page (IdInt 11) (VDict policies_snapshot))
               (new_builder example_url example_course))
  /\ pages (resolver
              (snd (_create_or_update_item unescape_basic feed_tags repr_unknown 0%Z
                      failing_service example_url example_course (0, 0)
                      (IPage policies_page)
                      (with_cache (store_page (IdInt 11) (VDict policies_snapshot))
                         (new_builder example_url example_course)))))
       !! lower (Page.title policies_page)
     = Some (Page.mk (Page.title policies_page) (Page.content policies_page)
               (val_of_ident (IdInt 11))
               (dict_get "html_url"
                  (default_url repr_unknown example_url example_course "pages" (IdInt 11))
                  policies_snapshot)
               (Page.canvas_page_id policies_page)
               (Page.canvas_module_item_id policies_page)).
Proof.
  apply (proj1 (unchanged_entity_is_skipped unescape_basic feed_tags repr_unknown 0%Z
                  failing_service example_url example_course)
           (0, 0) policies_page
           (with_cache (store_page (IdInt 11) (VDict policies_snapshot))
              (new_builder example_url example_course))
           (IdInt 11) policies_snapshot (detection []));
    [reflexivity | | vm_compute; reflexivity | reflexivity].
  unfold comparison_data. cbn [canvas_data_cache with_cache cache_pages store_page].
  rewrite lookup_insert_eq. reflexivity.
Defined.

(** The run of [update_after_failed_fetch]: the update of the module is a
    write that fails, and it is the last request. *)
Lemma failed_write_ends_the_run_witness :
  requests_of example_url example_course
    (build unescape_basic feed_tags repr_unknown 0%Z failing_service
       example_url example_course [week_one] false) =
  [get_module repr_unknown (VInt 1); get_module_item repr_unknown (VInt 1) (VInt 2)]
  ++ update_module repr_unknown (VInt 1) "Week 1" 1 :: []
  /\ @nil request = [].
Proof.
  assert (H : requests_of example_url example_course
                (build unescape_basic feed_tags repr_unknown 0%Z failing_service
                   example_url example_course [week_one] false) =
              [get_module repr_unknown (VInt 1);
               get_module_item repr_unknown (VInt 1) (VInt 2)]
              ++ update_module repr_unknown (VInt 1) "Week 1" 1 :: [])
    by (vm_compute; reflexivity).
  split; [exact H |].
  exact (failed_write_ends_the_run unescape_basic feed_tags repr_unknown 0%Z
           failing_service example_url example_course [week_one] _ _ _ HTTPError
           H eq_refl eq_refl).
Defined.


Example placement_requests :
  positions [week_three] = [1; 2]
  /\ sent (snd (placement repr_unknown week_three_service
                  (with_tree (fun _ => [week_three])
                     (new_builder example_url example_course)))) =
     [update_module_item repr_unknown VNone (VInt 31)
        [("title", VStr "Intro"); ("position", VInt 1)];
      update_module_item repr_unknown VNone (VInt 32) [("position", VInt 2)]].
Proof. split; vm_compute; reflexivity. Qed.

Lemma files_are_listed_when_needed_witness :
  Forall no_listing
    (requests_of example_url example_course
       (build unescape_basic feed_tags repr_unknown 0%Z week_one_service
          example_url example_course [week_one] false)).
Proof.
  apply (proj2 (files_are_listed_when_needed unescape_basic feed_tags repr_unknown
                  0%Z week_one_service example_url example_course [week_one] false)).
  reflexivity.
Defined.

Lemma markdown_keeps_unmarked_text_witness :
  markdown_to_html_basic "Be kind." = "Be kind.".
Proof. apply (markdown_keeps_unmarked_text "Be kind."). reflexivity. Defined.

Lemma normalize_html_normal_form_witness :
  lower "hello world" = "hello world" /\ strip "hello world" = "hello world"
  /\ single_spaced "hello world" = true.
Proof.
  apply (normalize_html_normal_form unescape_basic feed_tags "  Hello   World ").
  vm_compute. reflexivity.
Defined.

(** The module [week_one] in a new builder, whose cache is empty. *)
Lemma preview_agrees_with_phase_1_witness :
  exists ext,
    sent (snd (sync_module repr_unknown failing_service 1 week_one
                 (new_builder example_url example_course)))
    = sent (new_builder example_url example_course) ++ ext
    /\ mode_says "UPDATE (no comparison data)" "CREATE" "SKIP (no changes)"
         "UPDATE (no comparison data)" "UPDATE (changed: " ")"
         (create_module "Week 1" 1)
         (fun id => update_module repr_unknown id "Week 1" 1) ext.
Proof.
  apply (proj1 (preview_agrees_with_phase_1 unescape_basic feed_tags repr_unknown 0%Z
                  failing_service example_url example_course)
           1 week_one (new_builder example_url example_course)
           "UPDATE (no comparison data)").
  reflexivity.
Defined.

(** The course file [course_text]: its two heading lines give the two
    modules, the second one out of the body of the page. *)
Lemma modules_are_the_heading_lines_witness :
  exists modules,
    parse int_of_digits float_of_digits no_dates course_text = Some modules
    /\ map Module_.title modules = omap heading (split_on newline course_text).
Proof.
  eexists. split; [vm_compute; reflexivity |].
  apply (proj2 (modules_are_the_heading_lines int_of_digits float_of_digits no_dates
                  course_text)).
  vm_compute. reflexivity.
Defined.

Example titles_of_course_text :
  option_map (map Module_.title)
    (parse int_of_digits float_of_digits no_dates course_text)
  = Some ["Week 1"; "Inside"].
Proof. vm_compute. reflexivity. Qed.

(** A file whose points are the text [many]. *)
Lemma parse_fails_on_points_only_witness :
  exists raw text,
    In raw (split_on newline course_text_with_bad_points)
    /\ metadata_of raw = Some ("points", text) /\ float_of_digits text = None.
Proof.
  apply (parse_fails_on_points_only int_of_digits float_of_digits no_dates
           course_text_with_bad_points).
  vm_compute. reflexivity.
Defined.

Lemma parsed_objects_are_new_witness :
  exists modules,
    parse int_of_digits float_of_digits no_dates course_text = Some modules
    /\ Forall module_as_parsed modules.
Proof.
  eexists. split; [vm_compute; reflexivity |].
  apply (parsed_objects_are_new int_of_digits float_of_digits no_dates course_text).
  vm_compute. reflexivity.
Defined.
